(** * isatools.isajson: loading and validating ISA-JSON documents

    A shallow embedding of [src/isatools/isajson.py]: the object-graph
    loader [load] with its provenance-graph builder [_build_assay_graph],
    the report-based validator [validate] / [validate_isajson] with its
    reference walkers, and the rule-based checkers run by [validate2].

    Python values that come out of [json.load] are modelled by the type
    [json]; Python exceptions by the error monad [res]; Python dicts used
    as registries by stdpp's [gmap]; Python sets by [gset]. *)

From Stdlib Require Import ZArith Ascii String.
From stdpp Require Import base decidable countable gmap strings pretty list fin_maps.

(* stdpp's set_solver clears hypotheses by name. *)
Local Set Warnings "-clear-no-such-hyp".

Local Open Scope string_scope.
Local Open Scope list_scope.

(** ** Python values *)

(** What [json.load] returns.  JSON numbers are modelled at the integers
    (Python [int]); a JSON object is a Python [dict] with string keys, kept
    in insertion order, whose keys are pairwise distinct. *)
#[warnings="-register-all"]
Inductive json : Type :=
  | JNull
  | JBool (b : bool)
  | JInt (z : Z)
  | JStr (s : string)
  | JList (l : list json)
  | JDict (d : list (string * json)).

(** The exceptions the modelled code can raise. *)
Inductive exn : Type :=
  | KeyError
  | TypeError
  | AttributeError
  | ValueError
  | SystemError
  | ValidationError
  | IOError (msg : string).

Inductive res (A : Type) : Type :=
  | Ok (a : A)
  | Raise (e : exn).
Arguments Ok {A} a.
Arguments Raise {A} e.

Definition res_bind {A B : Type} (m : res A) (k : A -> res B) : res B :=
  match m with
  | Ok a => k a
  | Raise e => Raise e
  end.

Notation "'let*' x ':=' m 'in' k" := (res_bind m (fun x => k))
  (at level 10, x pattern, m at level 100, k at level 200).

(** [for x in xs: st = body(st, x)], stopping at the first exception. *)
Fixpoint for_each {A S : Type} (body : S -> A -> res S) (xs : list A) (st : S) : res S :=
  match xs with
  | [] => Ok st
  | x :: xs' => let* st' := body st x in for_each body xs' st'
  end.

(** [[f(x) for x in xs]], stopping at the first exception. *)
Fixpoint map_res {A B : Type} (f : A -> res B) (xs : list A) : res (list B) :=
  match xs with
  | [] => Ok []
  | x :: xs' => let* y := f x in let* ys := map_res f xs' in Ok (y :: ys)
  end.

(** [d[k]] read on an association list that stands for a [dict]. *)
Fixpoint assoc (k : string) (d : list (string * json)) : option json :=
  match d with
  | [] => None
  | (k', v) :: d' => if String.eqb k k' then Some v else assoc k d'
  end.

(** [j[k]] for a string [k]: [KeyError] on a dict without the key,
    [TypeError] on anything that is not a dict. *)
Definition getitem (j : json) (k : string) : res json :=
  match j with
  | JDict d => match assoc k d with
               | Some v => Ok v
               | None => Raise KeyError
               end
  | _ => Raise TypeError
  end.

(** [set(j.keys())] of a dict. *)
Definition keys (d : list (string * json)) : gset string :=
  list_to_set (map fst d).

Definition chars (s : string) : list json :=
  map (fun c => JStr (String c EmptyString)) (list_ascii_of_string s).

(** [for x in j]: the elements of a list, the keys of a dict, the
    characters of a string; [TypeError] on [None], booleans and numbers. *)
Definition iter (j : json) : res (list json) :=
  match j with
  | JList l => Ok l
  | JDict d => Ok (map (fun kv => JStr (fst kv)) d)
  | JStr s => Ok (chars s)
  | _ => Raise TypeError
  end.

(** Python's [==] on loaded values: [True == 1] and [False == 0] hold,
    dicts compare regardless of the order of their keys. *)
Fixpoint py_eq (a b : json) {struct a} : bool :=
  match a, b with
  | JNull, JNull => true
  | JBool x, JBool y => Bool.eqb x y
  | JBool x, JInt y => Z.eqb (Z.b2z x) y
  | JInt x, JBool y => Z.eqb x (Z.b2z y)
  | JInt x, JInt y => Z.eqb x y
  | JStr x, JStr y => String.eqb x y
  | JList x, JList y =>
      (fix eq_list (x y : list json) {struct x} : bool :=
         match x, y with
         | [], [] => true
         | a' :: x', b' :: y' => py_eq a' b' && eq_list x' y'
         | _, _ => false
         end) x y
  | JDict x, JDict y =>
      Nat.eqb (length x) (length y) &&
      (fix sub_dict (x : list (string * json)) {struct x} : bool :=
         match x with
         | [] => true
         | (k, v) :: x' =>
             match assoc k y with
             | Some v' => py_eq v v'
             | None => false
             end && sub_dict x'
         end) x
  | _, _ => false
  end.

(** [x in xs] for a Python list [xs]. *)
Definition py_in (x : json) (xs : list json) : bool :=
  existsb (py_eq x) xs.

(** Hashable loaded values, up to [==]: the keys of registries and the
    elements of sets.  [True] and [1] are the same key. *)
Inductive pykey : Type :=
  | KNone
  | KInt (z : Z)
  | KStr (s : string).

Global Instance pykey_eq_dec : EqDecision pykey.
Proof. solve_decision. Defined.

Global Instance pykey_countable : Countable pykey.
Proof.
  refine (inj_countable'
    (fun k => match k with
              | KNone => inl tt
              | KInt z => inr (inl z)
              | KStr s => inr (inr s)
              end)
    (fun x => match x with
              | inl _ => KNone
              | inr (inl z) => KInt z
              | inr (inr s) => KStr s
              end) _).
  intros []; reflexivity.
Defined.

(** [hash(j)]: lists and dicts are unhashable ([TypeError]). *)
Definition hash_key (j : json) : res pykey :=
  match j with
  | JNull => Ok KNone
  | JBool b => Ok (KInt (Z.b2z b))
  | JInt z => Ok (KInt z)
  | JStr s => Ok (KStr s)
  | JList _ | JDict _ => Raise TypeError
  end.

(** [reg[j]] on a registry: [KeyError] when the key is absent. *)
Definition dict_get {V : Type} (reg : gmap pykey V) (j : json) : res V :=
  let* k := hash_key j in
  match reg !! k with
  | Some v => Ok v
  | None => Raise KeyError
  end.

(** [reg[j] = v]. *)
Definition dict_set {V : Type} (reg : gmap pykey V) (j : json) (v : V) : res (gmap pykey V) :=
  let* k := hash_key j in Ok (<[k := v]> reg).

(** [set(xs)]. *)
Definition py_set (xs : list json) : res (gset pykey) :=
  let* ks := map_res hash_key xs in Ok (list_to_set ks).

(** ** Induction over documents

    The induction principle that reaches the elements of lists and the
    values of objects. *)

Section json_induction.
Variable P : json -> Prop.
Hypothesis HNull : P JNull.
Hypothesis HBool : ∀ b, P (JBool b).
Hypothesis HInt : ∀ z, P (JInt z).
Hypothesis HStr : ∀ s, P (JStr s).
Hypothesis HList : ∀ l, Forall P l → P (JList l).
Hypothesis HDict : ∀ d, Forall (fun kv => P (snd kv)) d → P (JDict d).

Fixpoint json_nested_ind (j : json) : P j :=
  match j with
  | JNull => HNull
  | JBool b => HBool b
  | JInt z => HInt z
  | JStr s => HStr s
  | JList l =>
      HList l ((fix go (l : list json) : Forall P l :=
                  match l with
                  | [] => List.Forall_nil P
                  | x :: l' => @List.Forall_cons _ P x l' (json_nested_ind x) (go l')
                  end) l)
  | JDict d =>
      HDict d ((fix go (d : list (string * json)) : Forall (fun kv => P (snd kv)) d :=
                  match d with
                  | [] => List.Forall_nil _
                  | kv :: d' => @List.Forall_cons _ _ kv d' (json_nested_ind (snd kv)) (go d')
                  end) d)
  end.
End json_induction.

(** ** The classes of [isatools.model.v1] used by the loader

    The model classes are plain attribute holders.  Every entity that can
    become a node of a provenance graph carries its object identity
    ([oid], what Python's [id()] tells apart): networkx keys nodes by
    object. *)

Definition oid : Type := nat.

Record Comment := mkComment {
  comment_name : json;
  comment_value : json }.

Record OntologySourceReference := mkOntologySourceReference {
  osr_name : json;
  osr_file : json;
  osr_version : json;
  osr_description : json }.

Record OntologyAnnotation := mkOntologyAnnotation {
  oa_id : option json;
  oa_name : json;
  oa_term_source : option OntologySourceReference;
  oa_term_accession : json }.

(** The value of a characteristic, parameter value or factor value: the
    loaded value itself or an ontology annotation built from it. *)
Inductive pvalue : Type :=
  | VRaw (j : json)
  | VAnnotation (a : OntologyAnnotation).

Record Characteristic := mkCharacteristic {
  char_category : OntologyAnnotation;
  char_value : pvalue;
  char_unit : option OntologyAnnotation }.

Record ProtocolParameter := mkProtocolParameter {
  param_id : json;
  param_parameter_name : OntologyAnnotation }.

Record ProtocolComponent := mkProtocolComponent {
  comp_name : json;
  comp_component_type : OntologyAnnotation }.

Record Protocol := mkProtocol {
  prot_id : json;
  prot_name : json;
  prot_uri : json;
  prot_description : json;
  prot_version : json;
  prot_protocol_type : OntologyAnnotation;
  prot_parameters : list ProtocolParameter;
  prot_components : list ProtocolComponent }.

Record StudyFactor := mkStudyFactor {
  factor_id : json;
  factor_name : json;
  factor_factor_type : OntologyAnnotation }.

Record FactorValue := mkFactorValue {
  fv_factor_name : StudyFactor;
  fv_value : pvalue;
  fv_unit : option OntologyAnnotation }.

Record ParameterValue := mkParameterValue {
  pv_category : ProtocolParameter;
  pv_value : pvalue;
  pv_unit : option OntologyAnnotation }.

Record Source := mkSource {
  source_oid : oid;
  source_id : json;
  source_name : json;
  source_characteristics : list Characteristic }.

Record Sample := mkSample {
  sample_oid : oid;
  sample_id : json;
  sample_name : json;
  sample_derives_from : json;
  sample_characteristics : list Characteristic;
  sample_factor_values : list FactorValue }.

Record Material := mkMaterial {
  material_oid : oid;
  material_id : json;
  material_name : json;
  material_type : json;
  material_characteristics : list Characteristic }.

Record DataFile := mkDataFile {
  data_oid : oid;
  data_id : json;
  data_filename : json;
  data_label : json;
  data_comments : list Comment }.

(** What a process input or output can be after resolution. *)
Inductive entity : Type :=
  | ESource (s : Source)
  | ESample (s : Sample)
  | EMaterial (m : Material)
  | EDataFile (d : DataFile).

(** [isinstance(n, DataFile)]. *)
Definition is_DataFile (n : entity) : bool :=
  match n with
  | EDataFile _ => true
  | _ => false
  end.

Record Process := mkProcess {
  process_oid : oid;
  process_id : json;
  executes_protocol : Protocol;
  process_comments : list Comment;
  process_date : option json;
  process_performer : option json;
  parameter_values : list ParameterValue;
  additional_properties : list (string * json);
  inputs : list entity;
  outputs : list entity;
  prev_process : option oid;
  next_process : option oid }.

(** ** networkx.DiGraph *)

Inductive pyclass : Type := CSource | CSample | CMaterial | CDataFile | CProcess.

Global Instance pyclass_eq_dec : EqDecision pyclass.
Proof. solve_decision. Defined.

Global Instance pyclass_countable : Countable pyclass.
Proof.
  refine (inj_countable'
    (fun c => match c with
              | CSource => 0%nat | CSample => 1%nat | CMaterial => 2%nat
              | CDataFile => 3%nat | CProcess => 4%nat
              end)
    (fun n => match n with
              | 0%nat => CSource | 1%nat => CSample | 2%nat => CMaterial
              | 3%nat => CDataFile | _ => CProcess
              end) _).
  intros []; reflexivity.
Defined.

(** A node is an object: its class and its identity. *)
Definition node : Type := pyclass * oid.

Definition entity_node (n : entity) : node :=
  match n with
  | ESource s => (CSource, source_oid s)
  | ESample s => (CSample, sample_oid s)
  | EMaterial m => (CMaterial, material_oid m)
  | EDataFile d => (CDataFile, data_oid d)
  end.

Definition process_node (o : oid) : node := (CProcess, o).

Record DiGraph := mkDiGraph {
  nodes : gset node;
  edges : gset (node * node) }.

Definition DiGraph_empty : DiGraph := mkDiGraph ∅ ∅.

(** [G.add_edge(u, v)]: both end points become nodes. *)
Definition add_edge (u v : node) (G : DiGraph) : DiGraph :=
  mkDiGraph ({[u; v]} ∪ nodes G) ({[(u, v)]} ∪ edges G).

(** Every node of a graph built by [add_edge] alone is an end point of
    one of its edges. *)
Definition nodes_are_end_points (G : DiGraph) : Prop :=
  ∀ n, n ∈ nodes G ↔ ∃ e, e ∈ edges G ∧ (n = e.1 ∨ n = e.2).

(** ** [load._build_assay_graph] *)

(** First [if] of the loop body: the outputs, else the next process. *)
Definition connect_outputs (G : DiGraph) (process : Process) : DiGraph :=
  if bool_decide (next_process process ≠ None) || (0 <? length (outputs process))%nat then
    if (0 <? length (outputs process))%nat then
      fold_left (fun G output => add_edge (process_node (process_oid process)) (entity_node output) G)
                (List.filter (fun n => negb (is_DataFile n)) (outputs process)) G
    else
      match next_process process with
      | Some next => add_edge (process_node (process_oid process)) (process_node next) G
      | None => G (* not reached: the outer test has failed *)
      end
  else G.

(** Second [if] of the loop body: the inputs, else the previous process. *)
Definition connect_inputs (G : DiGraph) (process : Process) : DiGraph :=
  if bool_decide (prev_process process ≠ None) || (0 <? length (inputs process))%nat then
    if (0 <? length (inputs process))%nat then
      fold_left (fun G input_ => add_edge (entity_node input_) (process_node (process_oid process)) G)
                (inputs process) G
    else
      match prev_process process with
      | Some prev => add_edge (process_node prev) (process_node (process_oid process)) G
      | None => G (* not reached: the outer test has failed *)
      end
  else G.

Definition _build_assay_graph (process_sequence : list Process) : DiGraph :=
  fold_left (fun G process => connect_inputs (connect_outputs G process) process)
            process_sequence DiGraph_empty.

(** ** Helpers for the document walkers *)

(** [d[k]] for a key already tested to be among the keys of [d]. *)
Definition dict_at (d : list (string * json)) (k : string) : json :=
  default JNull (assoc k d).

(** [k in set(d.keys())]. *)
Definition has_key (d : list (string * json)) (k : string) : bool :=
  bool_decide (k ∈ keys d).

(** [x is ''] (the empty string is a single object). *)
Definition is_empty_str (x : json) : bool :=
  match x with
  | JStr "" => true
  | _ => false
  end.

(** [for x in j: st = body(st, x)]. *)
Definition for_in {S : Type} (j : json) (body : S -> json -> res S) (st : S) : res S :=
  let* xs := iter j in for_each body xs st.

(** [for i, x in enumerate(xs): st = body(st, i, x)]. *)
Fixpoint for_each_enum {St : Type} (body : St -> nat -> json -> res St)
    (i : nat) (xs : list json) (st : St) : res St :=
  match xs with
  | [] => Ok st
  | x :: xs' => let* st' := body st i x in for_each_enum body (S i) xs' st'
  end.

(** [try: m except KeyError: handler]. *)
Definition except_KeyError {A : Type} (m : res A) (handler : res A) : res A :=
  match m with
  | Raise KeyError => handler
  | _ => m
  end.

(** [[x for xs in [f(y) for y in ys] for x in xs]]. *)
Definition flat_map_res {A B : Type} (f : A -> res (list B)) (ys : list A) : res (list B) :=
  let* xss := map_res f ys in Ok (concat xss).

(** ** The validation report *)

Inductive severity : Type := Warning | Error | Fatal.

(** What a format string is filled with: a loaded value, or the list made
    of a set, whose order Python leaves open. *)
Inductive fmt_arg : Type :=
  | FValue (j : json)
  | FSet (s : gset pykey)
  | FValues (l : list json).

(** A message: the format string and what [str.format] fills it with. *)
Record message := mkMessage {
  msg_template : string;
  msg_args : list fmt_arg }.

(** Modelled from the spec: [ValidationReport] of [isatools.validate.utils]
    (not under src/), "an ordered, append-only sequence of diagnostics,
    each tagged with severity {warning, error, fatal} and a human-readable
    message", created with the name of the validated file. *)
Record Report := mkReport {
  file_name : string;
  diagnostics : list (severity * message) }.

Definition ValidationReport (name : string) : Report := mkReport name [].

Definition report_add (sev : severity) (report : Report) (m : message) : Report :=
  mkReport (file_name report) (diagnostics report ++ [(sev, m)]).

Definition warn : Report -> message -> Report := report_add Warning.
Definition error : Report -> message -> Report := report_add Error.
Definition fatal : Report -> message -> Report := report_add Fatal.

(** ** The walkers of [validate_isajson] *)

Definition Array_Design_REF : string := "#parameter/Array_Design_REF".

Fixpoint _collect_object_refs (isa_json : json) (object_refs : list json) : list json :=
  match isa_json with
  | JDict d =>
      let object_refs :=
        if has_key d "@id" && (1 <? size (keys d))%nat then
          if negb (py_in (dict_at d "@id") object_refs)
          then object_refs ++ [dict_at d "@id"]
          else object_refs
        else object_refs in
      fold_left (fun acc kv => _collect_object_refs (snd kv) acc) d object_refs
  | JList l => fold_left (fun acc j => _collect_object_refs j acc) l object_refs
  | _ => object_refs
  end.

Fixpoint _collect_id_refs (isa_json : json) (id_refs : list json) : list json :=
  match isa_json with
  | JDict d =>
      let id_refs :=
        if has_key d "@id" && (size (keys d) =? 1)%nat then
          if negb (py_in (dict_at d "@id") id_refs)
          then id_refs ++ [dict_at d "@id"]
          else id_refs
        else id_refs in
      fold_left (fun acc kv => _collect_id_refs (snd kv) acc) d id_refs
  | JList l => fold_left (fun acc j => _collect_id_refs j acc) l id_refs
  | _ => id_refs
  end.

Fixpoint _collect_term_source_refs (isa_json : json) (id_refs : list json) : list json :=
  match isa_json with
  | JDict d =>
      let id_refs :=
        if has_key d "termSource" && (size (keys d) =? 3)%nat then
          if negb (py_in (dict_at d "termSource") id_refs)
          then id_refs ++ [dict_at d "termSource"]
          else id_refs
        else id_refs in
      fold_left (fun acc kv => _collect_term_source_refs (snd kv) acc) d id_refs
  | JList l => fold_left (fun acc j => _collect_term_source_refs j acc) l id_refs
  | _ => id_refs
  end.

Definition object_ref_not_declared (id_ : json) : message :=
  mkMessage "Object reference {} not declared anywhere" [FValue id_].

Fixpoint _check_object_refs (isa_json : json) (object_refs : list json) (report : Report)
    : Report :=
  match isa_json with
  | JDict d =>
      let report :=
        if has_key d "@id" && (size (keys d) =? 1)%nat then
          if negb (py_in (dict_at d "@id") object_refs)
             && negb (py_eq (dict_at d "@id") (JStr Array_Design_REF))
          then error report (object_ref_not_declared (dict_at d "@id"))
          else report
        else report in
      fold_left (fun r kv => _check_object_refs (snd kv) object_refs r) d report
  | JList l => fold_left (fun r j => _check_object_refs j object_refs r) l report
  | _ => report
  end.

Definition object_ref_not_used (obj_ref section : json) : message :=
  mkMessage "Object reference {0} not used anywhere in {1}" [FValue obj_ref; FValue section].

Definition _check_object_usage (section : json) (objects_declared id_refs : list json)
    (report : Report) : Report :=
  fold_left (fun report obj_ref =>
               if negb (py_in obj_ref id_refs)
               then warn report (object_ref_not_used obj_ref section)
               else report)
            objects_declared report.

Definition annotation_keys : gset string :=
  {[ "annotationValue"; "termAccession"; "termSource" ]}.

Definition annotation_keys_with_id : gset string :=
  {[ "@id"; "annotationValue"; "termAccession"; "termSource" ]}.

(** [set(d.keys())] is one of the two key sets of an ontology annotation. *)
Definition is_annotation (d : list (string * json)) : bool :=
  bool_decide (keys d = annotation_keys) || bool_decide (keys d = annotation_keys_with_id).

Definition term_source_not_declared (annotation_value term_source : json) : message :=
  mkMessage "Annotation {0} references {1} term source that has not been declared"
            [FValue annotation_value; FValue term_source].

Fixpoint _check_term_source_refs (isa_json : json) (ontology_source_refs : list json)
    (report : Report) : Report :=
  match isa_json with
  | JDict d =>
      let report :=
        if is_annotation d then
          if negb (py_in (dict_at d "termSource") ontology_source_refs)
          then warn report (term_source_not_declared (dict_at d "annotationValue")
                                                     (dict_at d "termSource"))
          else report
        else report in
      fold_left (fun r kv => _check_term_source_refs (snd kv) ontology_source_refs r) d report
  | JList l => fold_left (fun r j => _check_term_source_refs j ontology_source_refs r) l report
  | _ => report
  end.

(** ** The rule checkers run by [validate2]

    Each checker is modelled by the lines it prints when it returns. *)

(** [a + b]: lists and strings concatenate, numbers add. *)
Definition py_add (a b : json) : res json :=
  match a, b with
  | JList x, JList y => Ok (JList (x ++ y))
  | JStr x, JStr y => Ok (JStr (x ++ y))
  | JInt x, JInt y => Ok (JInt (x + y))
  | JInt x, JBool y => Ok (JInt (x + Z.b2z y))
  | JBool x, JInt y => Ok (JInt (Z.b2z x + y))
  | JBool x, JBool y => Ok (JInt (Z.b2z x + Z.b2z y))
  | _, _ => Raise TypeError
  end.

(** [k in j.keys()]: [AttributeError] on anything that has no [keys]. *)
Definition in_keys (k : string) (j : json) : res bool :=
  match j with
  | JDict d => Ok (has_key d k)
  | _ => Raise AttributeError
  end.

(** [[x[k] for x in j]]. *)
Definition items_at (j : json) (k : string) : res (list json) :=
  let* xs := iter j in map_res (fun x => getitem x k) xs.

(** [x[k]['@id']]. *)
Definition ref_at (x : json) (k : string) : res json :=
  let* r := getitem x k in getitem r "@id".

(** The tail shared by the usage checkers:
    [if len(set(used) - set(declared)) > 0: print(...)
     elif len(set(declared) - set(used)) > 0: print(...)]. *)
Definition print_usage (used declared : list json) (not_declared not_used : string)
    : res (list message) :=
  let* u := py_set used in
  let* d := py_set declared in
  if (0 <? size (u ∖ d))%nat then Ok [mkMessage not_declared [FSet (u ∖ d)]]
  else if (0 <? size (d ∖ u))%nat then Ok [mkMessage not_used [FSet (d ∖ u)]]
  else Ok [].

Definition get_study_protocol_ids (study_json : json) : res (list json) :=
  let* protocols := getitem study_json "protocols" in
  items_at protocols "@id".

(** The loops of [check_process_protocol_ids_usage] that fill
    [protocol_ids_used]. *)
Definition executed_protocol_ids (process_sequence : json) (protocol_ids_used : list json)
    : res (list json) :=
  for_in process_sequence
    (fun used process =>
       except_KeyError (let* id_ := ref_at process "executesProtocol" in Ok (used ++ [id_]))
                       (Ok used))
    protocol_ids_used.

Definition protocol_ids_used (study_json : json) : res (list json) :=
  let* process_sequence := getitem study_json "processSequence" in
  let* used := executed_protocol_ids process_sequence [] in
  let* assays := getitem study_json "assays" in
  for_in assays
    (fun used assay =>
       let* process_sequence := getitem assay "processSequence" in
       executed_protocol_ids process_sequence used)
    used.

Definition protocols_not_declared : string :=
  "There are protocol IDs {} used in a study or assay process sequence not declared".
Definition protocols_not_used : string :=
  "There are some protocol IDs declared {} not used in any study or assay process sequence".

Definition check_process_protocol_ids_usage (study_json : json) : res (list message) :=
  let* protocol_ids_declared := get_study_protocol_ids study_json in
  let* protocol_ids_used := protocol_ids_used study_json in
  print_usage protocol_ids_used protocol_ids_declared protocols_not_declared protocols_not_used.

Definition get_study_protocols_parameter_ids (study_json : json) : res (list json) :=
  let* protocols := getitem study_json "protocols" in
  let* ps := iter protocols in
  flat_map_res (fun protocol =>
                  let* parameters := getitem protocol "parameters" in
                  items_at parameters "@id") ps.

(** [[pv['category']['@id'] for pv in process['parameterValues']]] over
    the processes of a sequence. *)
Definition parameter_value_categories (process_sequence : json) : res (list json) :=
  let* ps := iter process_sequence in
  flat_map_res (fun process =>
                  let* pvs := getitem process "parameterValues" in
                  let* pvs := iter pvs in
                  map_res (fun pv => ref_at pv "category") pvs) ps.

Definition get_parameter_value_parameter_ids (study_json : json) : res (list json) :=
  let* process_sequence := getitem study_json "processSequence" in
  let* study_pv_parameter_ids := parameter_value_categories process_sequence in
  let* assays := getitem study_json "assays" in
  for_in assays
    (fun ids assay =>
       let* process_sequence := getitem assay "processSequence" in
       let* more := parameter_value_categories process_sequence in
       Ok (ids ++ more))
    study_pv_parameter_ids.

Definition parameters_not_declared : string :=
  "There are protocol parameters {} used in a study or assay process not declared in any protocol".
Definition parameters_not_used : string :=
  "There are some protocol parameters declared {} not used in any study or assay process".

Definition check_protocol_parameter_ids_usage (study_json : json) : res (list message) :=
  let* protocols_declared := get_study_protocols_parameter_ids study_json in
  let* protocols_used := get_parameter_value_parameter_ids study_json in
  print_usage protocols_used protocols_declared parameters_not_declared parameters_not_used.

Definition get_characteristic_category_ids (study_or_assay_json : json) : res (list json) :=
  let* categories := getitem study_or_assay_json "characteristicCategories" in
  items_at categories "@id".

(** [[c['category']['@id'] for c in material['characteristics']]]. *)
Definition characteristic_categories_of (material : json) : res (list json) :=
  let* cs := getitem material "characteristics" in
  let* cs := iter cs in
  map_res (fun c => ref_at c "category") cs.

Definition get_characteristic_category_ids_in_study_materials (study_json : json)
    : res (list json) :=
  let* materials := getitem study_json "materials" in
  let* sources := getitem materials "sources" in
  let* materials := getitem study_json "materials" in
  let* samples := getitem materials "samples" in
  let* all := py_add sources samples in
  let* ms := iter all in
  flat_map_res characteristic_categories_of ms.

Definition get_characteristic_category_ids_in_assay_materials (assay_json : json)
    : res (list json) :=
  let* materials := getitem assay_json "materials" in
  let* samples := getitem materials "samples" in
  let* materials := getitem assay_json "materials" in
  let* others := getitem materials "otherMaterials" in
  let* all := py_add samples others in
  let* ms := iter all in
  flat_map_res (fun material =>
                  let* has := in_keys "characteristics" material in
                  if has then characteristic_categories_of material else Ok []) ms.

Definition study_categories_not_declared : string :=
  "There are study characteristic categories {} used in a source or sample characteristic that have not been not declared".
Definition study_categories_not_used : string :=
  "There are some study characteristic categories declared {} that have not been used in any source or sample characteristic".
Definition assay_categories_not_declared : string :=
  "There are assay characteristic categories {} used in a material characteristic that have not been not declared".
Definition assay_categories_not_used : string :=
  "There are some assay characteristic categories declared {} that have not been used in any material characteristic".

(** The part of [check_characteristic_category_ids_usage] before its loop
    over the assays. *)
Definition check_study_characteristic_categories (study_json : json) : res (list message) :=
  let* characteristic_categories_declared := get_characteristic_category_ids study_json in
  let* characteristic_categories_used :=
    get_characteristic_category_ids_in_study_materials study_json in
  print_usage characteristic_categories_used characteristic_categories_declared
              study_categories_not_declared study_categories_not_used.

(** The body of the loop over the assays. *)
Definition check_assay_characteristic_categories (assay : json) : res (list message) :=
  let* characteristic_categories_declared := get_characteristic_category_ids assay in
  let* characteristic_categories_used :=
    get_characteristic_category_ids_in_assay_materials assay in
  print_usage characteristic_categories_used characteristic_categories_declared
              assay_categories_not_declared assay_categories_not_used.

Definition check_characteristic_category_ids_usage (study_json : json) : res (list message) :=
  let* out := check_study_characteristic_categories study_json in
  let* assays := getitem study_json "assays" in
  for_in assays
    (fun out assay =>
       let* more := check_assay_characteristic_categories assay in Ok (out ++ more))
    out.

Definition get_study_factor_ids (study_json : json) : res (list json) :=
  let* factors := getitem study_json "factors" in
  items_at factors "@id".

Definition get_study_factor_ids_in_sample_factor_values (study_json : json)
    : res (list json) :=
  let* materials := getitem study_json "materials" in
  let* samples := getitem materials "samples" in
  let* ss := iter samples in
  flat_map_res (fun sample =>
                  let* fvs := getitem sample "factorValues" in
                  let* fvs := iter fvs in
                  map_res (fun factor => ref_at factor "category") fvs) ss.

Definition factors_not_declared : string :=
  "There are study factors {} used in a sample factor value that have not been not declared".
Definition factors_not_used : string :=
  "There are some study factors declared {} that have not been used in any sample factor value".

Definition check_study_factor_usage (study_json : json) : res (list message) :=
  let* factors_declared := get_study_factor_ids study_json in
  let* factors_used := get_study_factor_ids_in_sample_factor_values study_json in
  print_usage factors_used factors_declared factors_not_declared factors_not_used.

Definition get_unit_category_ids (study_or_assay_json : json) : res (list json) :=
  let* categories := getitem study_or_assay_json "unitCategories" in
  items_at categories "@id".

(** [[x['unit']['@id'] if 'unit' in x.keys() else None for x in j]]. *)
Definition units_of (j : json) : res (list json) :=
  let* xs := iter j in
  map_res (fun x =>
             let* has := in_keys "unit" x in
             if has then ref_at x "unit" else Ok JNull) xs.

(** [[elem for iterabl in xss for elem in iterabl]] where an [iterabl]
    may be [None], which cannot be iterated. *)
Fixpoint flatten_or_TypeError (xss : list (option (list json))) : res (list json) :=
  match xss with
  | [] => Ok []
  | Some xs :: xss' => let* rest := flatten_or_TypeError xss' in Ok (xs ++ rest)
  | None :: _ => Raise TypeError
  end.

(** [[x for x in xs if x is not None]]. *)
Definition not_None (xs : list json) : list json :=
  List.filter (fun x => match x with JNull => false | _ => true end) xs.

Definition get_study_unit_category_ids_in_materials_and_processes (study_json : json)
    : res (list json) :=
  let* materials := getitem study_json "materials" in
  let* sources := getitem materials "sources" in
  let* materials := getitem study_json "materials" in
  let* samples := getitem materials "samples" in
  let* all := py_add sources samples in
  let* ms := iter all in
  let* study_characteristics_units_used :=
    flat_map_res (fun material =>
                    let* cs := getitem material "characteristics" in units_of cs) ms in
  let* materials := getitem study_json "materials" in
  let* samples := getitem materials "samples" in
  let* ss := iter samples in
  let* study_factor_value_units_used :=
    flat_map_res (fun material =>
                    let* fvs := getitem material "factorValues" in units_of fvs) ss in
  let* process_sequence := getitem study_json "processSequence" in
  let* ps := iter process_sequence in
  let* parameter_value_units_used :=
    flat_map_res (fun process =>
                    let* pvs := getitem process "parameterValues" in units_of pvs) ps in
  Ok (not_None (study_characteristics_units_used ++ study_factor_value_units_used
                ++ parameter_value_units_used)).

Definition get_assay_unit_category_ids_in_materials_and_processes (assay_json : json)
    : res (list json) :=
  let* materials := getitem assay_json "materials" in
  let* others := getitem materials "otherMaterials" in
  let* ms := iter others in
  let* per_material :=
    map_res (fun material =>
               let* has := in_keys "characteristics" material in
               if has
               then let* cs := getitem material "characteristics" in
                    let* us := units_of cs in Ok (Some us)
               else Ok None) ms in
  let* assay_characteristics_units_used := flatten_or_TypeError per_material in
  let* process_sequence := getitem assay_json "processSequence" in
  let* ps := iter process_sequence in
  let* parameter_value_units_used :=
    flat_map_res (fun process =>
                    let* pvs := getitem process "parameterValues" in units_of pvs) ps in
  Ok (not_None (assay_characteristics_units_used ++ parameter_value_units_used)).

Definition units_declared (study_json : json) : res (list json) :=
  let* declared := get_unit_category_ids study_json in
  let* assays := getitem study_json "assays" in
  for_in assays
    (fun declared assay =>
       let* more := get_unit_category_ids assay in Ok (declared ++ more))
    declared.

Definition units_used (study_json : json) : res (list json) :=
  let* used := get_study_unit_category_ids_in_materials_and_processes study_json in
  let* assays := getitem study_json "assays" in
  for_in assays
    (fun used assay =>
       let* more := get_assay_unit_category_ids_in_materials_and_processes assay in
       Ok (used ++ more))
    used.

Definition units_not_declared : string :=
  "There are units {} used in a material or parameter value that have not been not declared".
Definition units_not_used : string :=
  "There are some units declared {} that have not been used in any material or parameter value".

Definition check_unit_category_ids_usage (study_json : json) : res (list message) :=
  let* units_declared := units_declared study_json in
  let* units_used := units_used study_json in
  print_usage units_used units_declared units_not_declared units_not_used.

Definition get_ontology_source_refs (isa_json : json) : res (list json) :=
  let* refs := getitem isa_json "ontologySourceReferences" in
  items_at refs "name".

Fixpoint walk_and_get_annotations (isa_json : json) (collector : list json) : list json :=
  match isa_json with
  | JDict d =>
      let collector := if is_annotation d then collector ++ [isa_json] else collector in
      fold_left (fun acc kv => walk_and_get_annotations (snd kv) acc) d collector
  | JList l => fold_left (fun acc j => walk_and_get_annotations j acc) l collector
  | _ => collector
  end.

(** [[a['termSource'] for a in collector if a['termSource'] is not '']]. *)
Definition term_sources_used (isa_json : json) : res (list json) :=
  let collector := walk_and_get_annotations isa_json [] in
  let* sources := map_res (fun annotation => getitem annotation "termSource") collector in
  Ok (List.filter (fun x => negb (is_empty_str x)) sources).

Definition term_sources_not_declared : string :=
  "There are ontology sources {} referenced in an annotation that have not been not declared".
Definition term_sources_not_used : string :=
  "There are some ontology sources declared {} that have not been used in any annotation".

Definition check_term_source_refs (isa_json : json) : res (list message) :=
  let* term_sources_declared := get_ontology_source_refs isa_json in
  let* term_sources_used := term_sources_used isa_json in
  print_usage term_sources_used term_sources_declared
              term_sources_not_declared term_sources_not_used.

(** *** Rule 3003: the format of PubMed IDs *)

Definition is_digit (c : ascii) : bool :=
  (48 <=? nat_of_ascii c)%nat && (nat_of_ascii c <=? 57)%nat.

(** [re.compile('[0-9]{8}').match(s) is not None]: [match] anchors the
    pattern at the start of [s] only. *)
Definition pmid_regex_match (s : string) : bool :=
  let cs := list_ascii_of_string s in
  (8 <=? length cs)%nat && forallb is_digit (firstn 8 cs).

(** [re.compile('PMC[0-9]{8}').match(s) is not None]. *)
Definition pmcid_regex_match (s : string) : bool :=
  match s with
  | String "P" (String "M" (String "C" rest)) => pmid_regex_match rest
  | _ => false
  end.

Definition pubmed_id_not_valid (pubmed_id_str : string) : message :=
  mkMessage "PubMed ID {} is not valid format" [FValue (JStr pubmed_id_str)].

(** The inner [check_pubmed_id]: the lines printed after [out]. *)
Definition check_pubmed_id (pubmed_id_str : json) (out : list message) : res (list message) :=
  if negb (is_empty_str pubmed_id_str) then
    match pubmed_id_str with
    | JStr s =>
        if negb (pmid_regex_match s) && negb (pmcid_regex_match s)
        then Ok (out ++ [pubmed_id_not_valid s])
        else Ok out
    | _ => Raise TypeError (* [match] wants a string *)
    end
  else Ok out.

(** [for pub in j: check_pubmed_id(pub['pubMedID'])]. *)
Definition check_publications (j : json) (out : list message) : res (list message) :=
  for_in j (fun out pub => let* id_ := getitem pub "pubMedID" in check_pubmed_id id_ out) out.

Definition check_pubmed_ids_format (isa_json : json) : res (list message) :=
  let* publications := getitem isa_json "publications" in
  let* out := check_publications publications [] in
  let* studies := getitem isa_json "studies" in
  for_in studies
    (fun out study =>
       let* publications := getitem study "publications" in
       check_publications publications out)
    out.

(** ** The state of [load]

    The registries of [load] (its local dicts), the Process objects made so
    far (the second pass updates them in place, so they live in a store
    keyed by identity) and the next free object identity. *)

Record LoadState := mkLoadState {
  next_oid : oid;
  term_source_dict : gmap pykey (option OntologySourceReference);
  samples_dict : gmap pykey Sample;
  sources_dict : gmap pykey Source;
  categories_dict : gmap pykey OntologyAnnotation;
  protocols_dict : gmap pykey Protocol;
  factors_dict : gmap pykey StudyFactor;
  parameters_dict : gmap pykey ProtocolParameter;
  units_dict : gmap pykey OntologyAnnotation;
  process_dict : gmap pykey oid;
  data_dict : gmap pykey DataFile;
  other_materials_dict : gmap pykey Material;
  objects : gmap oid Process }.

Definition set_next_oid (st : LoadState) (v : oid) : LoadState :=
  mkLoadState v (term_source_dict st) (samples_dict st) (sources_dict st)
    (categories_dict st) (protocols_dict st) (factors_dict st) (parameters_dict st)
    (units_dict st) (process_dict st) (data_dict st) (other_materials_dict st) (objects
    st).

Definition set_term_source_dict (st : LoadState) (v : gmap pykey (option OntologySourceReference)) : LoadState :=
  mkLoadState (next_oid st) v (samples_dict st) (sources_dict st) (categories_dict st)
    (protocols_dict st) (factors_dict st) (parameters_dict st) (units_dict st)
    (process_dict st) (data_dict st) (other_materials_dict st) (objects st).

Definition set_samples_dict (st : LoadState) (v : gmap pykey Sample) : LoadState :=
  mkLoadState (next_oid st) (term_source_dict st) v (sources_dict st) (categories_dict
    st) (protocols_dict st) (factors_dict st) (parameters_dict st) (units_dict st)
    (process_dict st) (data_dict st) (other_materials_dict st) (objects st).

Definition set_sources_dict (st : LoadState) (v : gmap pykey Source) : LoadState :=
  mkLoadState (next_oid st) (term_source_dict st) (samples_dict st) v (categories_dict
    st) (protocols_dict st) (factors_dict st) (parameters_dict st) (units_dict st)
    (process_dict st) (data_dict st) (other_materials_dict st) (objects st).

Definition set_categories_dict (st : LoadState) (v : gmap pykey OntologyAnnotation) : LoadState :=
  mkLoadState (next_oid st) (term_source_dict st) (samples_dict st) (sources_dict st) v
    (protocols_dict st) (factors_dict st) (parameters_dict st) (units_dict st)
    (process_dict st) (data_dict st) (other_materials_dict st) (objects st).

Definition set_protocols_dict (st : LoadState) (v : gmap pykey Protocol) : LoadState :=
  mkLoadState (next_oid st) (term_source_dict st) (samples_dict st) (sources_dict st)
    (categories_dict st) v (factors_dict st) (parameters_dict st) (units_dict st)
    (process_dict st) (data_dict st) (other_materials_dict st) (objects st).

Definition set_factors_dict (st : LoadState) (v : gmap pykey StudyFactor) : LoadState :=
  mkLoadState (next_oid st) (term_source_dict st) (samples_dict st) (sources_dict st)
    (categories_dict st) (protocols_dict st) v (parameters_dict st) (units_dict st)
    (process_dict st) (data_dict st) (other_materials_dict st) (objects st).

Definition set_parameters_dict (st : LoadState) (v : gmap pykey ProtocolParameter) : LoadState :=
  mkLoadState (next_oid st) (term_source_dict st) (samples_dict st) (sources_dict st)
    (categories_dict st) (protocols_dict st) (factors_dict st) v (units_dict st)
    (process_dict st) (data_dict st) (other_materials_dict st) (objects st).

Definition set_units_dict (st : LoadState) (v : gmap pykey OntologyAnnotation) : LoadState :=
  mkLoadState (next_oid st) (term_source_dict st) (samples_dict st) (sources_dict st)
    (categories_dict st) (protocols_dict st) (factors_dict st) (parameters_dict st) v
    (process_dict st) (data_dict st) (other_materials_dict st) (objects st).

Definition set_process_dict (st : LoadState) (v : gmap pykey oid) : LoadState :=
  mkLoadState (next_oid st) (term_source_dict st) (samples_dict st) (sources_dict st)
    (categories_dict st) (protocols_dict st) (factors_dict st) (parameters_dict st)
    (units_dict st) v (data_dict st) (other_materials_dict st) (objects st).

Definition set_data_dict (st : LoadState) (v : gmap pykey DataFile) : LoadState :=
  mkLoadState (next_oid st) (term_source_dict st) (samples_dict st) (sources_dict st)
    (categories_dict st) (protocols_dict st) (factors_dict st) (parameters_dict st)
    (units_dict st) (process_dict st) v (other_materials_dict st) (objects st).

Definition set_other_materials_dict (st : LoadState) (v : gmap pykey Material) : LoadState :=
  mkLoadState (next_oid st) (term_source_dict st) (samples_dict st) (sources_dict st)
    (categories_dict st) (protocols_dict st) (factors_dict st) (parameters_dict st)
    (units_dict st) (process_dict st) (data_dict st) v (objects st).

Definition set_objects (st : LoadState) (v : gmap oid Process) : LoadState :=
  mkLoadState (next_oid st) (term_source_dict st) (samples_dict st) (sources_dict st)
    (categories_dict st) (protocols_dict st) (factors_dict st) (parameters_dict st)
    (units_dict st) (process_dict st) (data_dict st) (other_materials_dict st) v.

(** A new object: its identity, and the state after the allocation. *)
Definition new_object (st : LoadState) : oid * LoadState :=
  (next_oid st, set_next_oid st (S (next_oid st))).

(** ** The remaining classes of [isatools.model.v1] *)

Record Publication := mkPublication {
  pub_pubmed_id : json;
  pub_doi : json;
  pub_author_list : json;
  pub_title : json;
  pub_status : OntologyAnnotation;
  pub_comments : list Comment }.

Record Person := mkPerson {
  person_last_name : json;
  person_first_name : json;
  person_mid_initials : json;
  person_email : json;
  person_phone : json;
  person_fax : json;
  person_address : json;
  person_affiliation : json;
  person_roles : list OntologyAnnotation;
  person_comments : list Comment }.

Record Assay := mkAssay {
  assay_measurement_type : OntologyAnnotation;
  assay_technology_type : OntologyAnnotation;
  assay_technology_platform : json;
  assay_filename : json;
  assay_data_files : list DataFile;
  assay_samples : list Sample;
  assay_other_material : list Material;
  assay_process_sequence : list oid;
  assay_graph : option DiGraph }.

Record Study := mkStudy {
  study_identifier : json;
  study_title : json;
  study_description : json;
  study_submission_date : json;
  study_public_release_date : json;
  study_filename : json;
  study_comments : list Comment;
  study_characteristic_categories : list OntologyAnnotation;
  study_publications : list Publication;
  study_contacts : list Person;
  study_design_descriptors : list OntologyAnnotation;
  study_protocols : list Protocol;
  study_factors : list StudyFactor;
  study_sources : list Source;
  study_samples : list Sample;
  study_process_sequence : list oid;
  study_graph : DiGraph;
  study_assays : list Assay }.

Record Investigation := mkInvestigation {
  inv_identifier : json;
  inv_title : json;
  inv_description : json;
  inv_submission_date : json;
  inv_public_release_date : json;
  inv_comments : list Comment;
  inv_ontology_source_references : list OntologySourceReference;
  inv_publications : list Publication;
  inv_contacts : list Person;
  inv_studies : list Study }.

(** ** Python operations used by [load] *)

(** [try: m except TypeError: handler]. *)
Definition except_TypeError {A : Type} (m : res A) (handler : res A) : res A :=
  match m with
  | Raise TypeError => handler
  | _ => m
  end.

(** [try: m except KeyError: raise IOError(msg)]. *)
Definition KeyError_as_IOError {A : Type} (m : res A) (msg : string) : res A :=
  except_KeyError m (Raise (IOError msg)).

(** [for x in j], collecting what the body makes:
    [for x in j: acc.append(f(x))]. *)
Definition collect_in {B : Type} (j : json) (f : json -> res B) : res (list B) :=
  let* xs := iter j in map_res f xs.

Fixpoint string_drop (n : nat) (s : string) : string :=
  match n, s with
  | O, _ => s
  | S n', String _ s' => string_drop n' s'
  | S _, EmptyString => EmptyString
  end.

(** [j[n:]]: strings and lists can be sliced. *)
Definition slice_from (n : nat) (j : json) : res json :=
  match j with
  | JStr s => Ok (JStr (string_drop n s))
  | JList l => Ok (JList (drop n l))
  | _ => Raise TypeError
  end.

(** [j.startswith(p)]: only strings have the method. *)
Definition startswith (j : json) (p : string) : res bool :=
  match j with
  | JStr s => Ok (String.prefix p s)
  | _ => Raise AttributeError
  end.

(** [isinstance(j, int)]; [bool] is a subclass of [int]. *)
Definition is_number (j : json) : bool :=
  match j with
  | JInt _ | JBool _ => true
  | _ => false
  end.

(** [d[k] = v] on the dict of additional properties. *)
Fixpoint assoc_set (k : string) (v : json) (d : list (string * json)) : list (string * json) :=
  match d with
  | [] => [(k, v)]
  | (k', v') :: d' => if String.eqb k k' then (k, v) :: d' else (k', v') :: assoc_set k v d'
  end.

(** ** [load]: the pieces shared by several loops *)

Definition load_comment (comment_json : json) : res Comment :=
  let* name := getitem comment_json "name" in
  let* value := getitem comment_json "value" in
  Ok (mkComment name value).

(** [for comment_json in owner['comments']: comments.append(Comment(...))]. *)
Definition load_comments (owner : json) : res (list Comment) :=
  let* comments := getitem owner "comments" in
  collect_in comments load_comment.

(** The comments appended before the first [KeyError], inside
    [try: ... except KeyError: pass]. *)
Fixpoint comments_until_KeyError (xs : list json) (comments : list Comment)
    : res (list Comment) :=
  match xs with
  | [] => Ok comments
  | x :: xs' =>
      match load_comment x with
      | Ok c => comments_until_KeyError xs' (comments ++ [c])
      | Raise KeyError => Ok comments
      | Raise e => Raise e
      end
  end.

(** [try: for comment_json in owner['comments']: ... except KeyError: pass]. *)
Definition try_load_comments (owner : json) : res (list Comment) :=
  match getitem owner "comments" with
  | Ok comments => let* xs := iter comments in comments_until_KeyError xs []
  | Raise KeyError => Ok []
  | Raise e => Raise e
  end.

(** [OntologyAnnotation(name=j['annotationValue'],
                        term_accession=j['termAccession'],
                        term_source=term_source_dict[j['termSource']])]. *)
Definition annotation_name_accession_source (st : LoadState) (j : json)
    : res OntologyAnnotation :=
  let* name := getitem j "annotationValue" in
  let* term_accession := getitem j "termAccession" in
  let* term_source_name := getitem j "termSource" in
  let* term_source := dict_get (term_source_dict st) term_source_name in
  Ok (mkOntologyAnnotation None name term_source term_accession).

(** The same with the arguments in the order name, term_source,
    term_accession, and an identifier if one is given. *)
Definition annotation_name_source_accession (st : LoadState) (id_ : option json) (j : json)
    : res OntologyAnnotation :=
  let* name := getitem j "annotationValue" in
  let* term_source_name := getitem j "termSource" in
  let* term_source := dict_get (term_source_dict st) term_source_name in
  let* term_accession := getitem j "termAccession" in
  Ok (mkOntologyAnnotation id_ name term_source term_accession).

(** A characteristic category of a study or an assay, entered in
    [categories_dict]. *)
Definition load_characteristic_category (st : LoadState) (category_json : json)
    : res (LoadState * OntologyAnnotation) :=
  let* id_ := getitem category_json "@id" in
  let* characteristic_type := getitem category_json "characteristicType" in
  let* characteristic_category :=
    annotation_name_source_accession st (Some id_) characteristic_type in
  let* categories := dict_set (categories_dict st) id_ characteristic_category in
  Ok (set_categories_dict st categories, characteristic_category).

(** A unit category of a study or an assay, entered in [units_dict]. *)
Definition load_unit (st : LoadState) (unit_json : json) : res LoadState :=
  let* id_ := getitem unit_json "@id" in
  let* unit := annotation_name_source_accession st (Some id_) unit_json in
  let* units := dict_set (units_dict st) id_ unit in
  Ok (set_units_dict st units).

Definition load_publication (st : LoadState) (status_of : LoadState -> json -> res OntologyAnnotation)
    (publication_json : json) : res Publication :=
  let* pubmed_id := getitem publication_json "pubMedID" in
  let* doi := getitem publication_json "doi" in
  let* author_list := getitem publication_json "authorList" in
  let* title := getitem publication_json "title" in
  let* status_json := getitem publication_json "status" in
  let* status := status_of st status_json in
  let* comments := try_load_comments publication_json in
  Ok (mkPublication pubmed_id doi author_list title status comments).

Definition load_person (st : LoadState) (comments_of : json -> res (list Comment))
    (person_json : json) : res Person :=
  let* last_name := getitem person_json "lastName" in
  let* first_name := getitem person_json "firstName" in
  let* mid_initials := getitem person_json "midInitials" in
  let* email := getitem person_json "email" in
  let* phone := getitem person_json "phone" in
  let* fax := getitem person_json "fax" in
  let* address := getitem person_json "address" in
  let* affiliation := getitem person_json "affiliation" in
  let* roles_json := getitem person_json "roles" in
  let* roles := collect_in roles_json (annotation_name_accession_source st) in
  let* comments := comments_of person_json in
  Ok (mkPerson last_name first_name mid_initials email phone fax address affiliation
               roles comments).

(** A characteristic of a source or a sample. *)
Definition load_characteristic (st : LoadState) (characteristic_json : json)
    : res Characteristic :=
  let* value := getitem characteristic_json "value" in
  let* category_id := ref_at characteristic_json "category" in
  let* category := dict_get (categories_dict st) category_id in
  match value with
  | JDict _ =>
      let* annotation :=
        KeyError_as_IOError (annotation_name_source_accession st None value)
                            "Can't create value as annotation" in
      Ok (mkCharacteristic category (VAnnotation annotation) None)
  | JInt _ | JBool _ =>
      let* unit :=
        KeyError_as_IOError (let* unit_id := ref_at characteristic_json "unit" in
                             dict_get (units_dict st) unit_id)
                            "Can't create unit annotation" in
      Ok (mkCharacteristic category (VRaw value) (Some unit))
  | JStr _ => Ok (mkCharacteristic category (VRaw value) None)
  | _ => Raise (IOError "Unexpected type in characteristic value")
  end.

Definition load_characteristics (st : LoadState) (owner : json) : res (list Characteristic) :=
  let* characteristics := getitem owner "characteristics" in
  collect_in characteristics (load_characteristic st).

(** A parameter value of a process, once the special case of the assay
    loop is set aside. *)
Definition load_parameter_value (st : LoadState) (parameter_value_json : json)
    : res ParameterValue :=
  let* value := getitem parameter_value_json "value" in
  if is_number value then
    let* category_id := ref_at parameter_value_json "category" in
    let* category := dict_get (parameters_dict st) category_id in
    let* value := getitem parameter_value_json "value" in
    let* unit_id := ref_at parameter_value_json "unit" in
    let* unit := dict_get (units_dict st) unit_id in
    Ok (mkParameterValue category (VRaw value) (Some unit))
  else
    let* category_id := ref_at parameter_value_json "category" in
    let* category := dict_get (parameters_dict st) category_id in
    let* value :=
      except_TypeError
        (let* value := getitem parameter_value_json "value" in
         let* annotation := annotation_name_accession_source st value in
         Ok (VAnnotation annotation))
        (let* value := getitem parameter_value_json "value" in Ok (VRaw value)) in
    Ok (mkParameterValue category value None).

(** [process.comments], [process.date] and [process.performer], each read
    inside its own [try: ... except KeyError: pass]. *)
Definition try_getitem (j : json) (k : string) : res (option json) :=
  match getitem j k with
  | Ok v => Ok (Some v)
  | Raise KeyError => Ok None
  | Raise e => Raise e
  end.

(** ** [load]: resolving the inputs and outputs of a process *)

(** [try: x = reg[io_json['@id']] except KeyError: pass]: the value of
    [x] afterwards, and the exception that escapes, if any. *)
Definition lookup_or_keep {V : Type} (reg : gmap pykey V) (as_entity : V -> entity)
    (io_json : json) (x : option entity) : option entity * option exn :=
  match (let* id_ := getitem io_json "@id" in dict_get reg id_) with
  | Ok v => (Some (as_entity v), None)
  | Raise KeyError => (x, None)
  | Raise e => (x, Some e)
  end.

(** [try: A finally: B]: an exception of [B] wins, else the one of [A] is
    raised again. *)
Definition after_finally (raised_in_try raised_in_finally : option exn) : option exn :=
  match raised_in_finally with
  | Some e => Some e
  | None => raised_in_try
  end.

(** [if x is None: raise IOError(msg + io_json['@id'])]. *)
Definition found_or_IOError (x : option entity) (msg : string) (io_json : json) : res entity :=
  match x with
  | Some n => Ok n
  | None =>
      let* id_ := getitem io_json "@id" in
      match id_ with
      | JStr s => Raise (IOError (msg ++ s))
      | _ => Raise TypeError (* a string and something else cannot be added *)
      end
  end.

(** An input or output of a study process: [sources_dict], then
    [samples_dict]. *)
Definition resolve_study_io (st : LoadState) (msg : string) (io_json : json) : res entity :=
  let '(x, e1) := lookup_or_keep (sources_dict st) ESource io_json None in
  let '(x, e2) := lookup_or_keep (samples_dict st) ESample io_json x in
  match after_finally e1 e2 with
  | Some e => Raise e
  | None => found_or_IOError x msg io_json
  end.

(** An input or output of an assay process: [samples_dict], then
    [other_materials_dict], then [data_dict]. *)
Definition resolve_assay_io (st : LoadState) (msg : string) (io_json : json) : res entity :=
  let '(x, e1) := lookup_or_keep (samples_dict st) ESample io_json None in
  let '(x, e2) := lookup_or_keep (other_materials_dict st) EMaterial io_json x in
  let '(x, e3) := lookup_or_keep (data_dict st) EDataFile io_json x in
  match after_finally e1 (after_finally e2 e3) with
  | Some e => Raise e
  | None => found_or_IOError x msg io_json
  end.

Definition study_input_not_found : string :=
  "Could not find input node in sources or samples dicts: ".
Definition study_output_not_found : string :=
  "Could not find output node in sources or samples dicts: ".
Definition assay_input_not_found : string :=
  "Could not find input node in samples or materials or data dicts: ".
Definition assay_output_not_found : string :=
  "Could not find output node in samples or materials or data dicts: ".

(** [for io_json in process_json[key]: ...; process.inputs.append(x)]. *)
Definition resolve_all (resolve : json -> res entity) (process_json : json) (key : string)
    : res (list entity) :=
  let* ios := getitem process_json key in
  collect_in ios resolve.

(** ** [load]: the investigation and the study-level loops *)

Definition load_ontology_source_reference (state : LoadState * list OntologySourceReference)
    (reference_json : json) : res (LoadState * list OntologySourceReference) :=
  let '(st, references) := state in
  let* name := getitem reference_json "name" in
  let* file := getitem reference_json "file" in
  let* version := getitem reference_json "version" in
  let* description := getitem reference_json "description" in
  let reference := mkOntologySourceReference name file version description in
  let* term_sources := dict_set (term_source_dict st) name (Some reference) in
  Ok (set_term_source_dict st term_sources, references ++ [reference]).

(** The first loop over the studies: the characteristic categories of
    every assay. *)
Definition load_assay_categories_first (st : LoadState) (study_json : json) : res LoadState :=
  let* assays := getitem study_json "assays" in
  for_in assays
    (fun st assay_json =>
       let* categories := getitem assay_json "characteristicCategories" in
       for_in categories
         (fun st category_json =>
            let* (st, _) := load_characteristic_category st category_json in Ok st)
         st)
    st.

Definition load_protocol_parameter (state : LoadState * list ProtocolParameter)
    (parameter_json : json) : res (LoadState * list ProtocolParameter) :=
  let '(st, parameters) := state in
  let* id_ := getitem parameter_json "@id" in
  let* name_json := getitem parameter_json "parameterName" in
  let* parameter_name := annotation_name_source_accession st None name_json in
  let parameter := mkProtocolParameter id_ parameter_name in
  let* registry := dict_set (parameters_dict st) id_ parameter in
  Ok (set_parameters_dict st registry, parameters ++ [parameter]).

Definition load_protocol_component (st : LoadState) (component_json : json)
    : res ProtocolComponent :=
  let* name := getitem component_json "componentName" in
  let* type_json := getitem component_json "componentType" in
  let* component_type := annotation_name_source_accession st None type_json in
  Ok (mkProtocolComponent name component_type).

Definition load_protocol (state : LoadState * list Protocol) (protocol_json : json)
    : res (LoadState * list Protocol) :=
  let '(st, protocols) := state in
  let* id_ := getitem protocol_json "@id" in
  let* name := getitem protocol_json "name" in
  let* uri := getitem protocol_json "uri" in
  let* description := getitem protocol_json "description" in
  let* version := getitem protocol_json "version" in
  let* type_json := getitem protocol_json "protocolType" in
  let* protocol_type := annotation_name_accession_source st type_json in
  let* parameters_json := getitem protocol_json "parameters" in
  let* (st, parameters) := for_in parameters_json load_protocol_parameter (st, []) in
  let* components_json := getitem protocol_json "components" in
  let* components := collect_in components_json (load_protocol_component st) in
  let protocol :=
    mkProtocol id_ name uri description version protocol_type parameters components in
  let* registry := dict_set (protocols_dict st) id_ protocol in
  Ok (set_protocols_dict st registry, protocols ++ [protocol]).

Definition load_factor (state : LoadState * list StudyFactor) (factor_json : json)
    : res (LoadState * list StudyFactor) :=
  let '(st, factors) := state in
  let* id_ := getitem factor_json "@id" in
  let* name := getitem factor_json "factorName" in
  let* type_json := getitem factor_json "factorType" in
  let* factor_type := annotation_name_accession_source st type_json in
  let factor := mkStudyFactor id_ name factor_type in
  let* registry := dict_set (factors_dict st) id_ factor in
  Ok (set_factors_dict st registry, factors ++ [factor]).

Definition load_source (state : LoadState * list Source) (source_json : json)
    : res (LoadState * list Source) :=
  let '(st, sources) := state in
  let* id_ := getitem source_json "@id" in
  let* name := getitem source_json "name" in
  let* name := slice_from 7 name in
  let '(o, st) := new_object st in
  let* characteristics := load_characteristics st source_json in
  let source := mkSource o id_ name characteristics in
  let* registry := dict_set (sources_dict st) id_ source in
  Ok (set_sources_dict st registry, sources ++ [source]).

Definition load_factor_value (st : LoadState) (factor_value_json : json) : res FactorValue :=
  except_TypeError
    (let* factor_id := ref_at factor_value_json "category" in
     let* factor := dict_get (factors_dict st) factor_id in
     let* value := getitem factor_value_json "value" in
     let* annotation := annotation_name_accession_source st value in
     Ok (mkFactorValue factor (VAnnotation annotation) None))
    (let* factor_id := ref_at factor_value_json "category" in
     let* factor := dict_get (factors_dict st) factor_id in
     let* value := getitem factor_value_json "value" in
     let* unit_id := ref_at factor_value_json "unit" in
     let* unit := dict_get (units_dict st) unit_id in
     Ok (mkFactorValue factor (VRaw value) (Some unit))).

Definition load_sample (state : LoadState * list Sample) (sample_json : json)
    : res (LoadState * list Sample) :=
  let '(st, samples) := state in
  let* id_ := getitem sample_json "@id" in
  let* name := getitem sample_json "name" in
  let* name := slice_from 7 name in
  let* derives_from := getitem sample_json "derivesFrom" in
  let '(o, st) := new_object st in
  let* characteristics := load_characteristics st sample_json in
  let* factor_values_json := getitem sample_json "factorValues" in
  let* factor_values := collect_in factor_values_json (load_factor_value st) in
  let sample := mkSample o id_ name derives_from characteristics factor_values in
  let* registry := dict_set (samples_dict st) id_ sample in
  Ok (set_samples_dict st registry, samples ++ [sample]).

(** A new Process object enters the store, the process sequence and
    [process_dict]. *)
Definition register_process (st : LoadState) (sequence : list oid) (process : Process)
    : res (LoadState * list oid) :=
  let st := set_objects st (<[process_oid process := process]> (objects st)) in
  let* registry := dict_set (process_dict st) (process_id process) (process_oid process) in
  Ok (set_process_dict st registry, sequence ++ [process_oid process]).

Definition load_study_process (state : LoadState * list oid) (process_json : json)
    : res (LoadState * list oid) :=
  let '(st, sequence) := state in
  let* id_ := getitem process_json "@id" in
  let* protocol_id := ref_at process_json "executesProtocol" in
  let* protocol := dict_get (protocols_dict st) protocol_id in
  let '(o, st) := new_object st in
  let* comments := try_load_comments process_json in
  let* date := try_getitem process_json "date" in
  let* performer := try_getitem process_json "performer" in
  let* parameter_values_json := getitem process_json "parameterValues" in
  let* parameter_values := collect_in parameter_values_json (load_parameter_value st) in
  let* inputs := resolve_all (resolve_study_io st study_input_not_found) process_json "inputs" in
  let* outputs :=
    resolve_all (resolve_study_io st study_output_not_found) process_json "outputs" in
  register_process st sequence
    (mkProcess o id_ protocol comments date performer parameter_values [] inputs outputs
               None None).

Definition set_prev_process (process : Process) (prev : oid) : Process :=
  mkProcess (process_oid process) (process_id process) (executes_protocol process)
            (process_comments process) (process_date process) (process_performer process)
            (parameter_values process) (additional_properties process)
            (inputs process) (outputs process) (Some prev) (next_process process).

Definition set_next_process (process : Process) (next : oid) : Process :=
  mkProcess (process_oid process) (process_id process) (executes_protocol process)
            (process_comments process) (process_date process) (process_performer process)
            (parameter_values process) (additional_properties process)
            (inputs process) (outputs process) (prev_process process) (Some next).

(** [process_dict[process_json['@id']].<link> = process_dict[process_json[key]['@id']]],
    inside [try: ... except KeyError: pass]. *)
Definition link_process (set_link : Process -> oid -> Process) (key : string)
    (st : LoadState) (process_json : json) : res LoadState :=
  except_KeyError
    (let* other_id := ref_at process_json key in
     let* other := dict_get (process_dict st) other_id in
     let* id_ := getitem process_json "@id" in
     let* self := dict_get (process_dict st) id_ in
     Ok (set_objects st (alter (fun process => set_link process other) self (objects st))))
    (Ok st).

(** The second pass over a process sequence. *)
Definition link_processes (st : LoadState) (process_sequence_json : json) : res LoadState :=
  for_in process_sequence_json
    (fun st process_json =>
       let* st := link_process set_prev_process "previousProcess" st process_json in
       link_process set_next_process "nextProcess" st process_json)
    st.

(** The Process objects of a sequence, as they are in the store. *)
Definition processes_of (st : LoadState) (sequence : list oid) : list Process :=
  omap (fun o => objects st !! o) sequence.

(** ** [load]: the assay-level loops *)

Definition load_data_file (state : LoadState * list DataFile) (data_json : json)
    : res (LoadState * list DataFile) :=
  let '(st, data_files) := state in
  let* id_ := getitem data_json "@id" in
  let* filename := getitem data_json "name" in
  let* label := getitem data_json "type" in
  let '(o, st) := new_object st in
  let* comments := try_load_comments data_json in
  let data_file := mkDataFile o id_ filename label comments in
  let* registry := dict_set (data_dict st) id_ data_file in
  Ok (set_data_dict st registry, data_files ++ [data_file]).

(** A characteristic of an other-material: its value is always built as
    an ontology annotation. *)
Definition load_material_characteristic (st : LoadState) (characteristic_json : json)
    : res Characteristic :=
  let* category_id := ref_at characteristic_json "category" in
  let* category := dict_get (categories_dict st) category_id in
  let* value := getitem characteristic_json "value" in
  let* annotation := annotation_name_source_accession st None value in
  Ok (mkCharacteristic category (VAnnotation annotation) None).

(** The name kept for an other-material. *)
Definition material_name_of (name : json) : res json :=
  let* labeled := startswith name "labeledextract-" in
  if labeled then slice_from 15 name else slice_from 8 name.

Definition load_other_material (state : LoadState * list Material) (material_json : json)
    : res (LoadState * list Material) :=
  let '(st, materials) := state in
  let* material_name := getitem material_json "name" in
  let* material_name := material_name_of material_name in
  let* id_ := getitem material_json "@id" in
  let* type_ := getitem material_json "type" in
  let '(o, st) := new_object st in
  let* characteristics_json := getitem material_json "characteristics" in
  let* characteristics :=
    collect_in characteristics_json (load_material_characteristic st) in
  let material := mkMaterial o id_ material_name type_ characteristics in
  let* registry := dict_set (other_materials_dict st) id_ material in
  Ok (set_other_materials_dict st registry, materials ++ [material]).

(** The name field of an assay process, kept under a key that depends on
    the type of the protocol (and, for data collection, on the technology
    of the assay). *)
Definition name_property (protocol : Protocol) (technology_type : OntologyAnnotation)
    : option string :=
  let protocol_type_name := oa_name (prot_protocol_type protocol) in
  if py_eq protocol_type_name (JStr "data collection")
     && py_eq (oa_name technology_type) (JStr "DNA microarray")
  then Some "Scan Name"
  else if py_eq protocol_type_name (JStr "nucleic acid sequencing") then Some "Assay Name"
  else if py_eq protocol_type_name (JStr "nucleic acid hybridization")
  then Some "Hybridization Assay Name"
  else if py_eq protocol_type_name (JStr "data transformation")
  then Some "Data Transformation Name"
  else if py_eq protocol_type_name (JStr "data normalization") then Some "Normalization Name"
  else None.

(** One parameter value of an assay process: the array-design reference
    goes to the additional properties. *)
Definition load_assay_parameter_value (st : LoadState)
    (state : list (string * json) * list ParameterValue) (parameter_value_json : json)
    : res (list (string * json) * list ParameterValue) :=
  let '(properties, values) := state in
  let* category_id := ref_at parameter_value_json "category" in
  if py_eq category_id (JStr Array_Design_REF) then
    let* value := getitem parameter_value_json "value" in
    Ok (assoc_set "Array Design REF" value properties, values)
  else
    let* parameter_value := load_parameter_value st parameter_value_json in
    Ok (properties, values ++ [parameter_value]).

(** The body of the loop over the process sequence of an assay.  The
    second pass and the construction of the graph sit inside this loop. *)
Definition load_assay_process (technology_type : OntologyAnnotation)
    (process_sequence_json : json) (state : LoadState * list oid * option DiGraph)
    (process_json : json) : res (LoadState * list oid * option DiGraph) :=
  let '(st, sequence, _) := state in
  let* id_ := getitem process_json "@id" in
  let* protocol_id := ref_at process_json "executesProtocol" in
  let* protocol := dict_get (protocols_dict st) protocol_id in
  let '(o, st) := new_object st in
  let* comments := try_load_comments process_json in
  let* properties :=
    match name_property protocol technology_type with
    | Some key => let* name := getitem process_json "name" in Ok [(key, name)]
    | None => Ok []
    end in
  let* inputs := resolve_all (resolve_assay_io st assay_input_not_found) process_json "inputs" in
  let* outputs :=
    resolve_all (resolve_assay_io st assay_output_not_found) process_json "outputs" in
  let* parameter_values_json := getitem process_json "parameterValues" in
  let* (properties, parameter_values) :=
    for_in parameter_values_json (load_assay_parameter_value st) (properties, []) in
  let* (st, sequence) :=
    register_process st sequence
      (mkProcess o id_ protocol comments None None parameter_values properties
                 inputs outputs None None) in
  let* st := link_processes st process_sequence_json in
  Ok (st, sequence, Some (_build_assay_graph (processes_of st sequence))).

Definition load_assay (state : LoadState * list OntologyAnnotation * list Assay)
    (assay_json : json) : res (LoadState * list OntologyAnnotation * list Assay) :=
  let '(st, study_categories, assays) := state in
  let* measurement_json := getitem assay_json "measurementType" in
  let* measurement_type := annotation_name_accession_source st measurement_json in
  let* technology_json := getitem assay_json "technologyType" in
  let* technology_type := annotation_name_accession_source st technology_json in
  let* technology_platform := getitem assay_json "technologyPlatform" in
  let* filename := getitem assay_json "filename" in
  let* units_json := getitem assay_json "unitCategories" in
  let* st := for_in units_json load_unit st in
  let st := set_data_dict st ∅ in
  let* data_files_json := getitem assay_json "dataFiles" in
  let* (st, data_files) := for_in data_files_json load_data_file (st, []) in
  let* materials_json := getitem assay_json "materials" in
  let* samples_json := getitem materials_json "samples" in
  let* samples :=
    collect_in samples_json
      (fun sample_json =>
         let* id_ := getitem sample_json "@id" in dict_get (samples_dict st) id_) in
  let* categories_json := getitem assay_json "characteristicCategories" in
  let* (st, study_categories) :=
    for_in categories_json
      (fun state category_json =>
         let '(st, categories) := state in
         let* (st, category) := load_characteristic_category st category_json in
         Ok (st, categories ++ [category]))
      (st, study_categories) in
  let st := set_other_materials_dict st ∅ in
  let* materials_json := getitem assay_json "materials" in
  let* others_json := getitem materials_json "otherMaterials" in
  let* (st, other_material) := for_in others_json load_other_material (st, []) in
  let* process_sequence_json := getitem assay_json "processSequence" in
  let* (st, sequence, graph) :=
    for_in process_sequence_json
      (load_assay_process technology_type process_sequence_json) (st, [], None) in
  Ok (st, study_categories,
      assays ++ [mkAssay measurement_type technology_type technology_platform filename
                         data_files samples other_material sequence graph]).

(** ** [load]: one study, and the whole document *)

Definition load_study (state : LoadState * list Study) (study_json : json)
    : res (LoadState * list Study) :=
  let '(st, studies) := state in
  let* identifier := getitem study_json "identifier" in
  let* title := getitem study_json "title" in
  let* description := getitem study_json "description" in
  let* submission_date := getitem study_json "submissionDate" in
  let* public_release_date := getitem study_json "publicReleaseDate" in
  let* filename := getitem study_json "filename" in
  let* comments := try_load_comments study_json in
  let* categories_json := getitem study_json "characteristicCategories" in
  let* (st, categories) :=
    for_in categories_json
      (fun state category_json =>
         let '(st, categories) := state in
         let* (st, category) := load_characteristic_category st category_json in
         Ok (st, categories ++ [category]))
      (st, []) in
  let* units_json := getitem study_json "unitCategories" in
  let* st := for_in units_json load_unit st in
  let* publications_json := getitem study_json "publications" in
  let* publications :=
    collect_in publications_json
      (load_publication st (fun st j => annotation_name_source_accession st None j)) in
  let* people_json := getitem study_json "people" in
  let* contacts := collect_in people_json (load_person st try_load_comments) in
  let* descriptors_json := getitem study_json "studyDesignDescriptors" in
  let* design_descriptors :=
    collect_in descriptors_json (annotation_name_accession_source st) in
  let* protocols_json := getitem study_json "protocols" in
  let* (st, protocols) := for_in protocols_json load_protocol (st, []) in
  let* factors_json := getitem study_json "factors" in
  let* (st, factors) := for_in factors_json load_factor (st, []) in
  let* materials_json := getitem study_json "materials" in
  let* sources_json := getitem materials_json "sources" in
  let* (st, sources) := for_in sources_json load_source (st, []) in
  let* materials_json := getitem study_json "materials" in
  let* samples_json := getitem materials_json "samples" in
  let* (st, samples) := for_in samples_json load_sample (st, []) in
  let* process_sequence_json := getitem study_json "processSequence" in
  let* (st, sequence) := for_in process_sequence_json load_study_process (st, []) in
  let* process_sequence_json := getitem study_json "processSequence" in
  let* st := link_processes st process_sequence_json in
  let graph := _build_assay_graph (processes_of st sequence) in
  let* assays_json := getitem study_json "assays" in
  let* (st, categories, assays) := for_in assays_json load_assay (st, categories, []) in
  Ok (st, studies ++ [mkStudy identifier title description submission_date
                              public_release_date filename comments categories
                              publications contacts design_descriptors protocols factors
                              sources samples sequence graph assays]).

(** The registries as [load] creates them: [term_source_dict] starts with
    the entry [{'': None}]. *)
Definition initial_state : LoadState :=
  mkLoadState 0 {[ KStr "" := None ]} ∅ ∅ ∅ ∅ ∅ ∅ ∅ ∅ ∅ ∅ ∅.

(** The [else] branch of [load]: the investigation, and the registries as
    they are when [load] returns. *)
Definition build_investigation (isajson : json) : res (Investigation * LoadState) :=
  let* identifier := getitem isajson "identifier" in
  let* title := getitem isajson "title" in
  let* description := getitem isajson "description" in
  let* submission_date := getitem isajson "submissionDate" in
  let* public_release_date := getitem isajson "publicReleaseDate" in
  let* comments := load_comments isajson in
  let st := initial_state in
  let* references_json := getitem isajson "ontologySourceReferences" in
  let* (st, references) := for_in references_json load_ontology_source_reference (st, []) in
  let* publications_json := getitem isajson "publications" in
  let* publications :=
    collect_in publications_json (load_publication st annotation_name_accession_source) in
  let* people_json := getitem isajson "people" in
  let* contacts := collect_in people_json (load_person st load_comments) in
  let* studies_json := getitem isajson "studies" in
  let* st := for_in studies_json load_assay_categories_first st in
  let* studies_json := getitem isajson "studies" in
  let* (st, studies) := for_in studies_json load_study (st, []) in
  Ok (mkInvestigation identifier title description submission_date public_release_date
                      comments references publications contacts studies, st).

(** [load], given what [json.load(fp)] returned. *)
Definition load (isajson : json) : res (option Investigation) :=
  match isajson with
  | JNull => Ok None
  | _ => let* (investigation, _) := build_investigation isajson in Ok (Some investigation)
  end.

(** ** [validate_isajson] and [validate] *)

(** The file handed to [validate]: its name and its content. *)
Record File := mkFile {
  fp_name : string;
  fp_content : string }.

(** What [validate] calls outside this module: the helpers of
    [isatools.validate.utils] (each takes the report and may append to
    it), [json.load], the JSON-schema validation behind
    [_check_isa_schemas] and [os.path.dirname]. *)
Record Externals := mkExternals {
  check_encoding : File -> Report -> res Report;
  is_utf8 : File -> bool;
  json_load : File -> res json;
  _check_isa_schemas : json -> res unit;
  check_iso8601_date : json -> Report -> res Report;
  utils_check_pubmed_id : json -> Report -> res Report;
  check_doi : json -> Report -> res Report;
  dirname : string -> string;
  check_data_files : json -> string -> Report -> res Report;
  (** [i = isajson_load(open(name)); isajson_link_objects(i, report)] *)
  isajson_load_and_link : string -> Report -> res Report }.

Definition plain (text : string) : message := mkMessage text [].

Definition _check_filenames (isa_json : json) (report : Report) : res Report :=
  let* studies := getitem isa_json "studies" in
  for_in studies
    (fun report study =>
       let* filename := getitem study "filename" in
       let report :=
         if is_empty_str filename then warn report (plain "A study filename is missing")
         else report in
       let* assays := getitem study "assays" in
       for_in assays
         (fun report assay =>
            let* filename := getitem assay "filename" in
            Ok (if is_empty_str filename
                then warn report (plain "An assay filename is missing")
                else report))
         report)
    report.

Definition _check_ontology_sources (isa_json : json) (report : Report)
    : res (list json * Report) :=
  let* sources := getitem isa_json "ontologySourceReferences" in
  for_in sources
    (fun state ontology_source =>
       let '(ontology_source_refs, report) := state in
       let* name := getitem ontology_source "name" in
       if is_empty_str name
       then Ok (ontology_source_refs,
                warn report (plain "An Ontology Source Reference is missing Term Source Name, so can't be referenced"))
       else let* name := getitem ontology_source "name" in
            Ok (ontology_source_refs ++ [name], report))
    ([JStr ""], report).

Definition _check_date_formats (ext : Externals) (isa_json : json) (report : Report)
    : res Report :=
  let* date := getitem isa_json "publicReleaseDate" in
  let* report := check_iso8601_date ext date report in
  let* date := getitem isa_json "submissionDate" in
  let* report := check_iso8601_date ext date report in
  let* studies := getitem isa_json "studies" in
  for_in studies
    (fun report study =>
       let* date := getitem study "publicReleaseDate" in
       let* report := check_iso8601_date ext date report in
       let* date := getitem study "submissionDate" in
       let* report := check_iso8601_date ext date report in
       let* process_sequence := getitem study "processSequence" in
       for_in process_sequence
         (fun report process =>
            let* date := getitem process "date" in
            check_iso8601_date ext date report)
         report)
    report.

(** [for pub in isa_json['publications']: check(pub[key], report)], then
    the same over the publications of every study. *)
Definition check_publication_field (check : json -> Report -> res Report) (key : string)
    (isa_json : json) (report : Report) : res Report :=
  let each := fun report pub => let* value := getitem pub key in check value report in
  let* publications := getitem isa_json "publications" in
  let* report := for_in publications each report in
  let* studies := getitem isa_json "studies" in
  for_in studies
    (fun report study =>
       let* publications := getitem study "publications" in
       for_in publications each report)
    report.

Definition _check_pubmed_ids (ext : Externals) : json -> Report -> res Report :=
  check_publication_field (utils_check_pubmed_id ext) "pubMedID".

Definition _check_dois (ext : Externals) : json -> Report -> res Report :=
  check_publication_field (check_doi ext) "doi".

(** The three name checks return a list of names that [validate_isajson]
    does not use; the model keeps the report only. *)
Definition _check_protocol_names (isa_json : json) (report : Report) : res Report :=
  let* studies := getitem isa_json "studies" in
  for_in studies
    (fun report study =>
       let* protocols := getitem study "protocols" in
       for_in protocols
         (fun report protocol =>
            let* name := getitem protocol "name" in
            if is_empty_str name
            then Ok (warn report (plain "A Protocol is missing Protocol Name, so can't be referenced in ISA-tab"))
            else let* _ := getitem protocol "name" in Ok report)
         report)
    report.

Definition _check_protocol_parameter_names (isa_json : json) (report : Report) : res Report :=
  let* studies := getitem isa_json "studies" in
  for_in studies
    (fun report study =>
       let* protocols := getitem study "protocols" in
       for_in protocols
         (fun report protocol =>
            let* parameters := getitem protocol "parameters" in
            for_in parameters
              (fun report parameter =>
                 let* name := getitem parameter "parameterName" in
                 if is_empty_str name
                 then Ok (warn report (plain "A Protocol Parameter is missing Name, so can't be referenced in ISA-tab"))
                 else let* _ := getitem parameter "parameterName" in Ok report)
              report)
         report)
    report.

Definition _check_study_factor_names (isa_json : json) (report : Report) : res Report :=
  let* studies := getitem isa_json "studies" in
  for_in studies
    (fun report study =>
       let* factors := getitem study "factors" in
       for_in factors
         (fun report factor =>
            let* name := getitem factor "factorName" in
            Ok (if is_empty_str name
                then warn report (plain "A Study Factor is missing Name, so can't be referenced in ISA-tab")
                else report))
         report)
    report.

(** The name of a study in the messages: its identifier, or its position
    when the identifier is empty. *)
Definition study_section (i : nat) (study : json) : res json :=
  let study_id :=
    JStr ("study loc " ++ pretty (S i)
          ++ " (study location autocalculated by validator - Study ID in JSON not present)") in
  let* identifier := getitem study "identifier" in
  if negb (py_eq identifier (JStr ""))
  then getitem study "identifier"
  else Ok study_id.

(** [for i, study in enumerate(isa_json['studies'])]: the objects under
    [key] that are declared in the study and used nowhere. *)
Definition check_declared_are_used (key : string) (isa_json : json) (report : Report)
    : res Report :=
  let* studies := getitem isa_json "studies" in
  let* studies := iter studies in
  for_each_enum
    (fun report i study =>
       let* declared := getitem study key in
       let* obj_ids := items_at declared "@id" in
       let* study_id := study_section i study in
       Ok (_check_object_usage study_id obj_ids (_collect_id_refs isa_json []) report))
    0%nat studies report.

Definition validate_isajson (ext : Externals) (isa_json : json) (report : Report)
    : res Report :=
  let* _ := _check_isa_schemas ext isa_json in
  let* report := _check_filenames isa_json report in
  let* (ontology_source_refs, report) := _check_ontology_sources isa_json report in
  let* report := _check_date_formats ext isa_json report in
  let report := _check_term_source_refs isa_json ontology_source_refs report in
  let* report := _check_pubmed_ids ext isa_json report in
  let* report := _check_dois ext isa_json report in
  let* report := _check_protocol_names isa_json report in
  let* report := _check_protocol_parameter_names isa_json report in
  let* report := _check_study_factor_names isa_json report in
  let report := _check_object_refs isa_json (_collect_object_refs isa_json []) report in
  let* report := check_declared_are_used "protocols" isa_json report in
  let* report := check_declared_are_used "factors" isa_json report in
  let* ontology_source_refs := get_ontology_source_refs isa_json in
  let report :=
    _check_object_usage (JStr "investigation (term source check)") ontology_source_refs
                        (_collect_term_source_refs isa_json []) report in
  let dir_context := dirname ext (file_name report) in
  let* studies := getitem isa_json "studies" in
  let* report :=
    for_in studies
      (fun report study =>
         let* assays := getitem study "assays" in
         for_in assays
           (fun report assay =>
              let* data_files := getitem assay "dataFiles" in
              check_data_files ext data_files dir_context report)
           report)
      report in
  isajson_load_and_link ext (file_name report) report.

Definition not_utf8 : message :=
  plain "File is not UTF-8 encoded, not proceeding with json.load as it will fail".

(** [validate].  Both handlers append a fatal diagnostic and raise the
    exception again: the report, local to [validate], is then out of the
    caller's reach, and the model returns the exception alone. *)
Definition validate (ext : Externals) (fp : File) : res Report :=
  let report := ValidationReport (fp_name fp) in
  let* report := check_encoding ext fp report in
  if negb (is_utf8 ext fp) then Ok (fatal report not_utf8)
  else
    match (let* isa_json := json_load ext fp in validate_isajson ext isa_json report) with
    | Ok report => Ok report
    | Raise ValueError => Raise ValueError
    | Raise SystemError => Raise SystemError
    | Raise e => Raise e
    end.

(** ** Declarations and registered identifiers *)

(** [x] occurs in the document [doc], at any depth. *)
Inductive subdoc (x : json) : json -> Prop :=
  | subdoc_here : subdoc x x
  | subdoc_list (l : list json) (y : json) :
      y ∈ l -> subdoc x y -> subdoc x (JList l)
  | subdoc_dict (d : list (string * json)) (k : string) (y : json) :
      (k, y) ∈ d -> subdoc x y -> subdoc x (JDict d).

(** The identifiers the walker collects as declarations over a document. *)
Definition declared_ids (doc : json) : list json :=
  _collect_object_refs doc [].

(** The identifiers held by the registries of [load]: sources, samples,
    other materials, data files, protocols, parameters, factors,
    characteristic categories, units and processes. *)
Definition registry_ids (st : LoadState) : gset pykey :=
  dom (sources_dict st) ∪ dom (samples_dict st) ∪ dom (other_materials_dict st)
  ∪ dom (data_dict st) ∪ dom (protocols_dict st) ∪ dom (parameters_dict st)
  ∪ dom (factors_dict st) ∪ dom (categories_dict st) ∪ dom (units_dict st)
  ∪ dom (process_dict st).

(** The list [l] holds an identifier equal to the key [k]. *)
Definition covers (l : list json) (k : pykey) : Prop :=
  ∃ j, j ∈ l ∧ hash_key j = Ok k.

(** What the loops of [load] can get hold of in a document: a part of
    the document, or a string (a key of an object or a character, when a
    loop runs over an object or a string). *)
Definition reached (doc x : json) : Prop :=
  subdoc x doc ∨ ∃ s, x = JStr s.

(** Every identifier held by the registries is among the declarations
    collected over the document. *)
Definition all_declared (doc : json) (st : LoadState) : Prop :=
  ∀ k, k ∈ registry_ids st → covers (declared_ids doc) k.


(** What a usage checker prints for its two lists of identifiers: nothing
    when they hold the same identifiers, and otherwise a single line, for
    the used-but-undeclared ones if there are any, and only else for the
    declared-but-unused ones. *)
Definition prints_one_direction (used declared : list json)
    (not_declared not_used : string) (out : list message) : Prop :=
  ∃ u d : gset pykey,
    py_set used = Ok u ∧ py_set declared = Ok d
    ∧ (u ∖ d ≠ ∅ → out = [mkMessage not_declared [FSet (u ∖ d)]])
    ∧ (u ∖ d = ∅ → d ∖ u ≠ ∅ → out = [mkMessage not_used [FSet (d ∖ u)]])
    ∧ (u ∖ d = ∅ → d ∖ u = ∅ → out = []).

(** ** Sample objects used in the worked examples *)

Definition example_annotation : OntologyAnnotation :=
  mkOntologyAnnotation None (JStr "sample collection") None (JStr "").

Definition example_protocol : Protocol :=
  mkProtocol (JStr "#protocol/p") (JStr "p") (JStr "") (JStr "") (JStr "")
             example_annotation [] [].

Definition example_sample (o : oid) (id_ : string) : Sample :=
  mkSample o (JStr id_) (JStr "") (JList []) [] [].

Definition example_data_file (o : oid) (id_ : string) : DataFile :=
  mkDataFile o (JStr id_) (JStr "raw.txt") (JStr "Raw Data File") [].

Definition example_process (o : oid) (id_ : string) (ins outs : list entity)
    (prev next : option oid) : Process :=
  mkProcess o (JStr id_) example_protocol [] None None [] [] ins outs prev next.

(** A process with output S2 and next process P2, followed by P2, which
    has no input and names the first process as its previous process. *)
Definition chained_sequence : list Process :=
  [ example_process 1 "#process/P1" [] [ESample (example_sample 10 "#sample/S2")] None (Some 2%nat);
    example_process 2 "#process/P2" [] [] (Some 1%nat) None ].

(** A data transformation reading one data file. *)
Definition data_input_sequence : list Process :=
  [ example_process 1 "#process/P1" [EDataFile (example_data_file 7 "#data/raw")] [] None None ].

(** A study that declares protocol P1 and whose only process executes the
    undeclared protocol P2. *)
Definition study_P1_declared_P2_used : json :=
  JDict [ ("protocols", JList [ JDict [ ("@id", JStr "#protocol/P1") ] ]);
          ("processSequence",
           JList [ JDict [ ("executesProtocol", JDict [ ("@id", JStr "#protocol/P2") ]) ] ]);
          ("assays", JList []) ].

(** An investigation with one publication and the given PubMed ID. *)
Definition investigation_with_pubmed_id (pubmed_id : string) : json :=
  JDict [ ("publications", JList [ JDict [ ("pubMedID", JStr pubmed_id) ] ]);
          ("studies", JList []) ].

(** A parameter value that refers to the empty identifier and one that
    refers to the reserved array-design reference; nothing is declared. *)
Definition document_with_sentinels : json :=
  JDict [ ("parameterValues",
           JList [ JDict [ ("category", JDict [ ("@id", JStr "") ]) ];
                   JDict [ ("category", JDict [ ("@id", JStr Array_Design_REF) ]) ] ]) ].

(** *** Documents *)

Definition annotation_json (value : string) : json :=
  JDict [ ("annotationValue", JStr value); ("termAccession", JStr "");
          ("termSource", JStr "") ].

Definition protocol_P1_json : json :=
  JDict [ ("@id", JStr "#protocol/P1"); ("name", JStr "sampling"); ("uri", JStr "");
          ("description", JStr ""); ("version", JStr "");
          ("protocolType", annotation_json "sample collection");
          ("parameters", JList []); ("components", JList []) ].

(** A study with protocol P1, the given sources, samples and processes,
    and no assay. *)
Definition study_json_with (sources samples processes : list json) : json :=
  JDict [ ("identifier", JStr "s1"); ("title", JStr ""); ("description", JStr "");
          ("submissionDate", JStr ""); ("publicReleaseDate", JStr "");
          ("filename", JStr "s_1.txt");
          ("characteristicCategories", JList []); ("unitCategories", JList []);
          ("publications", JList []); ("people", JList []);
          ("studyDesignDescriptors", JList []);
          ("protocols", JList [ protocol_P1_json ]);
          ("factors", JList []);
          ("materials", JDict [ ("sources", JList sources); ("samples", JList samples) ]);
          ("processSequence", JList processes);
          ("assays", JList []) ].

(** An investigation with the given studies; [extra] holds further keys
    of the top-level object. *)
Definition investigation_json_with (extra : list (string * json)) (studies : list json)
    : json :=
  JDict (extra ++
         [ ("identifier", JStr "i1"); ("title", JStr ""); ("description", JStr "");
           ("submissionDate", JStr ""); ("publicReleaseDate", JStr "");
           ("comments", JList []); ("ontologySourceReferences", JList []);
           ("publications", JList []); ("people", JList []);
           ("studies", JList studies) ]).

Definition source_json_with (id_ name : string) : json :=
  JDict [ ("@id", JStr id_); ("name", JStr name); ("characteristics", JList []) ].

Definition sample_json_with (id_ name : string) : json :=
  JDict [ ("@id", JStr id_); ("name", JStr name); ("derivesFrom", JList []);
          ("characteristics", JList []); ("factorValues", JList []) ].

Definition material_json_with (id_ name : string) : json :=
  JDict [ ("@id", JStr id_); ("name", JStr name); ("type", JStr "Extract Name");
          ("characteristics", JList []) ].



(** A document without studies whose top-level object carries an
    identifier. *)
Definition document_with_investigation_id : json :=
  investigation_json_with [ ("@id", JStr "#investigation/i1") ] [].

(** Registries in which '#x' names both a source and a sample. *)
Definition state_with_source_and_sample : LoadState :=
  set_samples_dict
    (set_sources_dict initial_state
       {[ KStr "#x" := mkSource 0 (JStr "#x") (JStr "a source") [] ]})
    {[ KStr "#x" := example_sample 1 "#x" ]}.


(** A document with one study, which declares protocol P1 and the source
    '#source/a'. *)
Definition document_with_source : json :=
  investigation_json_with []
    [ study_json_with [ source_json_with "#source/a" "source-a" ] [] [] ].

(** *** Collaborators and files *)

(** Collaborators that append nothing and never fail, with a [json.load]
    that knows the document '{}' and rejects any other content. *)
Definition quiet_externals : Externals :=
  mkExternals
    (fun _ report => Ok report)
    (fun _ => true)
    (fun fp => if String.eqb (fp_content fp) "{}" then Ok (JDict []) else Raise ValueError)
    (fun _ => Ok tt)
    (fun _ report => Ok report)
    (fun _ report => Ok report)
    (fun _ report => Ok report)
    (fun name => name)
    (fun _ _ report => Ok report)
    (fun _ report => Ok report).

(** A file whose content is not JSON. *)
Definition truncated_file : File := mkFile "i.json" "{".

(** A file that holds the empty object. *)
Definition empty_object_file : File := mkFile "i.json" "{}".

(** ** Vocabulary for the walkers *)

(** The tests the walkers of [validate_isajson] apply to an object: a
    bare reference has the single key '@id', a declaration has '@id' and
    at least one other key, a term-source site has three keys, one of
    them 'termSource'. *)
Definition bare_reference (d : list (string * json)) : bool :=
  has_key d "@id" && (size (keys d) =? 1)%nat.

Definition declaration (d : list (string * json)) : bool :=
  has_key d "@id" && (1 <? size (keys d))%nat.

Definition term_source_site (d : list (string * json)) : bool :=
  has_key d "termSource" && (size (keys d) =? 3)%nat.

(** The shape the three collectors share: on every object that passes
    [test], the value under [key] is appended unless the list holds an
    equal value already. *)
Fixpoint collect_where (test : list (string * json) -> bool) (key : string)
    (j : json) (acc : list json) : list json :=
  match j with
  | JDict d =>
      let acc :=
        if test d then
          if negb (py_in (dict_at d key) acc) then acc ++ [dict_at d key] else acc
        else acc in
      fold_left (fun acc kv => collect_where test key (snd kv) acc) d acc
  | JList l => fold_left (fun acc j => collect_where test key j acc) l acc
  | _ => acc
  end.

(** No value of the list is equal to an earlier one. *)
Fixpoint py_distinct (l : list json) : Prop :=
  match l with
  | [] => True
  | y :: l' => Forall (fun x => py_eq x y = false) l' ∧ py_distinct l'
  end.

(** [hash(j)] succeeds. *)
Definition is_hashable (j : json) : bool :=
  match hash_key j with
  | Ok _ => true
  | Raise _ => false
  end.

(** A process that executes a protocol declared further down in the
    document. *)
Definition document_with_forward_reference : json :=
  JDict [ ("processSequence",
           JList [ JDict [ ("@id", JStr "#process/p1");
                           ("executesProtocol", JDict [ ("@id", JStr "#protocol/P1") ]) ] ]);
          ("protocols", JList [ protocol_P1_json ]) ].

(** The shape the two checking walkers share: [visit] is run on every
    object, before its values are walked in turn. *)
Fixpoint walk_report (visit : list (string * json) -> Report -> Report)
    (j : json) (r : Report) : Report :=
  match j with
  | JDict d => fold_left (fun r kv => walk_report visit (snd kv) r) d (visit d r)
  | JList l => fold_left (fun r j => walk_report visit j r) l r
  | _ => r
  end.

(** An investigation that declares the ontology source OBI and holds one
    annotation from OBI, one from EFO and one without a source. *)
Definition investigation_with_term_sources : json :=
  JDict [ ("ontologySourceReferences", JList [ JDict [ ("name", JStr "OBI") ] ]);
          ("designs",
           JList [ JDict [ ("annotationValue", JStr "growth"); ("termAccession", JStr "");
                           ("termSource", JStr "OBI") ];
                   JDict [ ("annotationValue", JStr "dose"); ("termAccession", JStr "");
                           ("termSource", JStr "EFO") ];
                   JDict [ ("annotationValue", JStr "time"); ("termAccession", JStr "");
                           ("termSource", JStr "") ] ]) ].

(** ** Reports that only grow *)

(** [r'] is [r] with further diagnostics appended. *)
Definition report_extends (r r' : Report) : Prop :=
  file_name r' = file_name r ∧ ∃ added, diagnostics r' = diagnostics r ++ added.

(** The collaborators treat the report as the spec has it, "an ordered,
    append-only sequence of diagnostics": each of them returns the report
    it was given with diagnostics appended. *)
Definition append_only (ext : Externals) : Prop :=
  (∀ fp r r', check_encoding ext fp r = Ok r' → report_extends r r')
  ∧ (∀ x r r', check_iso8601_date ext x r = Ok r' → report_extends r r')
  ∧ (∀ x r r', utils_check_pubmed_id ext x r = Ok r' → report_extends r r')
  ∧ (∀ x r r', check_doi ext x r = Ok r' → report_extends r r')
  ∧ (∀ x dir r r', check_data_files ext x dir r = Ok r' → report_extends r r')
  ∧ (∀ name r r', isajson_load_and_link ext name r = Ok r' → report_extends r r').

(** Process p1 with the date of its run. *)
Definition dated_process_json : json :=
  JDict [ ("@id", JStr "#process/p1");
          ("executesProtocol", JDict [ ("@id", JStr "#protocol/P1") ]);
          ("date", JStr "2015-03-01");
          ("parameterValues", JList []);
          ("inputs", JList [ JDict [ ("@id", JStr "#source/a") ] ]);
          ("outputs", JList []) ].

(** A document whose only process carries a date. *)
Definition document_with_dated_process : json :=
  investigation_json_with []
    [ study_json_with [ source_json_with "#source/a" "source-a" ] [] [ dated_process_json ] ].

(** ** Processes before and after the second pass *)

(** [p'] is [p] up to its two links. *)
Definition same_but_links (p p' : Process) : Prop :=
  process_oid p' = process_oid p ∧ process_id p' = process_id p
  ∧ executes_protocol p' = executes_protocol p
  ∧ process_comments p' = process_comments p
  ∧ process_date p' = process_date p ∧ process_performer p' = process_performer p
  ∧ parameter_values p' = parameter_values p
  ∧ additional_properties p' = additional_properties p
  ∧ inputs p' = inputs p ∧ outputs p' = outputs p.

(** The link [l'] of a process after the second pass: the link [l] it
    had, or a process held by [process_dict]. *)
Definition link_kept_or_registered (st : LoadState) (l l' : option oid) : Prop :=
  l' = l ∨ ∃ q k, l' = Some q ∧ process_dict st !! k = Some q.

(** What the second pass may change: the links of the processes in the
    store, and nothing else. *)
Definition only_links (st st' : LoadState) : Prop :=
  set_objects st' (objects st) = st
  ∧ ∀ o, match objects st !! o, objects st' !! o with
         | Some p, Some p' =>
             same_but_links p p'
             ∧ link_kept_or_registered st (prev_process p) (prev_process p')
             ∧ link_kept_or_registered st (next_process p) (next_process p')
         | None, None => True
         | _, _ => False
         end.

(** The processes of the sequence are in the store, and their inputs and
    outputs come from the registries as they are. *)
Definition sequence_from_registries (st : LoadState) (sequence : list oid) : Prop :=
  ∀ o, o ∈ sequence →
    ∃ p, objects st !! o = Some p
         ∧ Forall (fun e => (∃ s k, e = ESample s ∧ samples_dict st !! k = Some s)
                     ∨ (∃ m k, e = EMaterial m ∧ other_materials_dict st !! k = Some m)
                     ∨ (∃ d k, e = EDataFile d ∧ data_dict st !! k = Some d))
                  (inputs p ++ outputs p).

(** Registries in which P1 and P2 are loaded and not yet linked. *)
Definition state_with_two_processes : LoadState :=
  set_objects
    (set_process_dict initial_state
       {[ KStr "#process/P1" := 1%nat; KStr "#process/P2" := 2%nat ]})
    {[ 1%nat := example_process 1 "#process/P1" [] [] None None;
       2%nat := example_process 2 "#process/P2" [] [] None None ]}.

(** P1 names P2 as its next process and P0, which is declared nowhere,
    as its previous process; P2 names P1 as its previous process. *)
Definition linked_sequence_json : json :=
  JList [ JDict [ ("@id", JStr "#process/P1");
                  ("previousProcess", JDict [ ("@id", JStr "#process/P0") ]);
                  ("nextProcess", JDict [ ("@id", JStr "#process/P2") ]) ];
          JDict [ ("@id", JStr "#process/P2");
                  ("previousProcess", JDict [ ("@id", JStr "#process/P1") ]) ] ].

(** Registries that hold protocol P1 only. *)
Definition state_with_protocol : LoadState :=
  set_protocols_dict initial_state {[ KStr "#protocol/P1" := example_protocol ]}.

(** An assay with the data file '#data/raw' and the given processes. *)
Definition assay_json_with (processes : list json) : json :=
  JDict [ ("measurementType", annotation_json "transcription profiling");
          ("technologyType", annotation_json "DNA microarray");
          ("technologyPlatform", JStr ""); ("filename", JStr "a_1.txt");
          ("unitCategories", JList []); ("characteristicCategories", JList []);
          ("dataFiles",
           JList [ JDict [ ("@id", JStr "#data/raw"); ("name", JStr "raw.txt");
                           ("type", JStr "Raw Data File") ] ]);
          ("materials", JDict [ ("samples", JList []); ("otherMaterials", JList []) ]);
          ("processSequence", JList processes) ].

(** A process that executes P1 and writes '#data/raw'. *)
Definition assay_process_json : json :=
  JDict [ ("@id", JStr "#process/scan");
          ("executesProtocol", JDict [ ("@id", JStr "#protocol/P1") ]);
          ("parameterValues", JList []);
          ("inputs", JList []);
          ("outputs", JList [ JDict [ ("@id", JStr "#data/raw") ] ]) ].

(** Process p1 of a study: it executes P1 and reads '#x'. *)
Definition process_reading_x_json : json :=
  JDict [ ("@id", JStr "#process/p1");
          ("executesProtocol", JDict [ ("@id", JStr "#protocol/P1") ]);
          ("parameterValues", JList []);
          ("inputs", JList [ JDict [ ("@id", JStr "#x") ] ]);
          ("outputs", JList []) ].

(** What an input or output of an assay process may be: a data file or
    an other-material of the assay, or a sample held by the registry of
    samples. *)
Definition within_assay (st : LoadState) (assay : Assay) (e : entity) : Prop :=
  match e with
  | EDataFile data_file => data_file ∈ assay_data_files assay
  | EMaterial material => material ∈ assay_other_material assay
  | ESample sample => ∃ k, samples_dict st !! k = Some sample
  | ESource _ => False
  end.

(** ** Documents and what [load] makes of them *)

(** The declarations [js] of a document and the objects built from them:
    as many, in the same order, each under the identifier of its
    declaration. *)
Definition kept_in_order {B : Type} (id_of : B -> json) (js : list json) (bs : list B) : Prop :=
  Forall2 (fun j b => getitem j "@id" = Ok (id_of b)) js bs.

(** The elements of the list held under [key], or under [key] of the
    object held under [outer]. *)
Definition elements_at (j : json) (outer : option string) (key : string) : res (list json) :=
  let* owner := match outer with
                | Some o => getitem j o
                | None => Ok j
                end in
  let* l := getitem owner key in
  iter l.

(** The data files and other-materials of an assay stand for those of
    its JSON. *)
Definition assay_stands_for (assay_json : json) (assay : Assay) : Prop :=
  (∃ js, elements_at assay_json None "dataFiles" = Ok js
         ∧ kept_in_order data_id js (assay_data_files assay))
  ∧ (∃ js, elements_at assay_json (Some "materials") "otherMaterials" = Ok js
           ∧ kept_in_order material_id js (assay_other_material assay))
  ∧ (∃ js, elements_at assay_json None "processSequence" = Ok js
           ∧ length (assay_process_sequence assay) = length js).

(** The sources, samples, processes and assays of a study stand for those
    of its JSON. *)
Definition study_stands_for (study_json : json) (study : Study) : Prop :=
  (∃ js, elements_at study_json (Some "materials") "sources" = Ok js
         ∧ kept_in_order source_id js (study_sources study))
  ∧ (∃ js, elements_at study_json (Some "materials") "samples" = Ok js
           ∧ kept_in_order sample_id js (study_samples study))
  ∧ (∃ js, elements_at study_json None "processSequence" = Ok js
           ∧ length (study_process_sequence study) = length js)
  ∧ (∃ js, elements_at study_json None "assays" = Ok js
           ∧ Forall2 assay_stands_for js (study_assays study)).

(** The processes of the sequence are in the store, and their inputs and
    outputs are sources and samples. *)
Definition of_sources_and_samples (st : LoadState) (sequence : list oid) : Prop :=
  ∀ o, o ∈ sequence →
    ∃ p, objects st !! o = Some p
         ∧ Forall (fun e => match e with
                            | ESource _ | ESample _ => True
                            | _ => False
                            end) (inputs p ++ outputs p).

(** A study with one source, one sample, a process from the one to the
    other, and no assay; and the document that holds this study. *)
Definition study_with_process_json : json :=
  study_json_with [ source_json_with "#source/a" "source-a" ]
                  [ sample_json_with "#sample/x" "sample-x" ]
                  [ JDict [ ("@id", JStr "#process/p1");
                            ("executesProtocol", JDict [ ("@id", JStr "#protocol/P1") ]);
                            ("parameterValues", JList []);
                            ("inputs", JList [ JDict [ ("@id", JStr "#source/a") ] ]);
                            ("outputs", JList [ JDict [ ("@id", JStr "#sample/x") ] ]) ] ].

Definition document_with_study_process : json :=
  investigation_json_with [] [ study_with_process_json ].

(** ** The material rules of [validate2]

    The checkers of rules 1001 to 1006 and 1015 to 1018.
    [get_io_ids_in_process_sequence] works on the list object held by
    the study under 'processSequence' and extends it in place: it is
    modelled by the identifiers it returns together with the study as
    the call leaves it, and the two checkers that call it pass that study
    on. *)

Definition get_source_ids (study_json : json) : res (list json) :=
  let* materials := getitem study_json "materials" in
  let* sources := getitem materials "sources" in
  items_at sources "@id".

Definition get_sample_ids (study_json : json) : res (list json) :=
  let* materials := getitem study_json "materials" in
  let* samples := getitem materials "samples" in
  items_at samples "@id".

Definition get_material_ids (study_json : json) : res (list json) :=
  let* assays := getitem study_json "assays" in
  for_in assays
    (fun material_ids assay_json =>
       let* materials := getitem assay_json "materials" in
       let* others := getitem materials "otherMaterials" in
       let* ids := items_at others "@id" in
       Ok (material_ids ++ ids))
    [].

Definition get_data_file_ids (study_json : json) : res (list json) :=
  let* assays := getitem study_json "assays" in
  for_in assays
    (fun data_file_ids assay_json =>
       let* data_files := getitem assay_json "dataFiles" in
       let* ids := items_at data_files "@id" in
       Ok (data_file_ids ++ ids))
    [].

(** [all_process_sequences.extend(assay_json['processSequence'])]: the
    method is looked up first ([AttributeError] on anything but a list),
    then the argument is read and iterated. *)
Definition extend_with_assay (all_process_sequences assay_json : json) : res json :=
  match all_process_sequences with
  | JList l =>
      let* process_sequence := getitem assay_json "processSequence" in
      let* processes := iter process_sequence in
      Ok (JList (l ++ processes))
  | _ => Raise AttributeError
  end.

(** What [extend_with_assay] appends for an assay: the elements of its
    process sequence. *)
Definition assay_processes (assay_json : json) : res (list json) :=
  let* process_sequence := getitem assay_json "processSequence" in
  iter process_sequence.

(** [[i['@id'] for i in process['inputs']] + [o['@id'] for o in process['outputs']]]. *)
Definition process_io_ids (process : json) : res (list json) :=
  let* inputs_json := getitem process "inputs" in
  let* input_ids := items_at inputs_json "@id" in
  let* outputs_json := getitem process "outputs" in
  let* output_ids := items_at outputs_json "@id" in
  Ok (input_ids ++ output_ids).

(** The study once the list it holds under 'processSequence' has become
    [all_process_sequences]. *)
Definition with_process_sequence (study_json all_process_sequences : json) : json :=
  match study_json with
  | JDict d => JDict (assoc_set "processSequence" all_process_sequences d)
  | _ => study_json
  end.

Definition get_io_ids_in_process_sequence (study_json : json) : res (list json * json) :=
  let* all_process_sequences := getitem study_json "processSequence" in
  let* assays := getitem study_json "assays" in
  let* all_process_sequences := for_in assays extend_with_assay all_process_sequences in
  let* processes := iter all_process_sequences in
  let* ids := flat_map_res process_io_ids processes in
  Ok (ids, with_process_sequence study_json all_process_sequences).

Definition node_ids_not_used : string :=
  "Not all node IDs in {} used by inputs/outputs {}".

Definition check_material_ids_declared_used (study_json : json)
    (id_collector_func : json -> res (list json)) : res (list message * json) :=
  let* node_ids := id_collector_func study_json in
  let* (io_ids_in_process_sequence, study_json) :=
    get_io_ids_in_process_sequence study_json in
  let* nodes := py_set node_ids in
  let* ios := py_set io_ids_in_process_sequence in
  if negb (bool_decide (nodes ⊆ ios))
  then Ok ([mkMessage node_ids_not_used
                      [FValues node_ids; FValues io_ids_in_process_sequence]],
           study_json)
  else Ok ([], study_json).

Definition io_ids_not_declared : string :=
  "There are some inputs/outputs IDs {} not found in sources, samples, materials or data files declared".

Definition check_material_ids_not_declared_used (study_json : json)
    : res (list message * json) :=
  let* source_ids := get_source_ids study_json in
  let* sample_ids := get_sample_ids study_json in
  let* material_ids := get_material_ids study_json in
  let* data_file_ids := get_data_file_ids study_json in
  let node_ids := source_ids ++ sample_ids ++ material_ids ++ data_file_ids in
  let* (io_ids_in_process_sequence, study_json) :=
    get_io_ids_in_process_sequence study_json in
  let* ios := py_set io_ids_in_process_sequence in
  let* nodes := py_set node_ids in
  if (0 <? Z.of_nat (size ios) - Z.of_nat (size nodes))%Z
  then Ok ([mkMessage io_ids_not_declared [FSet (ios ∖ nodes)]], study_json)
  else Ok ([], study_json).

Definition previous_process_not_in_sequence : string :=
  "previousProcess link {} in process {} does not refer to another process in sequence".
Definition next_process_not_in_sequence : string :=
  "nextProcess link {} in process {} does not refer to another process in sequence".

(** One [try] block of [check_process_sequence_links]. *)
Definition check_link (key template : string) (process_ids : list json) (process : json)
    : res (list message) :=
  except_KeyError
    (let* link := ref_at process key in
     if negb (py_in link process_ids) then
       let* link := ref_at process key in
       let* id_ := getitem process "@id" in
       Ok [mkMessage template [FValue link; FValue id_]]
     else Ok [])
    (Ok []).

Definition check_process_sequence_links (process_sequence_json : json) : res (list message) :=
  let* process_ids := items_at process_sequence_json "@id" in
  let* processes := iter process_sequence_json in
  flat_map_res
    (fun process =>
       let* previous := check_link "previousProcess" previous_process_not_in_sequence
                                   process_ids process in
       let* next := check_link "nextProcess" next_process_not_in_sequence
                               process_ids process in
       Ok (previous ++ next))
    processes.

(** *** Rule 3010 *)

Definition accession_without_source : string :=
  "There are ontology annotations with termAccession set but no termSource referenced: {}".

(** [annotation['termAccession'] is not '' and annotation['termSource'] is '']. *)
Definition uses_accession_without_source (annotation : json) : res bool :=
  let* term_accession := getitem annotation "termAccession" in
  if negb (is_empty_str term_accession) then
    let* term_source := getitem annotation "termSource" in
    Ok (is_empty_str term_source)
  else Ok false.

(** [[x for x in xs if test(x)]]. *)
Fixpoint filter_res {A : Type} (test : A -> res bool) (xs : list A) : res (list A) :=
  match xs with
  | [] => Ok []
  | x :: xs' =>
      let* keep := test x in
      let* rest := filter_res test xs' in
      Ok (if keep then x :: rest else rest)
  end.

Definition check_term_accession_used_no_source_ref (isa_json : json) : res (list message) :=
  let collector := walk_and_get_annotations isa_json [] in
  let* terms_using_accession_no_source_ref :=
    filter_res uses_accession_without_source collector in
  if (0 <? length terms_using_accession_no_source_ref)%nat
  then Ok [mkMessage accession_without_source [FValues terms_using_accession_no_source_ref]]
  else Ok [].

(** *** Studies for the worked examples *)

Definition io_process_json (id_ : string) (input_ids output_ids : list string) : json :=
  JDict [ ("@id", JStr id_);
          ("inputs", JList (map (fun i => JDict [ ("@id", JStr i) ]) input_ids));
          ("outputs", JList (map (fun o => JDict [ ("@id", JStr o) ]) output_ids)) ].

(** A study with the source '#source/a' and the sample '#sample/x', a
    process from the one to the other, and an assay whose only process
    turns the sample into the data file '#data/raw'. *)
Definition study_with_assay_process : json :=
  JDict [ ("materials",
           JDict [ ("sources", JList [ JDict [ ("@id", JStr "#source/a") ] ]);
                   ("samples", JList [ JDict [ ("@id", JStr "#sample/x") ] ]) ]);
          ("processSequence",
           JList [ io_process_json "#process/p1" [ "#source/a" ] [ "#sample/x" ] ]);
          ("assays",
           JList [ JDict [ ("materials", JDict [ ("otherMaterials", JList []) ]);
                           ("dataFiles", JList [ JDict [ ("@id", JStr "#data/raw") ] ]);
                           ("processSequence",
                            JList [ io_process_json "#process/p2" [ "#sample/x" ]
                                                    [ "#data/raw" ] ]) ] ]) ].

(** A study that declares the source '#source/a' and whose only process
    reads '#sample/x', which is declared nowhere. *)
Definition study_with_undeclared_input : json :=
  JDict [ ("materials",
           JDict [ ("sources", JList [ JDict [ ("@id", JStr "#source/a") ] ]);
                   ("samples", JList []) ]);
          ("processSequence", JList [ io_process_json "#process/p1" [ "#sample/x" ] [] ]);
          ("assays", JList []) ].

(** A sequence in which p1 names p2 as its next process and p0, which is
    not in the sequence, as its previous process. *)
Definition sequence_with_dangling_link : json :=
  JList [ JDict [ ("@id", JStr "#process/p1");
                  ("previousProcess", JDict [ ("@id", JStr "#process/p0") ]);
                  ("nextProcess", JDict [ ("@id", JStr "#process/p2") ]) ];
          JDict [ ("@id", JStr "#process/p2") ] ].

(** * Properties *)

(** ** Reasoning about the error monad *)

Lemma res_bind_Ok {A B} (m : res A) (k : A -> res B) (b : B) :
  res_bind m k = Ok b → ∃ a, m = Ok a ∧ k a = Ok b.
Proof. destruct m as [a|e]; simpl; [eauto | done]. Qed.

Ltac bind_Ok H :=
  match type of H with
  | res_bind ?m ?k = Ok ?b =>
      let E := fresh "E" in
      apply (res_bind_Ok m k b) in H as (? & E & H); cbv beta in H
  end.

(** Unfolds the chain of binds of a loader that has returned. *)
Ltac binds_Ok H :=
  repeat first
    [ bind_Ok H
    | progress (unfold new_object in H; cbv beta iota zeta in H)
    | match type of H with
      | (match ?p with (_, _) => _ end) = _ => is_var p; destruct p
      end ].

Ltac dict_set_Ok :=
  match goal with
  | E : dict_set _ _ _ = Ok _ |- _ =>
      unfold dict_set in E; bind_Ok E; injection E as <-
  end.


(** ** The provenance graph *)

Section graph.
Implicit Types (G : DiGraph) (p : Process) (u v : node).

Lemma edges_add_edge u v G e :
  e ∈ edges (add_edge u v G) ↔ e = (u, v) ∨ e ∈ edges G.
Proof.
  unfold add_edge; simpl.
  rewrite elem_of_union, elem_of_singleton. tauto.
Qed.

Lemma nodes_add_edge u v G n :
  n ∈ nodes (add_edge u v G) ↔ n = u ∨ n = v ∨ n ∈ nodes G.
Proof.
  unfold add_edge; simpl.
  rewrite !elem_of_union, !elem_of_singleton. tauto.
Qed.

Lemma edges_fold_add {A} (f : A -> node * node) (l : list A) G e :
  e ∈ edges (fold_left (fun G x => add_edge (f x).1 (f x).2 G) l G)
  ↔ (∃ x, x ∈ l ∧ e = f x) ∨ e ∈ edges G.
Proof.
  revert G. induction l as [|a l IH]; intros G; simpl.
  - split; [auto | intros [(x & Hx & _) | ?]; [by apply elem_of_nil in Hx | done]].
  - rewrite IH, edges_add_edge. split.
    + intros [(x & Hx & ->) | [-> | ?]]; [left; exists x | left; exists a | right];
        try split; try done; try (by constructor); by destruct (f a).
    + intros [(x & Hx & ->) | ?]; [| by right; right].
      apply elem_of_cons in Hx as [-> | Hx];
        [right; left; by destruct (f a) | left; eauto].
Qed.

Lemma in_filter_not_DataFile (o : entity) (l : list entity) :
  o ∈ List.filter (fun n => negb (is_DataFile n)) l ↔ o ∈ l ∧ is_DataFile o = false.
Proof.
  rewrite !list_elem_of_In, filter_In.
  destruct (is_DataFile o); simpl; intuition congruence.
Qed.

Lemma length_pos_false {A} (l : list A) : (0 <? length l)%nat = false → l = [].
Proof. by destruct l. Qed.

(** The edges one pass of the first [if] adds. *)
Lemma edges_connect_outputs G p e :
  e ∈ edges (connect_outputs G p) ↔
    e ∈ edges G
    ∨ (∃ o, o ∈ outputs p ∧ is_DataFile o = false
            ∧ e = (process_node (process_oid p), entity_node o))
    ∨ (outputs p = [] ∧ ∃ q, next_process p = Some q
            ∧ e = (process_node (process_oid p), process_node q)).
Proof.
  unfold connect_outputs.
  destruct (0 <? length (outputs p))%nat eqn:Hlen.
  - rewrite orb_true_r.
    rewrite (edges_fold_add (fun x => (process_node (process_oid p), entity_node x))).
    split.
    + intros [(x & Hx & ->) | ?]; [| by left].
      apply in_filter_not_DataFile in Hx as [Hx Hd]. right; left; eauto.
    + intros [? | [(x & Hx & Hd & ->) | (Hnil & _)]]; [by right | |].
      * left. exists x. split; [| done]. by apply in_filter_not_DataFile.
      * by rewrite Hnil in Hlen.
  - rewrite orb_false_r. apply length_pos_false in Hlen as Hnil.
    destruct (next_process p) as [q|] eqn:Hnext.
    + rewrite bool_decide_eq_true_2 by done. rewrite edges_add_edge. split.
      * intros [-> | ?]; [right; right; eauto | by left].
      * intros [? | [(o & Ho & _) | (_ & q' & [= <-] & ->)]];
          [by right | | by left].
        rewrite Hnil in Ho. by apply elem_of_nil in Ho.
    + rewrite bool_decide_eq_false_2 by (intros H; by apply H).
      split; [by left |].
      intros [? | [(o & Ho & _) | (_ & q' & [=] & _)]]; [done |].
      rewrite Hnil in Ho. by apply elem_of_nil in Ho.
Qed.

(** The edges one pass of the second [if] adds. *)
Lemma edges_connect_inputs G p e :
  e ∈ edges (connect_inputs G p) ↔
    e ∈ edges G
    ∨ (∃ i, i ∈ inputs p ∧ e = (entity_node i, process_node (process_oid p)))
    ∨ (inputs p = [] ∧ ∃ q, prev_process p = Some q
            ∧ e = (process_node q, process_node (process_oid p))).
Proof.
  unfold connect_inputs.
  destruct (0 <? length (inputs p))%nat eqn:Hlen.
  - rewrite orb_true_r.
    rewrite (edges_fold_add (fun x => (entity_node x, process_node (process_oid p)))).
    split.
    + intros [(x & Hx & ->) | ?]; [right; left; eauto | by left].
    + intros [? | [(x & Hx & ->) | (Hnil & _)]]; [by right | left; eauto |].
      by rewrite Hnil in Hlen.
  - rewrite orb_false_r. apply length_pos_false in Hlen as Hnil.
    destruct (prev_process p) as [q|] eqn:Hprev.
    + rewrite bool_decide_eq_true_2 by done. rewrite edges_add_edge. split.
      * intros [-> | ?]; [right; right; eauto | by left].
      * intros [? | [(o & Ho & _) | (_ & q' & [= <-] & ->)]];
          [by right | | by left].
        rewrite Hnil in Ho. by apply elem_of_nil in Ho.
    + rewrite bool_decide_eq_false_2 by (intros H; by apply H).
      split; [by left |].
      intros [? | [(o & Ho & _) | (_ & q' & [=] & _)]]; [done |].
      rewrite Hnil in Ho. by apply elem_of_nil in Ho.
Qed.

Lemma end_points_add_edge u v G :
  nodes_are_end_points G → nodes_are_end_points (add_edge u v G).
Proof.
  intros HG n. rewrite nodes_add_edge, (HG n). split.
  - intros [-> | [-> | (e & He & Hn)]].
    + exists (u, v). rewrite edges_add_edge. auto.
    + exists (u, v). rewrite edges_add_edge. auto.
    + exists e. rewrite edges_add_edge. auto.
  - intros (e & He & Hn). apply edges_add_edge in He as [-> | He]; simpl in *.
    + tauto.
    + right; right; eauto.
Qed.

Lemma end_points_fold {A} (f : A -> node * node) (l : list A) G :
  nodes_are_end_points G →
  nodes_are_end_points (fold_left (fun G x => add_edge (f x).1 (f x).2 G) l G).
Proof.
  revert G. induction l as [|a l IH]; intros G HG; simpl; [done |].
  by apply IH, end_points_add_edge.
Qed.

Lemma end_points_connect_outputs G p :
  nodes_are_end_points G → nodes_are_end_points (connect_outputs G p).
Proof.
  intros HG. unfold connect_outputs.
  repeat case_match; try done.
  - by apply (end_points_fold (fun x => (process_node (process_oid p), entity_node x))).
  - by apply end_points_add_edge.
Qed.

Lemma end_points_connect_inputs G p :
  nodes_are_end_points G → nodes_are_end_points (connect_inputs G p).
Proof.
  intros HG. unfold connect_inputs.
  repeat case_match; try done.
  - by apply (end_points_fold (fun x => (entity_node x, process_node (process_oid p)))).
  - by apply end_points_add_edge.
Qed.

Lemma build_from_edges (ps : list Process) G e :
  e ∈ edges (fold_left (fun G process => connect_inputs (connect_outputs G process) process) ps G)
  ↔ e ∈ edges G ∨ ∃ p, p ∈ ps ∧
      ((∃ o, o ∈ outputs p ∧ is_DataFile o = false
             ∧ e = (process_node (process_oid p), entity_node o))
       ∨ (outputs p = [] ∧ ∃ q, next_process p = Some q
             ∧ e = (process_node (process_oid p), process_node q))
       ∨ (∃ i, i ∈ inputs p ∧ e = (entity_node i, process_node (process_oid p)))
       ∨ (inputs p = [] ∧ ∃ q, prev_process p = Some q
             ∧ e = (process_node q, process_node (process_oid p)))).
Proof.
  revert G. induction ps as [|p ps IH]; intros G; simpl.
  - split; [by left | intros [? | (p & Hp & _)]; [done | by apply elem_of_nil in Hp]].
  - rewrite IH, edges_connect_inputs, edges_connect_outputs. split.
    + intros [[[? | [? | ?]] | [? | ?]] | (q & Hq & Hc)]; auto;
        right; first [exists p; split; [by left | tauto] | exists q; split; [by right | done]].
    + intros [? | (q & Hq & Hc)]; [tauto |].
      apply elem_of_cons in Hq as [-> | Hq]; [tauto | right; eauto].
Qed.

Lemma build_from_end_points (ps : list Process) G :
  nodes_are_end_points G →
  nodes_are_end_points
    (fold_left (fun G process => connect_inputs (connect_outputs G process) process) ps G).
Proof.
  revert G. induction ps as [|p ps IH]; intros G HG; simpl; [done |].
  by apply IH, end_points_connect_inputs, end_points_connect_outputs.
Qed.

(** The edge set of the graph, rule by rule. *)
Lemma build_assay_graph_edges (ps : list Process) e :
  e ∈ edges (_build_assay_graph ps)
  ↔ ∃ p, p ∈ ps ∧
      ((∃ o, o ∈ outputs p ∧ is_DataFile o = false
             ∧ e = (process_node (process_oid p), entity_node o))
       ∨ (outputs p = [] ∧ ∃ q, next_process p = Some q
             ∧ e = (process_node (process_oid p), process_node q))
       ∨ (∃ i, i ∈ inputs p ∧ e = (entity_node i, process_node (process_oid p)))
       ∨ (inputs p = [] ∧ ∃ q, prev_process p = Some q
             ∧ e = (process_node q, process_node (process_oid p)))).
Proof.
  unfold _build_assay_graph. rewrite build_from_edges. simpl.
  split; [intros [? | ?]; [set_solver | done] | by right].
Qed.

Lemma build_assay_graph_nodes (ps : list Process) n :
  n ∈ nodes (_build_assay_graph ps)
  ↔ ∃ e, e ∈ edges (_build_assay_graph ps) ∧ (n = e.1 ∨ n = e.2).
Proof.
  apply build_from_end_points. intros m; simpl. split; [set_solver |].
  intros (e & He & _). set_solver.
Qed.
End graph.

Section graph_claims.
Implicit Types (p : Process) (ps : list Process).

Lemma entity_node_not_process (n : entity) (o : oid) : entity_node n ≠ process_node o.
Proof. by destruct n. Qed.

(** C1, as the code has it.  For every process sequence: each output
    that is not a data file gets the edge process→output, each input the
    edge input→process; and an edge from a process [a] to a process [b]
    is in the graph exactly when some process of the sequence is [a] with
    an empty output list and next process [b] (chaining on the output
    side), or is [b] with an empty input list and previous process [a]
    (chaining on the input side).  A process with outputs therefore adds
    no chaining edge of its own, but the edge to its next process is
    still present when that one chains back through its inputs. *)
Theorem outputs_override_chaining ps :
  let G := _build_assay_graph ps in
  (∀ p o, p ∈ ps → o ∈ outputs p → is_DataFile o = false →
      (process_node (process_oid p), entity_node o) ∈ edges G)
  ∧ (∀ p i, p ∈ ps → i ∈ inputs p →
      (entity_node i, process_node (process_oid p)) ∈ edges G)
  ∧ (∀ a b, (process_node a, process_node b) ∈ edges G ↔
      ∃ p, p ∈ ps ∧
        ((process_oid p = a ∧ outputs p = [] ∧ next_process p = Some b)
         ∨ (process_oid p = b ∧ inputs p = [] ∧ prev_process p = Some a))).
Proof.
  simpl. split; [| split].
  - intros p o Hp Ho Hd. apply build_assay_graph_edges. exists p. split; [done |].
    left. eauto.
  - intros p i Hp Hi. apply build_assay_graph_edges. exists p. split; [done |].
    right; right; left. eauto.
  - intros a b. rewrite build_assay_graph_edges. split.
    + intros (p & Hp & [(o & _ & _ & He) | [(Hnil & q & Hq & He) |
                        [(i & _ & He) | (Hnil & q & Hq & He)]]]).
      * injection He as _ He. by destruct o.
      * injection He as -> ->. exists p. split; [done |]. by left.
      * injection He as He _. by destruct i.
      * injection He as -> ->. exists p. split; [done |]. by right.
    + intros (p & Hp & [(<- & Hnil & Hq) | (<- & Hnil & Hq)]); exists p; (split; [done |]).
      * right; left. eauto.
      * right; right; right. eauto.
Qed.

(** The edge P1→S2 of the scenario is in the graph of [chained_sequence]. *)
Lemma outputs_override_chaining_witness :
  (process_node 1, entity_node (ESample (example_sample 10 "#sample/S2")))
    ∈ edges (_build_assay_graph chained_sequence).
Proof.
  apply (proj1 (outputs_override_chaining chained_sequence)
           (example_process 1 "#process/P1" []
              [ESample (example_sample 10 "#sample/S2")] None (Some 2%nat))).
  - unfold chained_sequence. apply list_elem_of_In. simpl. left. reflexivity.
  - apply list_elem_of_In. simpl. left. reflexivity.
  - reflexivity.
Defined.

(** C1 fails as stated: in [chained_sequence] the first process has a
    non-empty output list and a next process, and the graph does contain
    the edge from it to its next process. *)
Lemma chaining_edge_despite_outputs :
  ∃ p q, p ∈ chained_sequence ∧ outputs p ≠ [] ∧ next_process p = Some q
         ∧ (process_node (process_oid p), process_node q)
             ∈ edges (_build_assay_graph chained_sequence).
Proof.
  exists (example_process 1 "#process/P1" []
            [ESample (example_sample 10 "#sample/S2")] None (Some 2%nat)), 2%nat.
  split; [by left |]. split; [done |]. split; [done |].
  apply build_assay_graph_edges.
  exists (example_process 2 "#process/P2" [] [] (Some 1%nat) None).
  split; [right; by left |].
  right; right; right. split; [done |]. by exists 1%nat.
Qed.

(** C4, as the code has it.  No edge of the graph ends in a data file;
    and a data file is a node of the graph exactly when it is an input
    of some process of the sequence (the input loop has no data-file
    filter). *)
Theorem data_files_in_graph ps :
  let G := _build_assay_graph ps in
  (∀ u d, (u, (CDataFile, d)) ∉ edges G)
  ∧ (∀ d, (CDataFile, d) ∈ nodes G ↔
      ∃ p f, p ∈ ps ∧ EDataFile f ∈ inputs p ∧ data_oid f = d).
Proof.
  simpl.
  assert (∀ u d, (u, (CDataFile, d)) ∉ edges (_build_assay_graph ps)) as Hsink.
  { intros u d. rewrite build_assay_graph_edges.
    intros (p & _ & [(o & _ & Hd & He) | [(_ & q & _ & He) |
                     [(i & _ & He) | (_ & q & _ & He)]]]);
      injection He as _ He; try done.
    destruct o; try done. }
  split; [done |].
  intros d. rewrite build_assay_graph_nodes. split.
  - intros (e & He & [Hn | Hn]).
    + apply build_assay_graph_edges in He
        as (p & Hp & [(o & _ & _ & ->) | [(_ & q & _ & ->) |
                      [(i & Hi & ->) | (_ & q & _ & ->)]]]); simpl in Hn; try done.
      destruct i as [| | |f]; try done. injection Hn as ->. eauto.
    + destruct e as [u v]. simpl in Hn. subst v. by apply Hsink in He.
  - intros (p & f & Hp & Hf & <-).
    exists (entity_node (EDataFile f), process_node (process_oid p)).
    split; [| by left].
    apply build_assay_graph_edges. exists p. split; [done |].
    right; right; left. eauto.
Qed.

(** C4 fails as stated: the data file read by the process of
    [data_input_sequence] is a node of the graph, with an edge to the
    process. *)
Lemma data_file_input_is_node :
  let G := _build_assay_graph data_input_sequence in
  (CDataFile, 7%nat) ∈ nodes G
  ∧ ((CDataFile, 7%nat), process_node 1) ∈ edges G.
Proof.
  cbv zeta.
  assert (((CDataFile, 7%nat), process_node 1)
            ∈ edges (_build_assay_graph data_input_sequence)) as He.
  { apply build_assay_graph_edges.
    exists (example_process 1 "#process/P1"
              [EDataFile (example_data_file 7 "#data/raw")] [] None None).
    split; [by left |]. right; right; left.
    exists (EDataFile (example_data_file 7 "#data/raw")). split; [by left | done]. }
  split; [| done].
  apply build_assay_graph_nodes. eexists. split; [exact He | by left].
Qed.
End graph_claims.

(** ** The reference checks of [validate_isajson] *)

Section reference_checks.
Implicit Types (report r : Report) (j : json).

(** A loop whose body only appends diagnostics satisfying [good] only
    appends such diagnostics. *)
Lemma fold_left_appends {A} (good : severity * message -> Prop)
    (f : Report -> A -> Report) (l : list A) :
  Forall (fun x => ∀ r, ∃ added,
            diagnostics (f r x) = diagnostics r ++ added ∧ Forall good added) l →
  ∀ r, ∃ added,
    diagnostics (fold_left f l r) = diagnostics r ++ added ∧ Forall good added.
Proof.
  induction 1 as [|x l Hx _ IH]; intros r; simpl.
  - exists []. by rewrite app_nil_r.
  - destruct (Hx r) as (a1 & E1 & G1). destruct (IH (f r x)) as (a2 & E2 & G2).
    exists (a1 ++ a2). rewrite E2, E1, app_assoc. split; [done |].
    by apply Forall_app.
Qed.

Lemma check_object_refs_appends j (object_refs : list json) :
  ∀ r, ∃ added,
    diagnostics (_check_object_refs j object_refs r) = diagnostics r ++ added
    ∧ Forall (fun d => ∃ id_, d = (Error, object_ref_not_declared id_)
                        ∧ py_eq id_ (JStr Array_Design_REF) = false
                        ∧ py_in id_ object_refs = false) added.
Proof.
  induction j as [| | | |l IH|d IH] using json_nested_ind; intros r;
    try (exists []; simpl; by rewrite app_nil_r).
  - simpl. by apply fold_left_appends.
  - simpl.
    match goal with
    | |- context [fold_left ?f d ?r0] =>
        destruct (fold_left_appends
                    (fun d => ∃ id_, d = (Error, object_ref_not_declared id_)
                               ∧ py_eq id_ (JStr Array_Design_REF) = false
                               ∧ py_in id_ object_refs = false) f d IH r0)
          as (a2 & E2 & G2)
    end.
    rewrite E2. clear E2.
    destruct (has_key d "@id" && (size (keys d) =? 1)%nat);
      [| by exists a2].
    destruct (py_in (dict_at d "@id") object_refs) eqn:Hin; simpl;
      [by exists a2 |].
    destruct (py_eq (dict_at d "@id") (JStr Array_Design_REF)) eqn:Hadr; simpl;
      [by exists a2 |].
    exists ((Error, object_ref_not_declared (dict_at d "@id")) :: a2).
    split; [by rewrite <- app_assoc |].
    constructor; [eauto | done].
Qed.

(** C8, as the code has it.  On every document and every list of
    declared identifiers the check only appends to the report, and each
    diagnostic it appends is the error "not declared anywhere" for an
    identifier that is neither declared nor equal to
    '#parameter/Array_Design_REF': the reserved array-design reference
    is never reported.  (The empty string has no such exemption.) *)
Theorem array_design_ref_never_reported j (object_refs : list json) r :
  ∃ added,
    diagnostics (_check_object_refs j object_refs r) = diagnostics r ++ added
    ∧ ∀ d, d ∈ added →
        ∃ id_, d = (Error, object_ref_not_declared id_)
               ∧ py_eq id_ (JStr Array_Design_REF) = false
               ∧ py_in id_ object_refs = false.
Proof.
  destruct (check_object_refs_appends j object_refs r) as (added & E & G).
  exists added. split; [done |]. by apply Forall_forall.
Qed.
End reference_checks.

Section reference_check_examples.
(** C8 fails as stated for the empty string: in [document_with_sentinels]
    nothing is declared, the reference to '#parameter/Array_Design_REF'
    is passed over, and the reference to the empty identifier is
    reported. *)
Lemma empty_identifier_is_reported :
  _collect_object_refs document_with_sentinels [] = []
  ∧ diagnostics (_check_object_refs document_with_sentinels
                   (_collect_object_refs document_with_sentinels [])
                   (ValidationReport "i.json"))
    = [(Error, object_ref_not_declared (JStr ""))].
Proof. split; vm_compute; reflexivity. Qed.
End reference_check_examples.

(** ** The usage checkers of [validate2] *)

Section usage_checkers.
Lemma print_usage_one_direction used declared not_declared not_used out :
  print_usage used declared not_declared not_used = Ok out →
  prints_one_direction used declared not_declared not_used out.
Proof.
  unfold print_usage. intros H.
  apply res_bind_Ok in H as (u & Hu & H).
  apply res_bind_Ok in H as (d & Hd & H).
  exists u, d. split; [done |]. split; [done |].
  destruct (0 <? size (u ∖ d))%nat eqn:Hud.
  - apply Nat.ltb_lt in Hud. injection H as <-.
    assert (u ∖ d ≠ ∅) by (intros E; rewrite E, size_empty in Hud; lia).
    split; [done | split; intros; congruence].
  - apply Nat.ltb_ge in Hud.
    assert (u ∖ d = ∅) as Eu
      by (apply leibniz_equiv, size_empty_iff; lia).
    destruct (0 <? size (d ∖ u))%nat eqn:Hdu.
    + apply Nat.ltb_lt in Hdu. injection H as <-.
      assert (d ∖ u ≠ ∅) by (intros E; rewrite E, size_empty in Hdu; lia).
      split; [done | split; intros; congruence].
    + apply Nat.ltb_ge in Hdu. injection H as <-.
      assert (d ∖ u = ∅) as Ed
        by (apply leibniz_equiv, size_empty_iff; lia).
      split; [done | split; intros; congruence].
Qed.

Ltac usage_checker H :=
  do 2 (apply res_bind_Ok in H as (? & ? & H));
  do 2 eexists; split; [eassumption |]; split; [eassumption |];
  by apply print_usage_one_direction.

(** C2, as the code has it.  For each namespace category the rule
    checker collects the used and the declared identifiers and prints
    at most one line: the used-but-undeclared set when it is not empty,
    and the declared-but-unused set only when the former is empty (an
    [if]/[elif]).  When both differences are non-empty the unused
    declarations are not reported. *)
Theorem usage_checkers_print_one_direction :
  (∀ study out, check_process_protocol_ids_usage study = Ok out →
     ∃ declared used,
       get_study_protocol_ids study = Ok declared ∧ protocol_ids_used study = Ok used
       ∧ prints_one_direction used declared protocols_not_declared protocols_not_used out)
  ∧ (∀ study out, check_protocol_parameter_ids_usage study = Ok out →
     ∃ declared used,
       get_study_protocols_parameter_ids study = Ok declared
       ∧ get_parameter_value_parameter_ids study = Ok used
       ∧ prints_one_direction used declared parameters_not_declared parameters_not_used out)
  ∧ (∀ study out, check_study_factor_usage study = Ok out →
     ∃ declared used,
       get_study_factor_ids study = Ok declared
       ∧ get_study_factor_ids_in_sample_factor_values study = Ok used
       ∧ prints_one_direction used declared factors_not_declared factors_not_used out)
  ∧ (∀ study out, check_study_characteristic_categories study = Ok out →
     ∃ declared used,
       get_characteristic_category_ids study = Ok declared
       ∧ get_characteristic_category_ids_in_study_materials study = Ok used
       ∧ prints_one_direction used declared
           study_categories_not_declared study_categories_not_used out)
  ∧ (∀ assay out, check_assay_characteristic_categories assay = Ok out →
     ∃ declared used,
       get_characteristic_category_ids assay = Ok declared
       ∧ get_characteristic_category_ids_in_assay_materials assay = Ok used
       ∧ prints_one_direction used declared
           assay_categories_not_declared assay_categories_not_used out)
  ∧ (∀ study out, check_unit_category_ids_usage study = Ok out →
     ∃ declared used,
       units_declared study = Ok declared ∧ units_used study = Ok used
       ∧ prints_one_direction used declared units_not_declared units_not_used out)
  ∧ (∀ isa_json out, check_term_source_refs isa_json = Ok out →
     ∃ declared used,
       get_ontology_source_refs isa_json = Ok declared
       ∧ term_sources_used isa_json = Ok used
       ∧ prints_one_direction used declared
           term_sources_not_declared term_sources_not_used out).
Proof.
  repeat split; intros j out H.
  - unfold check_process_protocol_ids_usage in H. usage_checker H.
  - unfold check_protocol_parameter_ids_usage in H. usage_checker H.
  - unfold check_study_factor_usage in H. usage_checker H.
  - unfold check_study_characteristic_categories in H. usage_checker H.
  - unfold check_assay_characteristic_categories in H. usage_checker H.
  - unfold check_unit_category_ids_usage in H. usage_checker H.
  - unfold check_term_source_refs in H. usage_checker H.
Qed.

(** C2 fails as stated: the study declares P1 and uses P2, so both
    differences are non-empty, and the checker prints the single line
    about P2; the unused declaration of P1 is not reported. *)
Lemma unused_protocol_not_reported :
  get_study_protocol_ids study_P1_declared_P2_used = Ok [JStr "#protocol/P1"]
  ∧ protocol_ids_used study_P1_declared_P2_used = Ok [JStr "#protocol/P2"]
  ∧ check_process_protocol_ids_usage study_P1_declared_P2_used
    = Ok [mkMessage protocols_not_declared [FSet {[KStr "#protocol/P2"]}]].
Proof. repeat split; vm_compute; reflexivity. Qed.

(** The protocol checker on [study_P1_declared_P2_used]. *)
Lemma usage_checkers_print_one_direction_witness :
  ∃ declared used,
    get_study_protocol_ids study_P1_declared_P2_used = Ok declared
    ∧ protocol_ids_used study_P1_declared_P2_used = Ok used
    ∧ prints_one_direction used declared protocols_not_declared protocols_not_used
        [mkMessage protocols_not_declared [FSet {[KStr "#protocol/P2"]}]].
Proof.
  apply (proj1 usage_checkers_print_one_direction study_P1_declared_P2_used).
  vm_compute. reflexivity.
Defined.
End usage_checkers.

(** ** Rule 3003 *)

Section pubmed.
(** What the inner check does on a string: it passes the empty string
    and every string that starts with eight digits, or with 'PMC' and
    eight digits, and prints one line for any other string. *)
Lemma check_pubmed_id_str (s : string) out :
  check_pubmed_id (JStr s) out
  = if is_empty_str (JStr s) || pmid_regex_match s || pmcid_regex_match s
    then Ok out
    else Ok (out ++ [pubmed_id_not_valid s]).
Proof.
  unfold check_pubmed_id.
  destruct (is_empty_str (JStr s)); simpl; [done |].
  by destruct (pmid_regex_match s), (pmcid_regex_match s).
Qed.

(** The scenario of the specification: 'PMC1234567' has seven digits and
    gets exactly one line. *)
Lemma pubmed_seven_digits_rejected :
  check_pubmed_ids_format (investigation_with_pubmed_id "PMC1234567")
  = Ok [pubmed_id_not_valid "PMC1234567"].
Proof. vm_compute. reflexivity. Qed.

(** C9: the code at the failing inputs.  A nine-digit identifier and an
    eight-digit identifier followed by letters are neither an 8-digit ID
    nor a 'PMC'-prefixed 8-digit ID, and the check prints nothing for
    them: the patterns are matched at the start of the string only. *)
Theorem pubmed_longer_ids_accepted :
  check_pubmed_ids_format (investigation_with_pubmed_id "123456789") = Ok []
  ∧ check_pubmed_ids_format (investigation_with_pubmed_id "12345678abc") = Ok []
  ∧ check_pubmed_ids_format (investigation_with_pubmed_id "PMC12345678/x") = Ok [].
Proof. repeat split; vm_compute; reflexivity. Qed.
End pubmed.

(** ** Resolving inputs and outputs *)

Section resolution.
Implicit Types (st : LoadState) (io_json : json) (k : pykey).

Lemma lookup_or_keep_hit {V} (reg : gmap pykey V) (as_entity : V -> entity)
    io_json (id_ : json) k v x :
  getitem io_json "@id" = Ok id_ → hash_key id_ = Ok k → reg !! k = Some v →
  lookup_or_keep reg as_entity io_json x = (Some (as_entity v), None).
Proof.
  intros Hid Hk Hv. unfold lookup_or_keep, dict_get. rewrite Hid; simpl.
  rewrite Hk; simpl. by rewrite Hv.
Qed.

Lemma lookup_or_keep_miss {V} (reg : gmap pykey V) (as_entity : V -> entity)
    io_json (id_ : json) k x :
  getitem io_json "@id" = Ok id_ → hash_key id_ = Ok k → reg !! k = None →
  lookup_or_keep reg as_entity io_json x = (x, None).
Proof.
  intros Hid Hk Hv. unfold lookup_or_keep, dict_get. rewrite Hid; simpl.
  rewrite Hk; simpl. by rewrite Hv.
Qed.


End resolution.

Section unresolved.
Implicit Types (st : LoadState) (io_json : json).





End unresolved.

(** ** Declarations collected by the walker and identifiers registered
    by [load] *)

Section declarations.
Implicit Types (doc x j : json) (k : pykey) (st : LoadState).

Lemma assoc_Some key d v : assoc key d = Some v → (key, v) ∈ d ∧ key ∈ keys d.
Proof.
  unfold keys. induction d as [|[k' v'] d IH]; simpl; [done |].
  destruct (String.eqb key k') eqn:Hk.
  - apply String.eqb_eq in Hk as ->. intros [= ->]. split; [by left | set_solver].
  - intros H. destruct (IH H) as [H1 H2]. split; [by right | set_solver].
Qed.

Lemma getitem_Ok j key v :
  getitem j key = Ok v → ∃ d, j = JDict d ∧ assoc key d = Some v.
Proof.
  destruct j; simpl; try done. destruct (assoc key d) eqn:E; [| done].
  intros [= ->]. eauto.
Qed.

Lemma subdoc_trans x y z : subdoc x y → subdoc y z → subdoc x z.
Proof.
  intros Hxy Hyz. induction Hyz as [| l y' Hin _ IH | d k' y' Hin _ IH]; [done | |].
  - by eapply subdoc_list.
  - by eapply subdoc_dict.
Qed.

Lemma reached_getitem doc x key v :
  reached doc x → getitem x key = Ok v → subdoc x doc ∧ subdoc v doc.
Proof.
  intros Hx Hget. apply getitem_Ok in Hget as (d & -> & Hassoc).
  destruct Hx as [Hx | [s [=]]]. split; [done |].
  apply assoc_Some in Hassoc as [Hin _].
  eapply subdoc_trans; [| exact Hx]. eapply subdoc_dict; [exact Hin | constructor].
Qed.


Lemma reached_getitem_1 doc x key v :
  reached doc x → getitem x key = Ok v → reached doc v.
Proof. intros Hx Hget. left. by destruct (reached_getitem _ _ _ _ Hx Hget). Qed.

Lemma reached_iter doc j xs :
  reached doc j → iter j = Ok xs → Forall (reached doc) xs.
Proof.
  intros Hj Hiter. apply Forall_forall. intros x Hx.
  destruct j as [| | |s|l|d]; simpl in Hiter; try done; injection Hiter as <-.
  - right. unfold chars in Hx. apply list_elem_of_fmap in Hx as (c & -> & _). eauto.
  - destruct Hj as [Hj | [s [=]]]. left.
    eapply subdoc_trans; [| exact Hj]. eapply subdoc_list; [exact Hx | constructor].
  - right. apply list_elem_of_fmap in Hx as (kv & -> & _). eauto.
Qed.

(** Equal values have the same hash. *)
Lemma py_eq_hash_key a b k : py_eq a b = true → hash_key a = Ok k → hash_key b = Ok k.
Proof.
  destruct a, b; simpl; try done.
  - intros H [= <-]. by apply Bool.eqb_prop in H as ->.
  - intros H [= <-]. by apply Z.eqb_eq in H as ->.
  - intros H [= <-]. by apply Z.eqb_eq in H as ->.
  - intros H [= <-]. by apply Z.eqb_eq in H as ->.
  - intros H [= <-]. by apply String.eqb_eq in H as ->.
Qed.

Lemma py_in_covers (id_ : json) acc k :
  py_in id_ acc = true → hash_key id_ = Ok k → covers acc k.
Proof.
  unfold py_in. intros Hin Hk. apply existsb_exists in Hin as (j & Hj & Heq).
  exists j. split; [by apply list_elem_of_In | by eapply py_eq_hash_key].
Qed.

Lemma covers_app_l acc more k : covers acc k → covers (acc ++ more) k.
Proof. intros (j & Hj & Hk). exists j. split; [set_solver | done]. Qed.

Lemma covers_app_r acc (id_ : json) k : hash_key id_ = Ok k → covers (acc ++ [id_]) k.
Proof. intros Hk. exists id_. split; [set_solver | done]. Qed.

(** The walker never drops an identifier it has collected. *)
Lemma collect_object_refs_mono j k : ∀ acc,
  covers acc k → covers (_collect_object_refs j acc) k.
Proof.
  induction j as [| | | |l IH|d IH] using json_nested_ind; intros acc Hacc; try done.
  - simpl. revert acc Hacc. induction IH as [|y l Hy _ IHl]; intros acc Hacc; simpl; auto.
  - simpl.
    match goal with |- covers (fold_left _ _ ?acc0) _ => assert (covers acc0 k) as Hacc0 end.
    { repeat case_match; try done. by apply covers_app_l. }
    revert Hacc0. generalize (if has_key d "@id" && (1 <? size (keys d))%nat
                              then if negb (py_in (dict_at d "@id") acc)
                                   then acc ++ [dict_at d "@id"] else acc
                              else acc).
    induction IH as [|y l Hy _ IHl]; intros acc0 Hacc0; simpl; auto.
Qed.

Lemma fold_collect_list_mono l k : ∀ acc,
  covers acc k → covers (fold_left (fun acc j => _collect_object_refs j acc) l acc) k.
Proof.
  induction l as [|y l IH]; intros acc Hacc; simpl; [done |].
  by apply IH, collect_object_refs_mono.
Qed.

Lemma fold_collect_dict_mono (d : list (string * json)) k : ∀ acc,
  covers acc k →
  covers (fold_left (fun acc kv => _collect_object_refs (snd kv) acc) d acc) k.
Proof.
  induction d as [|y d IH]; intros acc Hacc; simpl; [done |].
  by apply IH, collect_object_refs_mono.
Qed.

(** An object with an '@id' and a further key: the walker takes it for a
    declaration. *)
Lemma collect_object_refs_here d k acc :
  has_key d "@id" = true → (1 <? size (keys d))%nat = true →
  hash_key (dict_at d "@id") = Ok k →
  covers (_collect_object_refs (JDict d) acc) k.
Proof.
  intros Hid Hsize Hk. simpl. rewrite Hid, Hsize. simpl.
  apply fold_collect_dict_mono.
  destruct (py_in (dict_at d "@id") acc) eqn:Hin; simpl.
  - by eapply py_in_covers.
  - by apply covers_app_r.
Qed.

(** The walker reaches every part of the document. *)
Lemma collect_object_refs_subdoc doc d k :
  subdoc (JDict d) doc →
  has_key d "@id" = true → (1 <? size (keys d))%nat = true →
  hash_key (dict_at d "@id") = Ok k →
  ∀ acc, covers (_collect_object_refs doc acc) k.
Proof.
  intros Hsub Hid Hsize Hk.
  induction Hsub as [| l y Hin _ IH | d' k' y Hin _ IH]; intros acc.
  - by apply collect_object_refs_here.
  - simpl. revert acc. induction l as [|z l IHl]; intros acc; [by apply elem_of_nil in Hin |].
    simpl. apply elem_of_cons in Hin as [<- | Hin].
    + apply fold_collect_list_mono, IH.
    + by apply IHl.
  - simpl.
    generalize (if has_key d' "@id" && (1 <? size (keys d'))%nat
                then if negb (py_in (dict_at d' "@id") acc)
                     then acc ++ [dict_at d' "@id"] else acc
                else acc).
    induction d' as [|z d' IHd]; intros acc0; [by apply elem_of_nil in Hin |].
    simpl. apply elem_of_cons in Hin as [<- | Hin].
    + apply fold_collect_dict_mono, IH.
    + by apply IHd.
Qed.

Lemma size_keys_two d key1 key2 :
  key1 ∈ keys d → key2 ∈ keys d → key1 ≠ key2 → (1 <? size (keys d))%nat = true.
Proof.
  intros H1 H2 Hne. apply Nat.ltb_lt.
  assert (({[key1; key2]} : gset string) ⊆ keys d) as Hsub by set_solver.
  apply subseteq_size in Hsub.
  rewrite size_union in Hsub by set_solver. rewrite !size_singleton in Hsub. lia.
Qed.

(** What [load] registers is declared: an object reached in the
    document, read at '@id' and at another key. *)
Lemma registered_is_declared doc x (id_ v : json) key k :
  reached doc x → getitem x "@id" = Ok id_ → getitem x key = Ok v → key ≠ "@id" →
  hash_key id_ = Ok k → covers (declared_ids doc) k.
Proof.
  intros Hx Hid Hkey Hne Hk.
  destruct (reached_getitem _ _ _ _ Hx Hid) as [Hsub _].
  apply getitem_Ok in Hid as (d & -> & Hid).
  apply getitem_Ok in Hkey as (d' & [= <-] & Hkey).
  apply assoc_Some in Hid as Hid'. apply assoc_Some in Hkey as Hkey'.
  eapply collect_object_refs_subdoc; [exact Hsub | | |].
  - unfold has_key. apply bool_decide_eq_true_2. tauto.
  - eapply (size_keys_two d "@id" key); [tauto | tauto | done].
  - unfold dict_at. by rewrite Hid.
Qed.
End declarations.

(** A part of the document read through a chain of subscripts. *)
Ltac reach :=
  first [ eassumption
        | eapply reached_getitem_1; [| eassumption]; reach ].

(** ** Every registered identifier is a declaration *)

Section registered.
Implicit Types (doc x j : json) (k : pykey) (st : LoadState).

Lemma for_each_inv {A St} (I : St -> Prop) (P : A -> Prop) (body : St -> A -> res St) xs :
  (∀ a s s', P a → I s → body s a = Ok s' → I s') → Forall P xs →
  ∀ s s', I s → for_each body xs s = Ok s' → I s'.
Proof.
  intros Hbody HP. induction HP as [|a xs Ha _ IH]; intros s s' Hs H; simpl in H.
  - by injection H as <-.
  - bind_Ok H. eapply IH; [| exact H]. eapply Hbody; eauto.
Qed.

Lemma for_in_inv {St} doc (I : St -> Prop) j (body : St -> json -> res St) s s' :
  reached doc j →
  (∀ x s s', reached doc x → I s → body s x = Ok s' → I s') →
  I s → for_in j body s = Ok s' → I s'.
Proof.
  intros Hj Hbody Hs H. unfold for_in in H. bind_Ok H.
  eapply (for_each_inv I (reached doc) body); [exact Hbody | | exact Hs | exact H].
  by eapply reached_iter.
Qed.

Lemma all_declared_step doc st st' k :
  all_declared doc st → covers (declared_ids doc) k →
  registry_ids st' ⊆ {[k]} ∪ registry_ids st → all_declared doc st'.
Proof.
  intros Hall Hk Hsub k' Hk'. apply Hsub in Hk'.
  apply elem_of_union in Hk' as [Hk' | Hk']; [| by apply Hall].
  by apply elem_of_singleton in Hk' as ->.
Qed.

Lemma all_declared_shrink doc st st' :
  all_declared doc st → registry_ids st' ⊆ registry_ids st → all_declared doc st'.
Proof. intros Hall Hsub k Hk. by apply Hall, Hsub. Qed.

Ltac registry_subset :=
  unfold registry_ids; simpl; rewrite ?dom_insert_L, ?dom_empty_L; set_solver.

(** Closes the invariant after a loader has entered one object, read at
    '@id' and at [key], in a registry. *)
Ltac registered key :=
  match goal with
  | Hall : all_declared _ _ |- _ =>
      eapply (all_declared_step _ _ _ _ Hall);
      [ eapply (registered_is_declared _ _ _ _ key);
        [eassumption | eassumption | eassumption | done | eassumption]
      | registry_subset ]
  end.

Lemma load_characteristic_category_declared doc st j st' category :
  reached doc j → all_declared doc st →
  load_characteristic_category st j = Ok (st', category) → all_declared doc st'.
Proof.
  intros Hj Hall H. unfold load_characteristic_category in H.
  binds_Ok H. dict_set_Ok. injection H as <- <-. registered "characteristicType".
Qed.

Lemma load_unit_declared doc st j st' :
  reached doc j → all_declared doc st → load_unit st j = Ok st' → all_declared doc st'.
Proof.
  intros Hj Hall H. unfold load_unit in H.
  binds_Ok H. dict_set_Ok. injection H as <-.
  match goal with E : annotation_name_source_accession _ _ _ = Ok _ |- _ =>
    unfold annotation_name_source_accession in E; bind_Ok E end.
  registered "annotationValue".
Qed.

Lemma load_protocol_parameter_declared doc state j state' :
  reached doc j → all_declared doc state.1 →
  load_protocol_parameter state j = Ok state' → all_declared doc state'.1.
Proof.
  destruct state as [st parameters]. intros Hj Hall H. unfold load_protocol_parameter in H.
  binds_Ok H. dict_set_Ok. injection H as <-. simpl in *. registered "parameterName".
Qed.

Lemma load_protocol_declared doc state j state' :
  reached doc j → all_declared doc state.1 →
  load_protocol state j = Ok state' → all_declared doc state'.1.
Proof.
  destruct state as [st protocols]. intros Hj Hall H. unfold load_protocol in H.
  binds_Ok H. dict_set_Ok. injection H as <-. simpl in *.
  match goal with E : for_in _ load_protocol_parameter _ = Ok _ |- _ =>
    apply (for_in_inv doc (fun s => all_declared doc s.1)) in E;
      [| by eapply reached_getitem_1
       | intros; by eapply load_protocol_parameter_declared
       | done ]
  end.
  simpl in *. registered "name".
Qed.

Lemma load_factor_declared doc state j state' :
  reached doc j → all_declared doc state.1 →
  load_factor state j = Ok state' → all_declared doc state'.1.
Proof.
  destruct state as [st factors]. intros Hj Hall H. unfold load_factor in H.
  binds_Ok H. dict_set_Ok. injection H as <-. simpl in *. registered "factorName".
Qed.

Lemma load_source_declared doc state j state' :
  reached doc j → all_declared doc state.1 →
  load_source state j = Ok state' → all_declared doc state'.1.
Proof.
  destruct state as [st sources]. intros Hj Hall H. unfold load_source in H.
  binds_Ok H. dict_set_Ok. injection H as <-. simpl in *. registered "name".
Qed.

Lemma load_sample_declared doc state j state' :
  reached doc j → all_declared doc state.1 →
  load_sample state j = Ok state' → all_declared doc state'.1.
Proof.
  destruct state as [st samples]. intros Hj Hall H. unfold load_sample in H.
  binds_Ok H. dict_set_Ok. injection H as <-. simpl in *. registered "name".
Qed.

Lemma load_data_file_declared doc state j state' :
  reached doc j → all_declared doc state.1 →
  load_data_file state j = Ok state' → all_declared doc state'.1.
Proof.
  destruct state as [st data_files]. intros Hj Hall H. unfold load_data_file in H.
  binds_Ok H. dict_set_Ok. injection H as <-. simpl in *. registered "name".
Qed.

Lemma load_other_material_declared doc state j state' :
  reached doc j → all_declared doc state.1 →
  load_other_material state j = Ok state' → all_declared doc state'.1.
Proof.
  destruct state as [st materials]. intros Hj Hall H. unfold load_other_material in H.
  binds_Ok H. dict_set_Ok. injection H as <-. simpl in *. registered "name".
Qed.

Lemma load_study_process_declared doc state j state' :
  reached doc j → all_declared doc state.1 →
  load_study_process state j = Ok state' → all_declared doc state'.1.
Proof.
  destruct state as [st sequence]. intros Hj Hall H. unfold load_study_process in H.
  binds_Ok H. unfold register_process in H. binds_Ok H. dict_set_Ok.
  injection H as <-. simpl in *. registered "parameterValues".
Qed.

Lemma link_process_declared doc set_link key st j st' :
  all_declared doc st → link_process set_link key st j = Ok st' → all_declared doc st'.
Proof.
  intros Hall H. unfold link_process, except_KeyError in H.
  match type of H with match ?m with _ => _ end = _ => destruct m as [st1|e] eqn:E end.
  - injection H as <-. binds_Ok E. injection E as <-.
    eapply all_declared_shrink; [exact Hall | registry_subset].
  - destruct e; try done. by injection H as <-.
Qed.

Lemma link_processes_declared doc st j st' :
  reached doc j → all_declared doc st → link_processes st j = Ok st' → all_declared doc st'.
Proof.
  intros Hj Hall H. unfold link_processes in H.
  eapply (for_in_inv doc (all_declared doc)); [exact Hj | | exact Hall | exact H].
  intros x s s' _ Hs Hx. cbv beta in Hx. bind_Ok Hx.
  eapply link_process_declared; [| exact Hx]. by eapply link_process_declared.
Qed.

Lemma load_assay_process_declared doc technology sequence_json state j state' :
  reached doc sequence_json → reached doc j → all_declared doc state.1.1 →
  load_assay_process technology sequence_json state j = Ok state' →
  all_declared doc state'.1.1.
Proof.
  destruct state as [[st sequence] graph]. intros Hseq Hj Hall H.
  unfold load_assay_process in H. binds_Ok H.
  match goal with E : register_process _ _ _ = Ok _ |- _ =>
    unfold register_process in E; binds_Ok E; dict_set_Ok; injection E as <- <- end.
  injection H as <-. simpl in *.
  eapply link_processes_declared; [exact Hseq | | eassumption].
  registered "parameterValues".
Qed.
(** The invariant for a state that holds no more identifiers than one
    for which it is known. *)
Ltac keeps_declared :=
  first [ eassumption
        | match goal with
          | Hall : all_declared _ _ |- _ =>
              eapply all_declared_shrink; [exact Hall | registry_subset]
          end ].

(** Carries the invariant through the loop [E] over a list of the
    document, whose body preserves it by [tac]. *)
Ltac through_loop doc E proj tac :=
  apply (for_in_inv doc proj) in E;
  [ simpl in E
  | reach
  | let Hx := fresh "Hx" in let Hs := fresh "Hs" in let Hb := fresh "Hb" in
    intros ? ? ? Hx Hs Hb; tac Hx Hs Hb
  | simpl; keeps_declared ].

Lemma load_ontology_source_reference_declared doc state j state' :
  all_declared doc state.1 →
  load_ontology_source_reference state j = Ok state' → all_declared doc state'.1.
Proof.
  destruct state as [st references]. intros Hall H.
  unfold load_ontology_source_reference in H.
  binds_Ok H. dict_set_Ok. injection H as <-. simpl in *. keeps_declared.
Qed.

Lemma category_loop_declared doc (state state' : LoadState * list OntologyAnnotation) j :
  reached doc j → all_declared doc state.1 →
  (let '(st, categories) := state in
   let* (st, category) := load_characteristic_category st j in
   Ok (st, categories ++ [category])) = Ok state' →
  all_declared doc state'.1.
Proof.
  destruct state as [st categories]. intros Hj Hall H.
  binds_Ok H. injection H as <-. simpl in *.
  by eapply load_characteristic_category_declared.
Qed.

Lemma load_assay_categories_first_declared doc st j st' :
  reached doc j → all_declared doc st →
  load_assay_categories_first st j = Ok st' → all_declared doc st'.
Proof.
  intros Hj Hall H. unfold load_assay_categories_first in H. binds_Ok H.
  through_loop doc H (all_declared doc) ltac:(fun Hx Hs Hb =>
    cbv beta in Hb; binds_Ok Hb;
    through_loop doc Hb (all_declared doc) ltac:(fun Hy Ht Hc =>
      cbv beta in Hc; binds_Ok Hc; injection Hc as <-;
      by eapply load_characteristic_category_declared);
    exact Hb).
  exact H.
Qed.

Lemma load_assay_declared doc state j state' :
  reached doc j → all_declared doc state.1.1 →
  load_assay state j = Ok state' → all_declared doc state'.1.1.
Proof.
  destruct state as [[st categories] assays]. intros Hj Hall H.
  unfold load_assay in H. simpl in Hall. binds_Ok H. injection H as <-. simpl.
  match goal with E : for_in _ load_unit _ = Ok _ |- _ =>
    through_loop doc E (all_declared doc) ltac:(fun Hx Hs Hb =>
      by eapply load_unit_declared) end.
  match goal with E : for_in _ load_data_file _ = Ok _ |- _ =>
    through_loop doc E (fun s : LoadState * list DataFile => all_declared doc s.1)
      ltac:(fun Hx Hs Hb => by eapply load_data_file_declared) end.
  match goal with E : for_in _ _ (_, categories) = Ok _ |- _ =>
    through_loop doc E (fun s : LoadState * list OntologyAnnotation => all_declared doc s.1)
      ltac:(fun Hx Hs Hb => by eapply category_loop_declared) end.
  match goal with E : for_in _ load_other_material _ = Ok _ |- _ =>
    through_loop doc E (fun s : LoadState * list Material => all_declared doc s.1)
      ltac:(fun Hx Hs Hb => by eapply load_other_material_declared) end.
  match goal with E : for_in _ (load_assay_process _ _) _ = Ok _ |- _ =>
    through_loop doc E
      (fun s : LoadState * list oid * option DiGraph => all_declared doc s.1.1)
      ltac:(fun Hx Hs Hb => eapply load_assay_process_declared; [| | | exact Hb];
                            [reach | exact Hx | exact Hs]);
    exact E end.
Qed.

Lemma load_study_declared doc state j state' :
  reached doc j → all_declared doc state.1 →
  load_study state j = Ok state' → all_declared doc state'.1.
Proof.
  destruct state as [st studies]. intros Hj Hall H.
  unfold load_study in H. simpl in Hall. binds_Ok H. injection H as <-. simpl.
  match goal with E : for_in _ _ (st, []) = Ok (_, _) |- _ =>
    through_loop doc E (fun s : LoadState * list OntologyAnnotation => all_declared doc s.1)
      ltac:(fun Hx Hs Hb => by eapply category_loop_declared) end.
  match goal with E : for_in _ load_unit _ = Ok _ |- _ =>
    through_loop doc E (all_declared doc) ltac:(fun Hx Hs Hb =>
      by eapply load_unit_declared) end.
  match goal with E : for_in _ load_protocol _ = Ok _ |- _ =>
    through_loop doc E (fun s : LoadState * list Protocol => all_declared doc s.1)
      ltac:(fun Hx Hs Hb => by eapply load_protocol_declared) end.
  match goal with E : for_in _ load_factor _ = Ok _ |- _ =>
    through_loop doc E (fun s : LoadState * list StudyFactor => all_declared doc s.1)
      ltac:(fun Hx Hs Hb => by eapply load_factor_declared) end.
  match goal with E : for_in _ load_source _ = Ok _ |- _ =>
    through_loop doc E (fun s : LoadState * list Source => all_declared doc s.1)
      ltac:(fun Hx Hs Hb => by eapply load_source_declared) end.
  match goal with E : for_in _ load_sample _ = Ok _ |- _ =>
    through_loop doc E (fun s : LoadState * list Sample => all_declared doc s.1)
      ltac:(fun Hx Hs Hb => by eapply load_sample_declared) end.
  match goal with E : for_in _ load_study_process _ = Ok _ |- _ =>
    through_loop doc E (fun s : LoadState * list oid => all_declared doc s.1)
      ltac:(fun Hx Hs Hb => by eapply load_study_process_declared) end.
  match goal with E : link_processes _ _ = Ok _ |- _ =>
    eapply link_processes_declared in E; [| reach | keeps_declared] end.
  match goal with E : for_in _ load_assay _ = Ok _ |- _ =>
    through_loop doc E
      (fun s : LoadState * list OntologyAnnotation * list Assay => all_declared doc s.1.1)
      ltac:(fun Hx Hs Hb => by eapply load_assay_declared);
    exact E end.
Qed.

Lemma initial_state_declared doc : all_declared doc initial_state.
Proof. intros k Hk. unfold registry_ids in Hk. simpl in Hk. set_solver. Qed.

Lemma build_investigation_declared doc investigation st :
  build_investigation doc = Ok (investigation, st) → all_declared doc st.
Proof.
  intros H. unfold build_investigation in H.
  assert (reached doc doc) as Hdoc by (left; constructor).
  pose proof (initial_state_declared doc) as Hall.
  binds_Ok H. injection H as <- <-.
  match goal with E : for_in _ load_ontology_source_reference _ = Ok _ |- _ =>
    through_loop doc E
      (fun s : LoadState * list OntologySourceReference => all_declared doc s.1)
      ltac:(fun Hx Hs Hb => by eapply load_ontology_source_reference_declared) end.
  match goal with E : for_in _ load_assay_categories_first _ = Ok _ |- _ =>
    through_loop doc E (all_declared doc)
      ltac:(fun Hx Hs Hb => by eapply load_assay_categories_first_declared) end.
  match goal with E : for_in _ load_study _ = Ok _ |- _ =>
    through_loop doc E (fun s : LoadState * list Study => all_declared doc s.1)
      ltac:(fun Hx Hs Hb => by eapply load_study_declared);
    exact E end.
Qed.

(** C7, as the code has it.  After a full load of a document, every
    identifier held by the registries (sources, samples, other materials,
    data files, protocols, parameters, factors, characteristic categories,
    units, processes) is among the identifiers the walker collects as
    declarations over the same document.  The converse does not hold: the
    walker also collects the identifier of any other object that has an
    '@id' and a further key. *)
Theorem registered_ids_are_declared doc investigation st :
  build_investigation doc = Ok (investigation, st) →
  ∀ k, k ∈ registry_ids st → ∃ j, j ∈ declared_ids doc ∧ hash_key j = Ok k.
Proof. intros H k Hk. by eapply build_investigation_declared. Qed.

(** The protocol registered by the load of [document_with_source] is
    declared. *)
Lemma registered_ids_are_declared_witness :
  ∃ j, j ∈ declared_ids document_with_source ∧ hash_key j = Ok (KStr "#protocol/P1").
Proof.
  eapply (registered_ids_are_declared document_with_source).
  - vm_compute. reflexivity.
  - refine (bool_decide_unpack _ _). vm_compute. exact I.
Defined.

(** C7 fails as stated: [document_with_investigation_id] loads, the
    walker collects the identifier of its top-level object as a
    declaration, and no registry holds any identifier. *)
Lemma investigation_id_declared_not_registered :
  ∃ investigation st,
    build_investigation document_with_investigation_id = Ok (investigation, st)
    ∧ declared_ids document_with_investigation_id = [JStr "#investigation/i1"]
    ∧ registry_ids st = ∅.
Proof.
  eexists _, _. split; [vm_compute; reflexivity |].
  split; vm_compute; reflexivity.
Qed.

End registered.

(** ** Names of sources, samples and materials *)

Section names.
Implicit Types (doc : json) (st : LoadState) (name : string).














End names.

(** ** What the caller of [validate] gets *)

Section validation.
Implicit Types (ext : Externals) (fp : File) (report : Report).

Lemma check_term_source_refs_appends (isa_json : json) (ontology_source_refs : list json) :
  ∀ report, ∃ added,
    diagnostics (_check_term_source_refs isa_json ontology_source_refs report)
    = diagnostics report ++ added ∧ Forall (fun _ => True) added.
Proof.
  induction isa_json as [| | | |l IH|d IH] using json_nested_ind; intros report;
    try (exists []; simpl; by rewrite app_nil_r).
  - simpl. by apply fold_left_appends.
  - simpl.
    match goal with
    | |- context [fold_left ?f d ?r0] =>
        destruct (fold_left_appends (fun _ => True) f d IH r0) as (a2 & E2 & _)
    end.
    rewrite E2. clear E2.
    destruct (is_annotation d); [| by exists a2; split; [| apply Forall_true]].
    destruct (py_in (dict_at d "termSource") ontology_source_refs); simpl;
      [by exists a2; split; [| apply Forall_true] |].
    eexists (_ :: a2). split; [by rewrite <- app_assoc | by apply Forall_true].
Qed.

Lemma check_object_usage_appends (section : json) (objects_declared id_refs : list json) :
  ∀ report, ∃ added,
    diagnostics (_check_object_usage section objects_declared id_refs report)
    = diagnostics report ++ added ∧ Forall (fun _ => True) added.
Proof.
  unfold _check_object_usage. apply fold_left_appends. apply Forall_forall.
  intros obj_ref _ report. destruct (py_in obj_ref id_refs); simpl.
  - exists []. by rewrite app_nil_r.
  - eexists [_]. split; [done | by apply Forall_true].
Qed.

(** C3, as the code has it.  [validate] hands the Report to its caller
    when the file is not UTF-8 (the report then ends with the fatal
    diagnostic) and when the document is read and [validate_isajson]
    returns; when [json.load] raises, and when the schema check raises,
    the exception reaches the caller and no Report is returned.  The
    reference checks themselves never raise: an undeclared reference, an
    undeclared term source or an unused declaration only appends
    diagnostics to the report, after those already there. *)
Theorem validate_returns_or_raises ext fp report :
  check_encoding ext fp (ValidationReport (fp_name fp)) = Ok report →
  (is_utf8 ext fp = false → validate ext fp = Ok (fatal report not_utf8))
  ∧ (is_utf8 ext fp = true → ∀ e, json_load ext fp = Raise e → validate ext fp = Raise e)
  ∧ (is_utf8 ext fp = true → ∀ isa_json, json_load ext fp = Ok isa_json →
       validate ext fp = validate_isajson ext isa_json report)
  ∧ (∀ isa_json r e, _check_isa_schemas ext isa_json = Raise e →
       validate_isajson ext isa_json r = Raise e)
  ∧ (∀ isa_json object_refs r, ∃ added,
       diagnostics (_check_object_refs isa_json object_refs r) = diagnostics r ++ added)
  ∧ (∀ isa_json ontology_source_refs r, ∃ added,
       diagnostics (_check_term_source_refs isa_json ontology_source_refs r)
       = diagnostics r ++ added)
  ∧ (∀ section objects_declared id_refs r, ∃ added,
       diagnostics (_check_object_usage section objects_declared id_refs r)
       = diagnostics r ++ added).
Proof.
  intros Henc. repeat split.
  - intros Hutf. unfold validate. rewrite Henc. simpl. by rewrite Hutf.
  - intros Hutf e Hload. unfold validate. rewrite Henc. simpl. rewrite Hutf, Hload.
    simpl. by destruct e.
  - intros Hutf isa_json Hload. unfold validate. rewrite Henc. simpl.
    rewrite Hutf, Hload. simpl.
    destruct (validate_isajson ext isa_json report) as [r|e]; [done | by destruct e].
  - intros isa_json r e Hschema. unfold validate_isajson. by rewrite Hschema.
  - intros isa_json object_refs r.
    destruct (check_object_refs_appends isa_json object_refs r) as (added & E & _). eauto.
  - intros isa_json refs r.
    destruct (check_term_source_refs_appends isa_json refs r) as (added & E & _). eauto.
  - intros section objects_declared id_refs r.
    destruct (check_object_usage_appends section objects_declared id_refs r)
      as (added & E & _). eauto.
Qed.

(** On a file that holds '{}', [validate] is [validate_isajson] on the
    empty object. *)
Lemma validate_returns_or_raises_witness :
  validate quiet_externals empty_object_file
  = validate_isajson quiet_externals (JDict []) (ValidationReport "i.json").
Proof.
  apply (proj1 (proj2 (proj2 (validate_returns_or_raises quiet_externals empty_object_file
                                (ValidationReport "i.json") eq_refl))));
    reflexivity.
Defined.

(** C3 fails as stated: the content of [truncated_file] is not JSON,
    [json.load] raises ValueError, and [validate] raises it again instead
    of returning the Report. *)
Lemma malformed_json_raises :
  json_load quiet_externals truncated_file = Raise ValueError
  ∧ validate quiet_externals truncated_file = Raise ValueError.
Proof. split; vm_compute; reflexivity. Qed.
End validation.

(** ** More on the provenance graph *)

Section graph_more.
Implicit Types (p : Process) (ps qs : list Process).

Lemma DiGraph_eq (G H : DiGraph) : nodes G = nodes H → edges G = edges H → G = H.
Proof. destruct G, H; simpl. by intros -> ->. Qed.

Lemma build_assay_graph_ext ps qs :
  (∀ p, p ∈ ps → p ∈ qs) →
  edges (_build_assay_graph ps) ⊆ edges (_build_assay_graph qs)
  ∧ nodes (_build_assay_graph ps) ⊆ nodes (_build_assay_graph qs).
Proof.
  intros Hsub.
  assert (edges (_build_assay_graph ps) ⊆ edges (_build_assay_graph qs)) as He.
  { intros e. rewrite !build_assay_graph_edges. intros (p & Hp & Hc). eauto. }
  split; [done |].
  intros n. rewrite !build_assay_graph_nodes. intros (e & Hin & Hn). eauto.
Qed.

(** X1.  The graph depends on which processes are in the sequence, not on
    their order or on repetitions. *)
Theorem build_assay_graph_order_insensitive ps qs :
  (∀ p, p ∈ ps ↔ p ∈ qs) → _build_assay_graph ps = _build_assay_graph qs.
Proof.
  intros Hsame.
  destruct (build_assay_graph_ext ps qs) as [He1 Hn1]; [intros p; apply Hsame |].
  destruct (build_assay_graph_ext qs ps) as [He2 Hn2]; [intros p; apply Hsame |].
  apply DiGraph_eq; apply leibniz_equiv; set_solver.
Qed.

(** The graph of [chained_sequence] and of its reverse. *)
Lemma build_assay_graph_order_insensitive_witness :
  _build_assay_graph chained_sequence = _build_assay_graph (reverse chained_sequence).
Proof.
  apply build_assay_graph_order_insensitive.
  intros p. rewrite elem_of_reverse. reflexivity.
Defined.

(** X2.  The graph only grows with the sequence: the graph of a sequence
    followed by further processes has every node and every edge of the
    graph of the sequence. *)
Theorem build_assay_graph_grows ps qs :
  nodes (_build_assay_graph ps) ⊆ nodes (_build_assay_graph (ps ++ qs))
  ∧ edges (_build_assay_graph ps) ⊆ edges (_build_assay_graph (ps ++ qs)).
Proof.
  destruct (build_assay_graph_ext ps (ps ++ qs)) as [He Hn]; [set_solver | done].
Qed.

(** X3.  Which processes are nodes.  The process with identity [a] is a
    node exactly when some process of the sequence is [a] and has an
    output that is not a data file, or no output and a next process, or
    an input, or a previous process; or chains to [a] (no output and next
    process [a], or no input and previous process [a]).  A process whose
    outputs are all data files, without input and previous process, is
    left out of the graph unless another process chains to it. *)
Theorem process_is_node ps (a : oid) :
  process_node a ∈ nodes (_build_assay_graph ps) ↔
  ∃ p, p ∈ ps ∧
    ((process_oid p = a
      ∧ ((∃ o, o ∈ outputs p ∧ is_DataFile o = false)
         ∨ (outputs p = [] ∧ next_process p ≠ None)
         ∨ inputs p ≠ []
         ∨ prev_process p ≠ None))
     ∨ (outputs p = [] ∧ next_process p = Some a)
     ∨ (inputs p = [] ∧ prev_process p = Some a)).
Proof.
  rewrite build_assay_graph_nodes. split.
  - intros (e & He & Hn). apply build_assay_graph_edges in He as (p & Hp & Hc).
    exists p. split; [done |].
    destruct Hc as [(o & Ho & Hd & ->) | [(Hnil & q & Hq & ->) |
                    [(i & Hi & ->) | (Hnil & q & Hq & ->)]]]; simpl in Hn.
    + destruct Hn as [[= <-] | Hn]; [left; split; [done |]; left; eauto |].
      by destruct o.
    + destruct Hn as [[= <-] | [= <-]].
      * left. split; [done |]. right; left. by rewrite Hq.
      * right; left. done.
    + destruct Hn as [Hn | [= <-]]; [by destruct i |].
      left. split; [done |]. right; right; left. intros E. rewrite E in Hi.
      by apply elem_of_nil in Hi.
    + destruct Hn as [[= <-] | [= <-]].
      * right; right. done.
      * left. split; [done |]. right; right; right. by rewrite Hq.
  - intros (p & Hp & [(<- & Hc) | [(Hnil & Hq) | (Hnil & Hq)]]).
    + destruct Hc as [(o & Ho & Hd) | [(Hnil & Hq) | [Hin | Hprev]]].
      * exists (process_node (process_oid p), entity_node o). split; [| by left].
        apply build_assay_graph_edges. exists p. split; [done |]. left. eauto.
      * destruct (next_process p) as [q|] eqn:Hnext; [| done].
        exists (process_node (process_oid p), process_node q). split; [| by left].
        apply build_assay_graph_edges. exists p. split; [done |]. right; left. eauto.
      * destruct (inputs p) as [|i is_] eqn:Hi; [done |].
        exists (entity_node i, process_node (process_oid p)). split; [| by right].
        apply build_assay_graph_edges. exists p. split; [done |]. right; right; left.
        exists i. split; [rewrite Hi; by left | done].
      * destruct (prev_process p) as [q|] eqn:Hq; [| done].
        destruct (inputs p) as [|i is_] eqn:Hi.
        -- exists (process_node q, process_node (process_oid p)). split; [| by right].
           apply build_assay_graph_edges. exists p. split; [done |].
           right; right; right. eauto.
        -- exists (entity_node i, process_node (process_oid p)). split; [| by right].
           apply build_assay_graph_edges. exists p. split; [done |]. right; right; left.
           exists i. split; [rewrite Hi; by left | done].
    + exists (process_node (process_oid p), process_node a). split; [| by right].
      apply build_assay_graph_edges. exists p. split; [done |]. right; left. eauto.
    + exists (process_node a, process_node (process_oid p)). split; [| by left].
      apply build_assay_graph_edges. exists p. split; [done |]. right; right; right. eauto.
Qed.
End graph_more.
(** ** What the walkers collect and what the reference checks report *)

Section walkers.
Implicit Types (j doc : json) (d : list (string * json)) (acc : list json) (k : pykey).

Lemma fold_left_ext_Forall {A B} (f g : B -> A -> B) (l : list A) :
  Forall (fun x => ∀ b, f b x = g b x) l → ∀ b, fold_left f l b = fold_left g l b.
Proof.
  induction 1 as [|x l Hx _ IH]; intros b; simpl; [done |]. by rewrite Hx, IH.
Qed.

Lemma collect_object_refs_shape j : ∀ acc,
  _collect_object_refs j acc = collect_where declaration "@id" j acc.
Proof.
  induction j as [| | | |l IH|d IH] using json_nested_ind; intros acc; try done.
  - simpl. by apply fold_left_ext_Forall.
  - simpl. change (has_key d "@id" && (1 <? size (keys d))%nat) with (declaration d).
    apply fold_left_ext_Forall.
    eapply Forall_impl; [exact IH |]. intros kv H b. apply H.
Qed.

Lemma collect_id_refs_shape j : ∀ acc,
  _collect_id_refs j acc = collect_where bare_reference "@id" j acc.
Proof.
  induction j as [| | | |l IH|d IH] using json_nested_ind; intros acc; try done.
  - simpl. by apply fold_left_ext_Forall.
  - simpl. change (has_key d "@id" && (size (keys d) =? 1)%nat) with (bare_reference d).
    apply fold_left_ext_Forall.
    eapply Forall_impl; [exact IH |]. intros kv H b. apply H.
Qed.

Lemma collect_term_source_refs_shape j : ∀ acc,
  _collect_term_source_refs j acc = collect_where term_source_site "termSource" j acc.
Proof.
  induction j as [| | | |l IH|d IH] using json_nested_ind; intros acc; try done.
  - simpl. by apply fold_left_ext_Forall.
  - simpl.
    change (has_key d "termSource" && (size (keys d) =? 3)%nat) with (term_source_site d).
    apply fold_left_ext_Forall.
    eapply Forall_impl; [exact IH |]. intros kv H b. apply H.
Qed.

Lemma py_distinct_snoc acc (x : json) :
  py_distinct acc → py_in x acc = false → py_distinct (acc ++ [x]).
Proof.
  induction acc as [|y acc IH]; simpl; [by split |].
  intros [Hy Hacc] Hin. apply orb_false_elim in Hin as [Hxy Hin].
  split; [| by apply IH].
  apply Forall_app. split; [done | by constructor].
Qed.

Section collect_where.
Variables (test : list (string * json) -> bool) (key : string).

Lemma fold_left_good {A} (good : list json -> list json -> Prop) (f : list json -> A -> list json)
    (l : list A) :
  (∀ acc, good acc acc) → (∀ a b c, good a b → good b c → good a c) →
  Forall (fun x => ∀ acc, good acc (f acc x)) l →
  ∀ acc, good acc (fold_left f l acc).
Proof.
  intros Hrefl Htrans. induction 1 as [|x l Hx _ IH]; intros acc; simpl; [done |].
  eapply Htrans; [apply Hx | apply IH].
Qed.

(** A collector extends its list, and keeps it free of repetitions. *)
Lemma collect_where_extends j : ∀ acc,
  (∃ new, collect_where test key j acc = acc ++ new)
  ∧ (py_distinct acc → py_distinct (collect_where test key j acc)).
Proof.
  set (good := fun a b : list json =>
                 (∃ new, b = a ++ new) ∧ (py_distinct a → py_distinct b)).
  assert (∀ acc, good acc acc) as Hrefl.
  { intros acc. split; [exists []; by rewrite app_nil_r | done]. }
  assert (∀ a b c, good a b → good b c → good a c) as Htrans.
  { intros a b c [[n1 ->] H1] [[n2 ->] H2]. split; [| auto].
    exists (n1 ++ n2). by rewrite app_assoc. }
  induction j as [| | | |l IH|d IH] using json_nested_ind; intros acc;
    try apply Hrefl.
  - simpl. by apply (fold_left_good good).
  - simpl.
    eapply (Htrans _ (if test d
                      then if negb (py_in (dict_at d key) acc)
                           then acc ++ [dict_at d key] else acc
                      else acc)).
    + destruct (test d); [| apply Hrefl].
      destruct (py_in (dict_at d key) acc) eqn:Hin; simpl; [apply Hrefl |].
      split; [eauto |]. intros Hacc. by apply py_distinct_snoc.
    + apply (fold_left_good good); [exact Hrefl | exact Htrans |].
      eapply Forall_impl; [exact IH |]. intros kv H b. apply H.
Qed.

(** Whatever a collector adds is the value under [key] of an object of
    the document that passes [test]. *)
Lemma collect_where_sound j : ∀ acc x,
  x ∈ collect_where test key j acc →
  x ∈ acc ∨ ∃ d, subdoc (JDict d) j ∧ test d = true ∧ dict_at d key = x.
Proof.
  induction j as [| | | |l IH|d IH] using json_nested_ind; intros acc x Hx; auto.
  - simpl in Hx. revert acc Hx.
    induction IH as [|y l Hy _ IHl]; intros acc Hx; simpl in Hx; [auto |].
    apply IHl in Hx as [Hx | (d & Hsub & Hd)].
    + apply Hy in Hx as [Hx | (d & Hsub & Hd)]; [auto |].
      right. exists d. split; [| done]. eapply subdoc_list; [by left | done].
    + right. exists d. split; [| done].
      inversion Hsub as [| l' y' Hin Hsub' | ]; subst.
      eapply subdoc_list; [right; exact Hin | exact Hsub'].
  - simpl in Hx.
    assert (∀ acc0, x ∈ fold_left (fun acc kv => collect_where test key kv.2 acc) d acc0 →
              x ∈ acc0 ∨ ∃ d', (∃ kv, kv ∈ d ∧ subdoc (JDict d') kv.2)
                               ∧ test d' = true ∧ dict_at d' key = x) as Hfold.
    { clear Hx. induction IH as [|y l Hy _ IHl]; intros acc0 Hx; simpl in Hx; [auto |].
      apply IHl in Hx as [Hx | (d' & (kv & Hkv & Hsub) & Hd)].
      - apply Hy in Hx as [Hx | (d' & Hsub & Hd)]; [auto |].
        right. exists d'. split; [| done]. exists y. split; [by left | done].
      - right. exists d'. split; [| done]. exists kv. split; [by right | done]. }
    apply Hfold in Hx as [Hx | (d' & (kv & Hkv & Hsub) & Hd)].
    + destruct (test d) eqn:Htest; [| auto].
      destruct (py_in (dict_at d key) acc); simpl in Hx; [auto |].
      apply elem_of_app in Hx as [Hx | Hx]; [auto |].
      apply list_elem_of_singleton in Hx as ->.
      right. exists d. split; [constructor | done].
    + right. exists d'. split; [| done]. destruct kv as [k' y].
      eapply subdoc_dict; [exact Hkv | exact Hsub].
Qed.

(** A collector meets every object of the document that passes [test]:
    afterwards the list holds the value under [key], or a value equal to
    it. *)
Lemma collect_where_complete j d :
  subdoc (JDict d) j → test d = true →
  ∀ acc, ∃ x, x ∈ collect_where test key j acc
              ∧ (x = dict_at d key ∨ py_eq (dict_at d key) x = true).
Proof.
  intros Hsub Htest.
  assert (∀ j acc x, x ∈ acc → x ∈ collect_where test key j acc) as Hmono.
  { intros j' acc x Hx. destruct (collect_where_extends j' acc) as [[new ->] _].
    set_solver. }
  assert (∀ {A} (f : list json -> A -> list json) (l : list A) acc x,
            (∀ a b y, y ∈ a → y ∈ f a b) → x ∈ acc → x ∈ fold_left f l acc) as Hfold.
  { intros A f l. induction l as [|b l IH]; intros acc x Hf Hx; simpl; [done |].
    apply IH; [done |]. by apply Hf. }
  induction Hsub as [| l y Hin _ IH | d' k' y Hin _ IH]; intros acc.
  - simpl. rewrite Htest.
    destruct (py_in (dict_at d key) acc) eqn:Hpy; simpl.
    + unfold py_in in Hpy. apply existsb_exists in Hpy as (x & Hx & Heq).
      exists x. split; [| by right].
      apply Hfold; [intros; by apply Hmono | by apply list_elem_of_In].
    + exists (dict_at d key). split; [| by left].
      apply Hfold; [intros; by apply Hmono | set_solver].
  - simpl. revert acc. induction l as [|z l IHl]; intros acc; [by apply elem_of_nil in Hin |].
    simpl. apply elem_of_cons in Hin as [<- | Hin]; [| by apply IHl].
    destruct (IH acc) as (x & Hx & Hnear). exists x. split; [| done].
    apply Hfold; [intros; by apply Hmono | done].
  - simpl.
    generalize (if test d'
                then if negb (py_in (dict_at d' key) acc)
                     then acc ++ [dict_at d' key] else acc
                else acc).
    induction d' as [|z d' IHd]; intros acc0; [by apply elem_of_nil in Hin |].
    simpl. apply elem_of_cons in Hin as [<- | Hin]; [| by apply IHd].
    destruct (IH acc0) as (x & Hx & Hnear). exists x. split; [| done].
    apply Hfold; [intros; by apply Hmono | done].
Qed.
End collect_where.

(** X4.  Each of the three collectors only appends to the list it is
    given, and a list without repetitions stays without repetitions:
    every identifier is collected once, where it is first met. *)
Theorem collectors_append_without_repetition j acc :
  (∃ new, _collect_object_refs j acc = acc ++ new)
  ∧ (∃ new, _collect_id_refs j acc = acc ++ new)
  ∧ (∃ new, _collect_term_source_refs j acc = acc ++ new)
  ∧ (py_distinct acc →
       py_distinct (_collect_object_refs j acc)
       ∧ py_distinct (_collect_id_refs j acc)
       ∧ py_distinct (_collect_term_source_refs j acc)).
Proof.
  rewrite collect_object_refs_shape, collect_id_refs_shape, collect_term_source_refs_shape.
  split; [apply collect_where_extends |].
  split; [apply collect_where_extends |].
  split; [apply collect_where_extends |].
  intros Hacc. repeat split; by apply collect_where_extends.
Qed.
End walkers.
(** ** What the reference checks report *)

Section reference_reports.
Implicit Types (j doc : json) (d : list (string * json)) (r : Report) (k : pykey)
  (m : severity * message).

Lemma hash_key_py_eq (a b : json) k : hash_key a = Ok k → hash_key b = Ok k → py_eq a b = true.
Proof.
  destruct a, b; simpl; try done; intros [= <-] [= H]; try done.
  - rewrite <- (Z.eqb_eq) in H. destruct b, b0; done.
  - by apply Z.eqb_eq.
  - by apply Z.eqb_eq.
  - by apply Z.eqb_eq.
  - by apply String.eqb_eq.
Qed.

Lemma py_eq_hash_key_r (a b : json) k : py_eq a b = true → hash_key b = Ok k → hash_key a = Ok k.
Proof.
  destruct a, b; simpl; try done.
  - intros H [= <-]. by apply Bool.eqb_prop in H as ->.
  - intros H [= <-]. by apply Z.eqb_eq in H as ->.
  - intros H [= <-]. by apply Z.eqb_eq in H as ->.
  - intros H [= <-]. by apply Z.eqb_eq in H as ->.
  - intros H [= <-]. by apply String.eqb_eq in H as ->.
Qed.

Lemma covers_py_in (x : json) (l : list json) k :
  hash_key x = Ok k → covers l k → py_in x l = true.
Proof.
  intros Hx (y & Hy & Hk). apply existsb_exists. exists y.
  split; [by apply list_elem_of_In | by eapply hash_key_py_eq].
Qed.

Lemma py_in_false_covers (x : json) (l : list json) k :
  hash_key x = Ok k → py_in x l = false → ¬ covers l k.
Proof. intros Hx Hin Hc. by rewrite (covers_py_in x l k) in Hin. Qed.

(** A loop whose body appends to the report appends to the report what
    its rounds append. *)
Lemma fold_left_reports {A} (f : Report -> A -> Report) (rep : A -> severity * message -> Prop)
    (l : list A) :
  Forall (fun x => ∀ r, ∃ added,
            f r x = mkReport (file_name r) (diagnostics r ++ added)
            ∧ ∀ m, m ∈ added ↔ rep x m) l →
  ∀ r, ∃ added,
    fold_left f l r = mkReport (file_name r) (diagnostics r ++ added)
    ∧ ∀ m, m ∈ added ↔ ∃ x, x ∈ l ∧ rep x m.
Proof.
  induction 1 as [|x l Hx _ IH]; intros r; simpl.
  - exists []. rewrite app_nil_r. split; [by destruct r |].
    intros m. split; [by intros ?%elem_of_nil | by intros (x & ?%elem_of_nil & _)].
  - destruct (Hx r) as (a1 & E1 & G1). destruct (IH (f r x)) as (a2 & E2 & G2).
    exists (a1 ++ a2). rewrite E2, E1. simpl. rewrite app_assoc. split; [done |].
    intros m. rewrite elem_of_app, G1, G2. split.
    + intros [H | (y & Hy & H)]; [exists x; split; [by left | done] |].
      exists y. split; [by right | done].
    + intros (y & [-> | Hy]%elem_of_cons & H); [by left |]. right. eauto.
Qed.

Lemma subdoc_JList_inv (x : json) (l : list json) :
  subdoc x (JList l) ↔ x = JList l ∨ ∃ y, y ∈ l ∧ subdoc x y.
Proof.
  split.
  - inversion 1; subst; eauto.
  - intros [-> | (y & Hy & H)]; [constructor | by eapply subdoc_list].
Qed.

Lemma subdoc_JDict_inv (x : json) d :
  subdoc x (JDict d) ↔ x = JDict d ∨ ∃ kv, kv ∈ d ∧ subdoc x kv.2.
Proof.
  split.
  - inversion 1; subst; [by left |]. right. by eexists (_, _).
  - intros [-> | ([k' y] & Hy & H)]; [constructor | by eapply subdoc_dict].
Qed.

(** What a checking walker adds to the report is what its visits of the
    objects of the document add. *)
Lemma walk_report_reports (visit : list (string * json) -> Report -> Report)
    (rep : list (string * json) -> severity * message -> Prop) :
  (∀ d r, ∃ added, visit d r = mkReport (file_name r) (diagnostics r ++ added)
                   ∧ ∀ m, m ∈ added ↔ rep d m) →
  ∀ j r, ∃ added,
    walk_report visit j r = mkReport (file_name r) (diagnostics r ++ added)
    ∧ ∀ m, m ∈ added ↔ ∃ d, subdoc (JDict d) j ∧ rep d m.
Proof.
  intros Hvisit.
  induction j as [| | | |l IH|d IH] using json_nested_ind; intros r;
    try (exists []; simpl; rewrite app_nil_r; split; [by destruct r |];
         intros m; split; [by intros ?%elem_of_nil |];
         by intros (d & Hsub & _); inversion Hsub).
  - simpl.
    destruct (fold_left_reports _ _ l IH r) as (added & E & G).
    exists added. split; [exact E |]. intros m. rewrite G. split.
    + intros (y & Hy & d & Hsub & H). exists d. split; [| done]. by eapply subdoc_list.
    + intros (d & Hsub & H). apply subdoc_JList_inv in Hsub as [? | (y & Hy & Hsub)]; [done |].
      eauto.
  - simpl. destruct (Hvisit d r) as (a1 & E1 & G1).
    destruct (fold_left_reports (fun r kv => walk_report visit kv.2 r)
                (fun kv m => ∃ d', subdoc (JDict d') kv.2 ∧ rep d' m) d IH (visit d r))
      as (a2 & E2 & G2).
    rewrite E2, E1. simpl. exists (a1 ++ a2). rewrite app_assoc. split; [done |].
    intros m. rewrite elem_of_app, G1, G2. split.
    + intros [H | (kv & Hkv & d' & Hsub & H)]; [exists d; split; [constructor | done] |].
      exists d'. split; [| done]. apply subdoc_JDict_inv. eauto.
    + intros (d' & [[= ->] | (kv & Hkv & Hsub)]%subdoc_JDict_inv & H); [by left |].
      right. eauto.
Qed.

Lemma walk_report_ext (visit visit' : list (string * json) -> Report -> Report) :
  (∀ d r, visit d r = visit' d r) → ∀ j r, walk_report visit j r = walk_report visit' j r.
Proof.
  intros Hext. induction j as [| | | |l IH|d IH] using json_nested_ind; intros r; try done.
  - simpl. by apply fold_left_ext_Forall.
  - simpl. rewrite Hext. apply fold_left_ext_Forall.
    eapply Forall_impl; [exact IH |]. intros kv H b. apply H.
Qed.

Lemma check_object_refs_shape (object_refs : list json) j : ∀ r,
  _check_object_refs j object_refs r
  = walk_report
      (fun d r =>
         if bare_reference d then
           if negb (py_in (dict_at d "@id") object_refs)
              && negb (py_eq (dict_at d "@id") (JStr Array_Design_REF))
           then error r (object_ref_not_declared (dict_at d "@id"))
           else r
         else r) j r.
Proof.
  induction j as [| | | |l IH|d IH] using json_nested_ind; intros r; try done.
  - simpl. by apply fold_left_ext_Forall.
  - simpl. apply fold_left_ext_Forall.
    eapply Forall_impl; [exact IH |]. intros kv H b. apply H.
Qed.

Lemma check_term_source_refs_shape (ontology_source_refs : list json) j : ∀ r,
  _check_term_source_refs j ontology_source_refs r
  = walk_report
      (fun d r =>
         if is_annotation d then
           if negb (py_in (dict_at d "termSource") ontology_source_refs)
           then warn r (term_source_not_declared (dict_at d "annotationValue")
                                                 (dict_at d "termSource"))
           else r
         else r) j r.
Proof.
  induction j as [| | | |l IH|d IH] using json_nested_ind; intros r; try done.
  - simpl. by apply fold_left_ext_Forall.
  - simpl. apply fold_left_ext_Forall.
    eapply Forall_impl; [exact IH |]. intros kv H b. apply H.
Qed.

Lemma report_unchanged r (rep : severity * message -> Prop) :
  (∀ m, ¬ rep m) →
  ∃ added, r = mkReport (file_name r) (diagnostics r ++ added) ∧ ∀ m, m ∈ added ↔ rep m.
Proof.
  intros Hno. exists []. rewrite app_nil_r. split; [by destruct r |].
  intros m. split; [by intros ?%elem_of_nil | by intros ?%Hno].
Qed.

Lemma report_one_more sev r (text : message) (rep : severity * message -> Prop) :
  (∀ m, rep m ↔ m = (sev, text)) →
  ∃ added, report_add sev r text = mkReport (file_name r) (diagnostics r ++ added)
           ∧ ∀ m, m ∈ added ↔ rep m.
Proof.
  intros Hone. exists [(sev, text)]. split; [done |].
  intros m. by rewrite list_elem_of_singleton, Hone.
Qed.

(** The diagnostics [_check_object_refs] adds over a document: one for
    every bare reference whose identifier is neither declared nor the
    reserved array-design reference. *)
Lemma check_object_refs_reports j (object_refs : list json) : ∀ r,
  ∃ added,
    _check_object_refs j object_refs r = mkReport (file_name r) (diagnostics r ++ added)
    ∧ ∀ m, m ∈ added ↔
        ∃ d, subdoc (JDict d) j ∧ bare_reference d = true
             ∧ py_in (dict_at d "@id") object_refs = false
             ∧ py_eq (dict_at d "@id") (JStr Array_Design_REF) = false
             ∧ m = (Error, object_ref_not_declared (dict_at d "@id")).
Proof.
  intros r. rewrite check_object_refs_shape. apply walk_report_reports.
  clear. intros d r.
  destruct (bare_reference d); [| apply report_unchanged; by intros m (? & _)].
  destruct (py_in (dict_at d "@id") object_refs); simpl;
    [apply report_unchanged; by intros m (_ & ? & _) |].
  destruct (py_eq (dict_at d "@id") (JStr Array_Design_REF)); simpl;
    [apply report_unchanged; by intros m (_ & _ & ? & _) |].
  apply report_one_more. intros m. split; [by intros (_ & _ & _ & ->) | by intros ->].
Qed.

(** The diagnostics [_check_term_source_refs] adds: one for every
    ontology annotation whose term source is not in the list. *)
Lemma check_term_source_refs_reports j (ontology_source_refs : list json) : ∀ r,
  ∃ added,
    _check_term_source_refs j ontology_source_refs r
    = mkReport (file_name r) (diagnostics r ++ added)
    ∧ ∀ m, m ∈ added ↔
        ∃ d, subdoc (JDict d) j ∧ is_annotation d = true
             ∧ py_in (dict_at d "termSource") ontology_source_refs = false
             ∧ m = (Warning, term_source_not_declared (dict_at d "annotationValue")
                                                      (dict_at d "termSource")).
Proof.
  intros r. rewrite check_term_source_refs_shape. apply walk_report_reports.
  clear. intros d r.
  destruct (is_annotation d); [| apply report_unchanged; by intros m (? & _)].
  destruct (py_in (dict_at d "termSource") ontology_source_refs); simpl;
    [apply report_unchanged; by intros m (_ & ? & _) |].
  apply report_one_more. intros m. split; [by intros (_ & _ & ->) | by intros ->].
Qed.

Lemma check_object_usage_reports (section : json) (declared id_refs : list json) : ∀ r,
  _check_object_usage section declared id_refs r
  = mkReport (file_name r)
      (diagnostics r
       ++ map (fun obj => (Warning, object_ref_not_used obj section))
              (List.filter (fun obj => negb (py_in obj id_refs)) declared)).
Proof.
  unfold _check_object_usage.
  induction declared as [|obj declared IH]; intros r; simpl.
  - rewrite app_nil_r. by destruct r.
  - rewrite IH. destruct (py_in obj id_refs); simpl; [done |].
    by rewrite <- app_assoc.
Qed.

(** X5.  [_check_object_refs] reports exactly the undeclared references:
    it only appends to the report, and it appends the error "not declared
    anywhere" for an identifier if and only if some object of the
    document, at any depth, has '@id' as its single key, holds that
    identifier, and the identifier is neither in the list of declared
    identifiers nor equal to '#parameter/Array_Design_REF'. *)
Theorem undeclared_references_reported_exactly j (object_refs : list json) r :
  ∃ added,
    _check_object_refs j object_refs r = mkReport (file_name r) (diagnostics r ++ added)
    ∧ ∀ id_ : json, (Error, object_ref_not_declared id_) ∈ added ↔
        ∃ d, subdoc (JDict d) j ∧ bare_reference d = true ∧ dict_at d "@id" = id_
             ∧ py_in id_ object_refs = false
             ∧ py_eq id_ (JStr Array_Design_REF) = false.
Proof.
  destruct (check_object_refs_reports j object_refs r) as (added & E & G).
  exists added. split; [done |]. intros id_. rewrite G. split.
  - intros (d & Hsub & Hbare & Hin & Hadr & [= ->]). by exists d.
  - intros (d & Hsub & Hbare & <- & Hin & Hadr). by exists d.
Qed.

(** X6.  The reference check of [validate_isajson] and the two
    collectors agree.  When the identifiers of the bare references of a
    document are hashable (strings, numbers, null), checking the document
    against its own declarations leaves the report as it was if and only
    if every identifier collected by [_collect_id_refs] is among those
    collected by [_collect_object_refs] or is
    '#parameter/Array_Design_REF'; where in the document the declaration
    stands, before or after the reference, makes no difference. *)
Theorem references_pass_iff_all_declared doc r :
  forallb is_hashable (_collect_id_refs doc []) = true →
  _check_object_refs doc (_collect_object_refs doc []) r = r
  ↔ ∀ x, x ∈ _collect_id_refs doc [] →
      py_in x (_collect_object_refs doc []) = true
      ∨ py_eq x (JStr Array_Design_REF) = true.
Proof.
  intros Hhash. rewrite forallb_forall in Hhash.
  destruct (check_object_refs_reports doc (_collect_object_refs doc []) r)
    as (added & E & G).
  rewrite E. rewrite collect_id_refs_shape in *. split.
  - intros Hr x Hx.
    assert (added = []) as ->.
    { destruct r as [name ds]. simpl in Hr. injection Hr as Hr.
      rewrite <- (app_nil_r ds) in Hr at 2. by apply app_inv_head in Hr. }
    apply collect_where_sound in Hx as [?%elem_of_nil | (d & Hsub & Hbare & <-)]; [done |].
    destruct (py_in (dict_at d "@id") (_collect_object_refs doc [])) eqn:Hin; [by left |].
    destruct (py_eq (dict_at d "@id") (JStr Array_Design_REF)) eqn:Hadr; [by right |].
    exfalso. eapply elem_of_nil, G. by exists d.
  - intros Hall.
    assert (added = []) as ->; [| rewrite app_nil_r; by destruct r].
    destruct added as [|m added]; [done |]. exfalso.
    destruct (proj1 (G m)) as (d & Hsub & Hbare & Hin & Hadr & _); [by left |].
    destruct (collect_where_complete bare_reference "@id" doc d Hsub Hbare [])
      as (x & Hx & Hnear).
    destruct (Hall x Hx) as [Hok | Hok].
    + destruct Hnear as [-> | Heq]; [congruence |].
      specialize (Hhash x (proj1 (list_elem_of_In _ _) Hx)).
      unfold is_hashable in Hhash. destruct (hash_key x) as [k|] eqn:Hk; [| done].
      assert (hash_key (dict_at d "@id") = Ok k) as Hd by by eapply py_eq_hash_key_r.
      rewrite (covers_py_in _ _ k Hd) in Hin; [done |]. by eapply py_in_covers.
    + destruct Hnear as [-> | Heq]; [congruence |].
      specialize (Hhash x (proj1 (list_elem_of_In _ _) Hx)).
      unfold is_hashable in Hhash. destruct (hash_key x) as [k|] eqn:Hk; [| done].
      assert (hash_key (dict_at d "@id") = Ok k) as Hd by by eapply py_eq_hash_key_r.
      assert (hash_key (JStr Array_Design_REF) = Ok k) as Ha by by eapply py_eq_hash_key.
      by rewrite (hash_key_py_eq _ _ _ Hd Ha) in Hadr.
Qed.

Lemma references_pass_iff_all_declared_witness :
  _check_object_refs document_with_forward_reference
    (_collect_object_refs document_with_forward_reference []) (ValidationReport "i.json")
  = ValidationReport "i.json".
Proof.
  apply references_pass_iff_all_declared; [vm_compute; reflexivity |].
  intros x Hx.
  change (_collect_id_refs document_with_forward_reference [])
    with [JStr "#protocol/P1"] in Hx.
  apply list_elem_of_singleton in Hx as ->. left. vm_compute. reflexivity.
Defined.

(** X7.  [_check_object_usage] against the references of a document.  It
    only appends to the report, and for a hashable declared identifier it
    appends the warning "not used anywhere" if and only if no object of
    the document, at any depth, is a bare reference to that identifier. *)
Theorem unused_declarations_reported_exactly (section doc : json) (declared : list json) r :
  ∃ added,
    _check_object_usage section declared (_collect_id_refs doc []) r
    = mkReport (file_name r) (diagnostics r ++ added)
    ∧ ∀ (obj : json) k, hash_key obj = Ok k →
        ((Warning, object_ref_not_used obj section) ∈ added ↔
         obj ∈ declared
         ∧ ¬ ∃ d, subdoc (JDict d) doc ∧ bare_reference d = true
                  ∧ hash_key (dict_at d "@id") = Ok k).
Proof.
  eexists. split; [apply check_object_usage_reports |].
  intros obj k Hk. rewrite list_elem_of_fmap. rewrite collect_id_refs_shape. split.
  - intros (obj' & [= <-] & Hin). apply list_elem_of_In, filter_In in Hin as [Hin Hpy].
    split; [by apply list_elem_of_In |].
    intros (d & Hsub & Hbare & Hd).
    destruct (collect_where_complete bare_reference "@id" doc d Hsub Hbare [])
      as (x & Hx & Hnear).
    apply negb_true_iff in Hpy.
    eapply py_in_false_covers in Hpy; [| exact Hk]. apply Hpy.
    exists x. split; [done |].
    destruct Hnear as [-> | Heq]; [done | by eapply py_eq_hash_key].
  - intros [Hin Hno]. exists obj. split; [done |].
    apply list_elem_of_In, filter_In. split; [by apply list_elem_of_In |].
    apply negb_true_iff. apply not_true_is_false. intros Hpy.
    apply Hno. eapply py_in_covers in Hpy as (x & Hx & Hxk); [| exact Hk].
    apply collect_where_sound in Hx as [?%elem_of_nil | (d & Hsub & Hbare & <-)]; [done |].
    by exists d.
Qed.
End reference_reports.
(** ** The term sources known to [validate_isajson] *)

Section term_sources.
Implicit Types (j isa_json : json) (r : Report).

Lemma is_empty_str_true (x : json) : is_empty_str x = true → x = JStr "".
Proof. by destruct x as [| | |[|]| |]. Qed.

Lemma py_in_false (x : json) (l : list json) :
  py_in x l = false ↔ ∀ y, y ∈ l → py_eq x y = false.
Proof.
  unfold py_in. split.
  - intros H y Hy. apply not_true_is_false. intros Heq.
    apply not_true_iff_false in H. apply H, existsb_exists.
    exists y. split; [by apply list_elem_of_In | done].
  - intros H. apply not_true_is_false. intros (y & Hy & Heq)%existsb_exists.
    apply list_elem_of_In in Hy. by rewrite (H y Hy) in Heq.
Qed.

(** The names [_check_ontology_sources] returns: the empty string, and
    the name of every ontology source of the document. *)
Lemma check_ontology_sources_names isa_json r (refs : list json) r1 :
  _check_ontology_sources isa_json r = Ok (refs, r1) →
  ∃ sources srcs,
    getitem isa_json "ontologySourceReferences" = Ok sources ∧ iter sources = Ok srcs
    ∧ ∀ x, x ∈ refs ↔ x = JStr "" ∨ ∃ src, src ∈ srcs ∧ getitem src "name" = Ok x.
Proof.
  unfold _check_ontology_sources, for_in. intros H. bind_Ok H. bind_Ok H.
  eexists _, _. split; [eassumption |]. split; [eassumption |].
  match type of H with for_each ?body _ _ = _ => set (body0 := body) in * end.
  assert (∀ xs refs0 r0, for_each body0 xs (refs0, r0) = Ok (refs, r1) → JStr "" ∈ refs0 →
            ∀ x, x ∈ refs ↔ x ∈ refs0 ∨ ∃ src, src ∈ xs ∧ getitem src "name" = Ok x) as Hloop.
  { clear. induction xs as [|src xs IH]; intros refs0 r0 H Hempty x; simpl in H.
    - injection H as <- <-. split; [by left |].
      by intros [? | (src & ?%elem_of_nil & _)].
    - apply res_bind_Ok in H as ([refs1 r2] & E & H).
      apply res_bind_Ok in E as (name & Hname & E).
      destruct (is_empty_str name) eqn:Hempty_name.
      + injection E as <- <-. apply is_empty_str_true in Hempty_name as ->.
        rewrite (IH _ _ H Hempty). split.
        * intros [? | (src' & Hin & Hx)]; [by left |]. right. exists src'.
          split; [by right | done].
        * intros [? | (src' & [-> | Hin]%elem_of_cons & Hx)]; [by left | | right; eauto].
          left. rewrite Hname in Hx. by injection Hx as <-.
      + apply res_bind_Ok in E as (name' & Hname' & E). injection E as <- <-.
        rewrite Hname in Hname'. injection Hname' as <-.
        rewrite (IH _ _ H); [| set_solver]. rewrite elem_of_app, list_elem_of_singleton. split.
        * intros [[? | ->] | (src' & Hin & Hx)]; [by left | |].
          -- right. exists src. split; [by left | done].
          -- right. exists src'. split; [by right | done].
        * intros [? | (src' & [-> | Hin]%elem_of_cons & Hx)]; [by left; left | | right; eauto].
          left. right. rewrite Hname in Hx. by injection Hx as <-. }
  intros y. rewrite (Hloop _ _ _ H); [| set_solver].
  by rewrite list_elem_of_singleton.
Qed.

(** X8.  The term-source check of [validate_isajson], run with the names
    [_check_ontology_sources] has returned.  It only appends to the
    report, and it appends the warning "references ... term source that
    has not been declared" exactly for the ontology annotations of the
    document whose term source is neither the empty string nor the name
    of an ontology source of the investigation: an annotation without a
    term source is never reported. *)
Theorem term_source_warnings_exactly isa_json (sources : json) (srcs : list json)
    r (refs : list json) r1 j r' :
  getitem isa_json "ontologySourceReferences" = Ok sources → iter sources = Ok srcs →
  _check_ontology_sources isa_json r = Ok (refs, r1) →
  ∃ added,
    _check_term_source_refs j refs r' = mkReport (file_name r') (diagnostics r' ++ added)
    ∧ ∀ value ts : json, (Warning, term_source_not_declared value ts) ∈ added ↔
        ∃ d, subdoc (JDict d) j ∧ is_annotation d = true
             ∧ dict_at d "annotationValue" = value ∧ dict_at d "termSource" = ts
             ∧ py_eq ts (JStr "") = false
             ∧ ∀ src name, src ∈ srcs → getitem src "name" = Ok name → py_eq ts name = false.
Proof.
  intros Hsources Hsrcs Hrefs.
  apply check_ontology_sources_names in Hrefs as (sources' & srcs' & E1 & E2 & Hrefs).
  rewrite Hsources in E1. injection E1 as <-. rewrite Hsrcs in E2. injection E2 as <-.
  destruct (check_term_source_refs_reports j refs r') as (added & E & G).
  exists added. split; [done |]. intros value ts. rewrite G. split.
  - intros (d & Hsub & Hann & Hin & [= -> ->]). exists d.
    rewrite py_in_false in Hin. repeat split; try done.
    + apply Hin, Hrefs. by left.
    + intros src name Hsrc Hname. apply Hin, Hrefs. right. eauto.
  - intros (d & Hsub & Hann & <- & <- & Hempty & Hnames). exists d.
    repeat split; try done. apply py_in_false. intros y [-> | (src & Hsrc & Hy)]%Hrefs;
      [done | by eapply Hnames].
Qed.

Lemma term_source_warnings_exactly_witness :
  ∃ added,
    _check_term_source_refs investigation_with_term_sources [JStr ""; JStr "OBI"]
      (ValidationReport "i.json")
    = mkReport "i.json" added
    ∧ ∀ value ts : json, (Warning, term_source_not_declared value ts) ∈ added ↔
        ∃ d, subdoc (JDict d) investigation_with_term_sources ∧ is_annotation d = true
             ∧ dict_at d "annotationValue" = value ∧ dict_at d "termSource" = ts
             ∧ py_eq ts (JStr "") = false
             ∧ ∀ src name, src ∈ [JDict [("name", JStr "OBI")]] →
                 getitem src "name" = Ok name → py_eq ts name = false.
Proof.
  apply (term_source_warnings_exactly investigation_with_term_sources
           (JList [JDict [("name", JStr "OBI")]]) [JDict [("name", JStr "OBI")]]
           (ValidationReport "i.json") [JStr ""; JStr "OBI"] (ValidationReport "i.json")
           investigation_with_term_sources (ValidationReport "i.json"));
    vm_compute; reflexivity.
Defined.
End term_sources.

(** ** The report through [validate_isajson] *)

Section report_growth.
Implicit Types (j isa_json : json) (r : Report) (ext : Externals).

Lemma report_extends_refl r : report_extends r r.
Proof. split; [done |]. exists []. by rewrite app_nil_r. Qed.

Lemma report_extends_trans r1 r2 r3 :
  report_extends r1 r2 → report_extends r2 r3 → report_extends r1 r3.
Proof.
  intros [N1 [a1 D1]] [N2 [a2 D2]]. split; [congruence |].
  exists (a1 ++ a2). by rewrite D2, D1, app_assoc.
Qed.

Lemma report_extends_add sev r (text : message) : report_extends r (report_add sev r text).
Proof. split; [done |]. by eexists. Qed.

Lemma report_extends_mk r (added : list (severity * message)) :
  report_extends r (mkReport (file_name r) (diagnostics r ++ added)).
Proof. split; [done |]. by eexists. Qed.

Lemma for_each_extends {A} (body : Report -> A -> res Report) (xs : list A) :
  (∀ a r r', body r a = Ok r' → report_extends r r') →
  ∀ r r', for_each body xs r = Ok r' → report_extends r r'.
Proof.
  intros Hbody. induction xs as [|a xs IH]; intros r r' H; simpl in H.
  - injection H as <-. apply report_extends_refl.
  - bind_Ok H. eapply report_extends_trans; [by eapply Hbody | by apply IH].
Qed.

Lemma for_in_extends j (body : Report -> json -> res Report) r r' :
  (∀ a r r', body r a = Ok r' → report_extends r r') →
  for_in j body r = Ok r' → report_extends r r'.
Proof.
  intros Hbody H. unfold for_in in H. bind_Ok H. by eapply for_each_extends.
Qed.

Lemma for_each_enum_extends (body : Report -> nat -> json -> res Report) (xs : list json) :
  (∀ i a r r', body r i a = Ok r' → report_extends r r') →
  ∀ i r r', for_each_enum body i xs r = Ok r' → report_extends r r'.
Proof.
  intros Hbody. induction xs as [|a xs IH]; intros i r r' H; simpl in H.
  - injection H as <-. apply report_extends_refl.
  - bind_Ok H. eapply report_extends_trans; [by eapply Hbody | by eapply IH].
Qed.

(** Closes [report_extends r r'] for a checker that has returned [r']:
    loops are entered, binds are opened, and what is left is a chain of
    appends. *)
Ltac grows :=
  repeat match goal with
  | |- report_extends ?r ?r => apply report_extends_refl
  | |- report_extends ?r (report_add _ ?r _) => apply report_extends_add
  | |- report_extends ?r (warn ?r _) => apply report_extends_add
  | |- report_extends ?r (if ?b then _ else _) => destruct b
  | H : Ok _ = Ok _ |- _ => injection H as <-
  | H : for_in _ _ ?r = Ok ?r' |- report_extends ?r ?r' =>
      revert H; apply for_in_extends; intros ? ? ? H
  | H : for_in _ _ ?r = Ok ?r' |- report_extends ?r0 ?r' =>
      apply (report_extends_trans r0 r r');
      [clear H | revert H; apply for_in_extends; intros ? ? ? H]
  | H : res_bind _ _ = Ok _ |- _ => bind_Ok H
  | H : (if ?b then _ else _) = Ok _ |- _ => destruct b
  end.

Lemma check_filenames_extends isa_json r r' :
  _check_filenames isa_json r = Ok r' → report_extends r r'.
Proof. unfold _check_filenames. intros H. grows. Qed.

Lemma check_ontology_sources_extends isa_json r (refs : list json) r' :
  _check_ontology_sources isa_json r = Ok (refs, r') → report_extends r r'.
Proof.
  unfold _check_ontology_sources, for_in. intros H. bind_Ok H. bind_Ok H.
  clear E E0. revert H. generalize [JStr ""]. revert r.
  match goal with |- context [for_each ?body _ _] => set (body0 := body) end.
  induction x0 as [|src xs IH]; intros r refs0 H; simpl in H.
  - injection H as _ <-. apply report_extends_refl.
  - apply res_bind_Ok in H as ([refs1 r1] & E1 & H).
    apply res_bind_Ok in E1 as (name & Hname & E1).
    eapply report_extends_trans; [| by eapply IH].
    destruct (is_empty_str name); [injection E1 as _ <-; apply report_extends_add |].
    apply res_bind_Ok in E1 as (name' & Hname' & E1).
    injection E1 as _ <-. apply report_extends_refl.
Qed.

Lemma check_term_source_refs_extends j (refs : list json) r :
  report_extends r (_check_term_source_refs j refs r).
Proof.
  destruct (check_term_source_refs_reports j refs r) as (added & -> & _).
  apply report_extends_mk.
Qed.

Lemma check_object_refs_extends j (refs : list json) r :
  report_extends r (_check_object_refs j refs r).
Proof.
  destruct (check_object_refs_reports j refs r) as (added & -> & _).
  apply report_extends_mk.
Qed.

Lemma check_object_usage_extends (section : json) (declared id_refs : list json) r :
  report_extends r (_check_object_usage section declared id_refs r).
Proof. rewrite check_object_usage_reports. apply report_extends_mk. Qed.

Ltac hop := eapply report_extends_trans; [eassumption |].
Ltac hop_with lem := eapply report_extends_trans; [apply lem |].

Section with_collaborators.
Variable ext : Externals.
Hypothesis Hext : append_only ext.

Lemma check_date_formats_extends isa_json r r' :
  _check_date_formats ext isa_json r = Ok r' → report_extends r r'.
Proof.
  destruct Hext as (_ & Hdate & _).
  unfold _check_date_formats. intros H. do 5 bind_Ok H.
  apply Hdate in E0, E2.
  eapply report_extends_trans; [exact E0 |]. eapply report_extends_trans; [exact E2 |].
  revert H. apply for_in_extends. intros study r1 r2 H. do 5 bind_Ok H.
  apply Hdate in E5, E7.
  eapply report_extends_trans; [exact E5 |]. eapply report_extends_trans; [exact E7 |].
  revert H. apply for_in_extends. intros process r3 r4 H. bind_Ok H. by eapply Hdate.
Qed.

Lemma check_publication_field_extends (check : json -> Report -> res Report) key
    isa_json r r' :
  (∀ x r r', check x r = Ok r' → report_extends r r') →
  check_publication_field check key isa_json r = Ok r' → report_extends r r'.
Proof.
  intros Hcheck. unfold check_publication_field. intros H. do 3 bind_Ok H.
  apply (report_extends_trans r x0 r').
  - revert E0. apply for_in_extends. intros pub r1 r2 H1. bind_Ok H1. by eapply Hcheck.
  - revert H. apply for_in_extends. intros study r1 r2 H. bind_Ok H.
    revert H. apply for_in_extends. intros pub r3 r4 H1. bind_Ok H1. by eapply Hcheck.
Qed.

Lemma check_protocol_names_extends isa_json r r' :
  _check_protocol_names isa_json r = Ok r' → report_extends r r'.
Proof. unfold _check_protocol_names. intros H. grows. Qed.

Lemma check_protocol_parameter_names_extends isa_json r r' :
  _check_protocol_parameter_names isa_json r = Ok r' → report_extends r r'.
Proof. unfold _check_protocol_parameter_names. intros H. grows. Qed.

Lemma check_study_factor_names_extends isa_json r r' :
  _check_study_factor_names isa_json r = Ok r' → report_extends r r'.
Proof. unfold _check_study_factor_names. intros H. grows. Qed.

Lemma check_declared_are_used_extends key isa_json r r' :
  check_declared_are_used key isa_json r = Ok r' → report_extends r r'.
Proof.
  unfold check_declared_are_used. intros H. do 2 bind_Ok H.
  revert H. apply for_each_enum_extends. intros i study r1 r2 H. do 3 bind_Ok H.
  injection H as <-. rewrite check_object_usage_reports. apply report_extends_mk.
Qed.

Lemma validate_isajson_extends isa_json r r' :
  validate_isajson ext isa_json r = Ok r' → report_extends r r'.
Proof.
  pose proof Hext as (_ & _ & Hpubmed & Hdoi & Hdata & Hload).
  unfold validate_isajson. intros H. binds_Ok H. apply Hload in H.
  repeat match goal with
  | E : _check_filenames _ _ = Ok _ |- _ => apply check_filenames_extends in E
  | E : _check_ontology_sources _ _ = Ok _ |- _ => apply check_ontology_sources_extends in E
  | E : _check_date_formats _ _ _ = Ok _ |- _ => apply check_date_formats_extends in E
  | E : _check_pubmed_ids _ _ _ = Ok _ |- _ =>
      apply (check_publication_field_extends _ _ _ _ _ Hpubmed) in E
  | E : _check_dois _ _ _ = Ok _ |- _ =>
      apply (check_publication_field_extends _ _ _ _ _ Hdoi) in E
  | E : _check_protocol_names _ _ = Ok _ |- _ => apply check_protocol_names_extends in E
  | E : _check_protocol_parameter_names _ _ = Ok _ |- _ =>
      apply check_protocol_parameter_names_extends in E
  | E : _check_study_factor_names _ _ = Ok _ |- _ =>
      apply check_study_factor_names_extends in E
  | E : check_declared_are_used _ _ _ = Ok _ |- _ =>
      apply check_declared_are_used_extends in E
  | E : for_in _ _ ?r0 = Ok ?r1 |- _ =>
      assert (report_extends r0 r1)
        by (revert E; apply for_in_extends; intros study r2 r3 H1; bind_Ok H1;
            revert H1; apply for_in_extends; intros assay r4 r5 H1; bind_Ok H1;
            by eapply Hdata);
      clear E
  end.
  do 3 hop. hop_with check_term_source_refs_extends.
  do 5 hop. hop_with check_object_refs_extends.
  do 2 hop. hop_with check_object_usage_extends.
  do 2 hop. apply report_extends_refl.
Qed.
End with_collaborators.

Lemma quiet_externals_append_only : append_only quiet_externals.
Proof. repeat split; intros; simplify_eq/=; try done; by exists []; rewrite app_nil_r. Qed.

(** X9.  The report is append-only through [validate_isajson] and
    [validate].  When the collaborators only append to the report they
    are given, the report [validate_isajson] returns has the file name of
    the report it started from and the same diagnostics in the same
    order, followed by the new ones; and the report [validate] returns is
    named after the file. *)
Theorem validate_isajson_only_appends ext :
  append_only ext →
  (∀ isa_json r r', validate_isajson ext isa_json r = Ok r' →
     file_name r' = file_name r ∧ ∃ added, diagnostics r' = diagnostics r ++ added)
  ∧ (∀ fp r', validate ext fp = Ok r' → file_name r' = fp_name fp).
Proof.
  intros Hext. split.
  - intros isa_json r r' H. by apply (validate_isajson_extends ext Hext) in H.
  - intros fp r' H. unfold validate in H. bind_Ok H.
    pose proof Hext as (Henc & _). apply Henc in E as [E _]. simpl in E.
    destruct (is_utf8 ext fp); simpl in H.
    + destruct (json_load ext fp) as [isa_json|e] eqn:Hload; simpl in H;
        [| by destruct e].
      destruct (validate_isajson ext isa_json x) as [r1|e] eqn:Hv; [| by destruct e].
      injection H as <-.
      apply (validate_isajson_extends ext Hext) in Hv as [Hv _]. congruence.
    + by injection H as <-.
Qed.

Lemma validate_isajson_only_appends_witness :
  (∀ isa_json r r', validate_isajson quiet_externals isa_json r = Ok r' →
     file_name r' = file_name r ∧ ∃ added, diagnostics r' = diagnostics r ++ added)
  ∧ (∀ fp r', validate quiet_externals fp = Ok r' → file_name r' = fp_name fp).
Proof.
  apply validate_isajson_only_appends. exact quiet_externals_append_only.
Defined.
End report_growth.
(** ** What [validate_isajson] requires of a document *)

Section required_keys.
Implicit Types (j isa_json : json) (r : Report) (ext : Externals).

(** A loop that has returned has run its body on every element. *)
Lemma for_each_Ok_each {A St} (body : St -> A -> res St) (xs : list A) :
  ∀ s s', for_each body xs s = Ok s' →
  ∀ a, a ∈ xs → ∃ s1 s2, body s1 a = Ok s2.
Proof.
  induction xs as [|b xs IH]; intros s s' H a Ha; simpl in H;
    [by apply elem_of_nil in Ha |].
  bind_Ok H. apply elem_of_cons in Ha as [-> | Ha]; [eauto | by eapply IH].
Qed.

Lemma check_date_formats_dates ext isa_json r r' :
  _check_date_formats ext isa_json r = Ok r' →
  ∃ studies ss,
    getitem isa_json "studies" = Ok studies ∧ iter studies = Ok ss
    ∧ ∀ study, study ∈ ss →
        ∃ seq ps, getitem study "processSequence" = Ok seq ∧ iter seq = Ok ps
                  ∧ ∀ p, p ∈ ps → ∃ date, getitem p "date" = Ok date.
Proof.
  unfold _check_date_formats, for_in. intros H. do 6 bind_Ok H.
  eexists _, _. split; [eassumption |]. split; [eassumption |].
  intros study Hstudy.
  destruct (for_each_Ok_each _ _ _ _ H study Hstudy) as (r1 & r2 & Hbody).
  do 6 bind_Ok Hbody.
  eexists _, _. split; [eassumption |]. split; [eassumption |].
  intros p Hp.
  destruct (for_each_Ok_each _ _ _ _ Hbody p Hp) as (r3 & r4 & Hdate).
  bind_Ok Hdate. eauto.
Qed.

(** X10.  [validate_isajson] returns a report only for documents in
    which every process of every study carries the key 'date': the date
    check reads [process['date']] without a guard, so that a process
    without a date makes the validation raise instead of return. *)
Theorem validated_processes_carry_dates ext isa_json r r' :
  validate_isajson ext isa_json r = Ok r' →
  ∃ studies ss,
    getitem isa_json "studies" = Ok studies ∧ iter studies = Ok ss
    ∧ ∀ study, study ∈ ss →
        ∃ seq ps, getitem study "processSequence" = Ok seq ∧ iter seq = Ok ps
                  ∧ ∀ p, p ∈ ps → ∃ date, getitem p "date" = Ok date.
Proof.
  unfold validate_isajson. intros H. binds_Ok H.
  match goal with
  | E : _check_date_formats _ _ _ = Ok _ |- _ => by apply check_date_formats_dates in E
  end.
Qed.

Lemma validated_processes_carry_dates_witness :
  ∃ studies ss,
    getitem document_with_dated_process "studies" = Ok studies ∧ iter studies = Ok ss
    ∧ ∀ study, study ∈ ss →
        ∃ seq ps, getitem study "processSequence" = Ok seq ∧ iter seq = Ok ps
                  ∧ ∀ p, p ∈ ps → ∃ date, getitem p "date" = Ok date.
Proof.
  apply (validated_processes_carry_dates quiet_externals document_with_dated_process
           (ValidationReport "i.json") (ValidationReport "i.json")).
  vm_compute. reflexivity.
Defined.
End required_keys.
(** ** Declared entities and the processes that use them *)

Section declare_and_resolve.
Implicit Types (st : LoadState) (io_json : json) (k : pykey).

Lemma lookup_or_keep_no_exn {V} (reg : gmap pykey V) (as_entity : V -> entity)
    io_json (id_ : json) k x :
  getitem io_json "@id" = Ok id_ → hash_key id_ = Ok k →
  ∃ x', lookup_or_keep reg as_entity io_json x = (x', None).
Proof.
  intros Hid Hk. unfold lookup_or_keep, dict_get. rewrite Hid; simpl.
  rewrite Hk; simpl. destruct (reg !! k); eauto.
Qed.

(** The identifier under which a loader has registered its object. *)
Ltac same_id Hj Hk :=
  match goal with E : getitem _ "@id" = Ok ?x |- _ =>
    rewrite Hj in E; injection E as <- end;
  dict_set_Ok;
  match goal with E : hash_key _ = Ok ?x |- _ =>
    rewrite Hk in E; injection E as <- end.

(** X11.  What is declared resolves.  Once [load] has read the
    declaration of a source, a sample, a data file or an other-material,
    an input or output that carries the same identifier resolves to the
    very object built from that declaration, whatever the registry held
    under the identifier before (a second declaration replaces the
    first), unless a registry walked later holds the identifier too:
    samples hide sources in a study, data files hide materials in an
    assay. *)
Theorem declared_entities_resolve msg io_json (id_ : json) k :
  getitem io_json "@id" = Ok id_ → hash_key id_ = Ok k →
  (∀ st sources j st' sources',
     getitem j "@id" = Ok id_ → load_source (st, sources) j = Ok (st', sources') →
     samples_dict st !! k = None →
     ∃ source, sources' = sources ++ [source] ∧ source_oid source = next_oid st
               ∧ resolve_study_io st' msg io_json = Ok (ESource source))
  ∧ (∀ st samples j st' samples',
       getitem j "@id" = Ok id_ → load_sample (st, samples) j = Ok (st', samples') →
       ∃ sample, samples' = samples ++ [sample] ∧ sample_oid sample = next_oid st
                 ∧ resolve_study_io st' msg io_json = Ok (ESample sample))
  ∧ (∀ st materials j st' materials',
       getitem j "@id" = Ok id_ →
       load_other_material (st, materials) j = Ok (st', materials') →
       data_dict st !! k = None →
       ∃ material, materials' = materials ++ [material]
                   ∧ material_oid material = next_oid st
                   ∧ resolve_assay_io st' msg io_json = Ok (EMaterial material))
  ∧ (∀ st data_files j st' data_files',
       getitem j "@id" = Ok id_ → load_data_file (st, data_files) j = Ok (st', data_files') →
       ∃ data_file, data_files' = data_files ++ [data_file]
                    ∧ data_oid data_file = next_oid st
                    ∧ resolve_assay_io st' msg io_json = Ok (EDataFile data_file)).
Proof.
  intros Hid Hk. repeat split.
  - intros st sources j st' sources' Hj H Hsample.
    unfold load_source in H. binds_Ok H. injection H as <- <-. same_id Hj Hk.
    eexists. split; [reflexivity |]. split; [reflexivity |].
    unfold resolve_study_io; simpl.
    erewrite lookup_or_keep_hit; [| exact Hid | exact Hk | apply lookup_insert_eq].
    by erewrite lookup_or_keep_miss; [| exact Hid | exact Hk | exact Hsample].
  - intros st samples j st' samples' Hj H.
    unfold load_sample in H. binds_Ok H. injection H as <- <-. same_id Hj Hk.
    eexists. split; [reflexivity |]. split; [reflexivity |].
    unfold resolve_study_io; simpl.
    destruct (lookup_or_keep_no_exn (sources_dict st) ESource io_json id_ k None Hid Hk)
      as [found1 ->].
    by erewrite lookup_or_keep_hit; [| exact Hid | exact Hk | apply lookup_insert_eq].
  - intros st materials j st' materials' Hj H Hdata.
    unfold load_other_material in H. binds_Ok H. injection H as <- <-. same_id Hj Hk.
    eexists. split; [reflexivity |]. split; [reflexivity |].
    unfold resolve_assay_io; simpl.
    destruct (lookup_or_keep_no_exn (samples_dict st) ESample io_json id_ k None Hid Hk)
      as [found1 ->].
    erewrite lookup_or_keep_hit; [| exact Hid | exact Hk | apply lookup_insert_eq].
    by erewrite lookup_or_keep_miss; [| exact Hid | exact Hk | exact Hdata].
  - intros st data_files j st' data_files' Hj H.
    unfold load_data_file in H. binds_Ok H. injection H as <- <-. same_id Hj Hk.
    eexists. split; [reflexivity |]. split; [reflexivity |].
    unfold resolve_assay_io; simpl.
    destruct (lookup_or_keep_no_exn (samples_dict st) ESample io_json id_ k None Hid Hk)
      as [found1 ->].
    destruct (lookup_or_keep_no_exn (other_materials_dict st) EMaterial io_json id_ k found1
                Hid Hk) as [found2 ->].
    by erewrite lookup_or_keep_hit; [| exact Hid | exact Hk | apply lookup_insert_eq].
Qed.

Lemma declared_entities_resolve_witness :
  ∃ st' sample,
    load_sample (state_with_source_and_sample, []) (sample_json_with "#x" "sample-x2")
    = Ok (st', [sample])
    ∧ resolve_study_io st' study_input_not_found (JDict [ ("@id", JStr "#x") ])
      = Ok (ESample sample).
Proof.
  destruct (load_sample (state_with_source_and_sample, [])
              (sample_json_with "#x" "sample-x2")) as [[st' samples']|e] eqn:Hload;
    [| by vm_compute in Hload].
  destruct (proj1 (proj2 (declared_entities_resolve study_input_not_found
                            (JDict [ ("@id", JStr "#x") ]) (JStr "#x") (KStr "#x")
                            eq_refl eq_refl))
              state_with_source_and_sample [] (sample_json_with "#x" "sample-x2")
              st' samples' eq_refl Hload) as (sample & -> & _ & Hr).
  by exists st', sample.
Defined.
End declare_and_resolve.

(** ** The second pass over a process sequence *)

Section second_pass.
Implicit Types (st : LoadState) (j : json) (k : pykey) (o : oid).

Lemma only_links_refl st : only_links st st.
Proof.
  split; [by destruct st |]. intros o. destruct (objects st !! o); [| done].
  split; [by repeat split |]. split; by left.
Qed.

Lemma only_links_process_dict st st' : only_links st st' → process_dict st' = process_dict st.
Proof. intros [H _]. by rewrite <- H. Qed.

Lemma only_links_trans st1 st2 st3 :
  only_links st1 st2 → only_links st2 st3 → only_links st1 st3.
Proof.
  intros H12 H23. pose proof (only_links_process_dict _ _ H12) as Hdict.
  destruct H12 as [E12 H12], H23 as [E23 H23]. split.
  - rewrite <- E12 at 2. rewrite <- E23. by destruct st3.
  - intros o. specialize (H12 o). specialize (H23 o).
    destruct (objects st1 !! o) as [p1|], (objects st2 !! o) as [p2|],
      (objects st3 !! o) as [p3|]; try done.
    destruct H12 as (S12 & P12 & N12), H23 as (S23 & P23 & N23).
    split; [| split].
    + unfold same_but_links in *. intuition congruence.
    + destruct P23 as [-> | (q & k & -> & Hq)]; [done |].
      right. exists q, k. by rewrite <- Hdict.
    + destruct N23 as [-> | (q & k & -> & Hq)]; [done |].
      right. exists q, k. by rewrite <- Hdict.
Qed.

Lemma dict_get_Ok {V} (reg : gmap pykey V) (x : json) (v : V) :
  dict_get reg x = Ok v → ∃ k, hash_key x = Ok k ∧ reg !! k = Some v.
Proof.
  unfold dict_get. intros H. bind_Ok H. destruct (reg !! x0) eqn:Hk; [| done].
  injection H as <-. eauto.
Qed.

Lemma link_prev_only_links st j st' :
  link_process set_prev_process "previousProcess" st j = Ok st' → only_links st st'.
Proof.
  unfold link_process, except_KeyError. intros H.
  match type of H with
  | match ?m with _ => _ end = _ => destruct m as [st1|e] eqn:Hm
  end; [| destruct e; try done; injection H as <-; apply only_links_refl].
  injection H as <-. binds_Ok Hm. injection Hm as <-.
  match goal with E : dict_get _ _ = Ok ?other, E' : dict_get _ _ = Ok ?self |- _ =>
    apply dict_get_Ok in E as (k & _ & Hother); clear E' end.
  split; [by destruct st |]. intros o. simpl. rewrite lookup_alter.
  case_decide as Ho; [subst o |].
  - destruct (objects st !! _) as [p|]; simpl; [| done].
    split; [by repeat split |]. split; [right; eauto | by left].
  - destruct (objects st !! o); [| done].
    split; [by repeat split |]. split; by left.
Qed.

Lemma link_next_only_links st j st' :
  link_process set_next_process "nextProcess" st j = Ok st' → only_links st st'.
Proof.
  unfold link_process, except_KeyError. intros H.
  match type of H with
  | match ?m with _ => _ end = _ => destruct m as [st1|e] eqn:Hm
  end; [| destruct e; try done; injection H as <-; apply only_links_refl].
  injection H as <-. binds_Ok Hm. injection Hm as <-.
  match goal with E : dict_get _ _ = Ok ?other, E' : dict_get _ _ = Ok ?self |- _ =>
    apply dict_get_Ok in E as (k & _ & Hother); clear E' end.
  split; [by destruct st |]. intros o. simpl. rewrite lookup_alter.
  case_decide as Ho; [subst o |].
  - destruct (objects st !! _) as [p|]; simpl; [| done].
    split; [by repeat split |]. split; [by left | right; eauto].
  - destruct (objects st !! o); [| done].
    split; [by repeat split |]. split; by left.
Qed.

Lemma link_processes_only_links st j st' :
  link_processes st j = Ok st' → only_links st st'.
Proof.
  unfold link_processes, for_in. intros H. bind_Ok H. clear E. revert st H.
  induction x as [|pj xs IH]; intros st H; simpl in H.
  - injection H as <-. apply only_links_refl.
  - bind_Ok H. bind_Ok E.
    eapply only_links_trans; [| by apply IH].
    eapply only_links_trans; [by eapply link_prev_only_links | by eapply link_next_only_links].
Qed.

(** X12.  The second pass over a process sequence touches nothing but
    links.  When [link_processes] returns, the registries and the object
    counter are as before, the store holds the same processes, each with
    the fields it had, and the previous and next process of each is
    either what it was or a process held by [process_dict]: a link never
    points to a process that was not loaded, whatever the document names
    as previous or next process. *)
Theorem second_pass_only_links st j st' :
  link_processes st j = Ok st' →
  set_objects st' (objects st) = st
  ∧ ∀ o, match objects st !! o, objects st' !! o with
         | Some p, Some p' =>
             same_but_links p p'
             ∧ link_kept_or_registered st (prev_process p) (prev_process p')
             ∧ link_kept_or_registered st (next_process p) (next_process p')
         | None, None => True
         | _, _ => False
         end.
Proof. apply link_processes_only_links. Qed.

Lemma second_pass_only_links_witness :
  ∃ st', link_processes state_with_two_processes linked_sequence_json = Ok st'
         ∧ set_objects st' (objects state_with_two_processes) = state_with_two_processes.
Proof.
  destruct (link_processes state_with_two_processes linked_sequence_json)
    as [st'|e] eqn:H; [| by vm_compute in H].
  exists st'. split; [reflexivity |].
  exact (proj1 (second_pass_only_links _ _ _ H)).
Defined.

(** ** The processes of a study and of an assay *)

Lemma resolve_study_io_kinds st msg io e :
  resolve_study_io st msg io = Ok e →
  (∃ s k, e = ESource s ∧ sources_dict st !! k = Some s)
  ∨ (∃ s k, e = ESample s ∧ samples_dict st !! k = Some s).
Proof.
  unfold resolve_study_io, lookup_or_keep. intros H.
  destruct (let* id_ := getitem io "@id" in dict_get (sources_dict st) id_)
    as [src|e1] eqn:Hsrc;
    destruct (let* id_ := getitem io "@id" in dict_get (samples_dict st) id_)
      as [smp|e2] eqn:Hsmp.
  - simpl in H. injection H as <-. right.
    bind_Ok Hsmp. apply dict_get_Ok in Hsmp as (k & _ & Hk). eauto.
  - destruct e2; simpl in H; try done. injection H as <-. left.
    bind_Ok Hsrc. apply dict_get_Ok in Hsrc as (k & _ & Hk). eauto.
  - destruct e1; simpl in H; try done. injection H as <-. right.
    bind_Ok Hsmp. apply dict_get_Ok in Hsmp as (k & _ & Hk). eauto.
  - destruct e1, e2; simpl in H; try done.
    bind_Ok H. by destruct x.
Qed.

Lemma map_res_Forall {A B} (f : A -> res B) (Q : B -> Prop) (xs : list A) :
  (∀ a b, f a = Ok b → Q b) → ∀ ys, map_res f xs = Ok ys → Forall Q ys ∧ length ys = length xs.
Proof.
  intros Hf. induction xs as [|a xs IH]; intros ys H; simpl in H.
  - by injection H as <-.
  - do 2 bind_Ok H. injection H as <-. destruct (IH _ E0) as [HQ Hlen].
    split; [constructor; eauto | simpl; by rewrite Hlen].
Qed.

Lemma resolve_all_study_kinds st msg pj key (l : list entity) :
  resolve_all (resolve_study_io st msg) pj key = Ok l →
  Forall (fun e => (∃ s k, e = ESource s ∧ sources_dict st !! k = Some s)
                   ∨ (∃ s k, e = ESample s ∧ samples_dict st !! k = Some s)) l
  ∧ ∃ ios xs, getitem pj key = Ok ios ∧ iter ios = Ok xs ∧ length l = length xs.
Proof.
  unfold resolve_all, collect_in. intros H. do 2 bind_Ok H.
  eapply map_res_Forall in H as [HQ Hlen]; [| intros a b; apply resolve_study_io_kinds].
  split; [exact HQ | eauto].
Qed.

(** What [load_study_process] builds and where it puts it. *)
Lemma load_study_process_built st (sequence : list oid) j st' (sequence' : list oid) :
  load_study_process (st, sequence) j = Ok (st', sequence') →
  ∃ p, sequence' = sequence ++ [next_oid st]
       ∧ objects st' !! next_oid st = Some p ∧ process_oid p = next_oid st
       ∧ prev_process p = None ∧ next_process p = None
       ∧ Forall (fun e => (∃ s k, e = ESource s ∧ sources_dict st !! k = Some s)
                          ∨ (∃ s k, e = ESample s ∧ samples_dict st !! k = Some s))
                (inputs p ++ outputs p)
       ∧ (∃ ios xs, getitem j "inputs" = Ok ios ∧ iter ios = Ok xs
                    ∧ length (inputs p) = length xs)
       ∧ (∃ ios xs, getitem j "outputs" = Ok ios ∧ iter ios = Ok xs
                    ∧ length (outputs p) = length xs)
       ∧ ∀ o, o ≠ next_oid st → objects st' !! o = objects st !! o.
Proof.
  unfold load_study_process. intros H. binds_Ok H.
  unfold register_process in H. bind_Ok H. injection H as <- <-.
  repeat match goal with
  | E : resolve_all _ _ _ = Ok _ |- _ => apply resolve_all_study_kinds in E as [? ?]
  end.
  eexists. split; [reflexivity |]. simpl. rewrite lookup_insert_eq.
  split; [reflexivity |]. simpl. repeat split; try done.
  - by apply Forall_app.
  - intros o Ho. by rewrite lookup_insert_ne.
Qed.

(** X13.  The process [load] builds for a process of a study.  It is a
    new object, appended to the sequence, not linked to any other
    process yet, with one input and one output per input and output of
    the JSON process; and each of them is a source or a sample held by
    the registries, so that no material or data file is ever an input or
    output of a study process. *)
Theorem study_process_uses_sources_and_samples st (sequence : list oid) j st'
    (sequence' : list oid) :
  load_study_process (st, sequence) j = Ok (st', sequence') →
  ∃ p, sequence' = sequence ++ [next_oid st]
       ∧ objects st' !! next_oid st = Some p ∧ process_oid p = next_oid st
       ∧ prev_process p = None ∧ next_process p = None
       ∧ Forall (fun e => (∃ s k, e = ESource s ∧ sources_dict st !! k = Some s)
                          ∨ (∃ s k, e = ESample s ∧ samples_dict st !! k = Some s))
                (inputs p ++ outputs p)
       ∧ (∃ ios xs, getitem j "inputs" = Ok ios ∧ iter ios = Ok xs
                    ∧ length (inputs p) = length xs)
       ∧ (∃ ios xs, getitem j "outputs" = Ok ios ∧ iter ios = Ok xs
                    ∧ length (outputs p) = length xs).
Proof.
  intros H. apply load_study_process_built in H as (p & H). exists p. tauto.
Qed.

Lemma study_process_uses_sources_and_samples_witness :
  ∃ st' p,
    load_study_process
      (set_protocols_dict state_with_source_and_sample (protocols_dict state_with_protocol), [])
      process_reading_x_json
    = Ok (st', [0%nat])
    ∧ objects st' !! 0%nat = Some p
    ∧ inputs p = [ESample (example_sample 1 "#x")].
Proof.
  destruct (load_study_process
              (set_protocols_dict state_with_source_and_sample
                 (protocols_dict state_with_protocol), []) process_reading_x_json)
    as [[st' sequence']|e] eqn:H; [| by vm_compute in H].
  destruct (study_process_uses_sources_and_samples _ _ _ _ _ H)
    as (p & -> & Hp & _).
  exists st', p. split; [reflexivity |]. split; [exact Hp |].
  vm_compute in H. injection H as <-. vm_compute in Hp. by injection Hp as <-.
Defined.

(** One round of the loop over the processes of an assay. *)
Lemma load_assay_process_round technology_type seq_json st (sequence : list oid)
    (g : option DiGraph) j st' (sequence' : list oid) (g' : option DiGraph) :
  load_assay_process technology_type seq_json (st, sequence, g) j = Ok (st', sequence', g') →
  sequence' = sequence ++ [next_oid st]
  ∧ g' = Some (_build_assay_graph (processes_of st' sequence'))
  ∧ data_dict st' = data_dict st ∧ other_materials_dict st' = other_materials_dict st
  ∧ samples_dict st' = samples_dict st.
Proof.
  unfold load_assay_process. intros H. binds_Ok H. injection H as <- <- <-.
  match goal with E : link_processes _ _ = Ok _ |- _ =>
    apply link_processes_only_links in E as [E _] end.
  match goal with E : register_process _ _ _ = Ok _ |- _ =>
    unfold register_process in E; bind_Ok E; injection E as <- <- end.
  match goal with E : set_objects ?s _ = _ |- _ =>
    assert (data_dict s = data_dict st ∧ other_materials_dict s = other_materials_dict st
            ∧ samples_dict s = samples_dict st) as Hsame
      by (pose proof (f_equal data_dict E) as Hdata;
          pose proof (f_equal other_materials_dict E) as Hmaterials;
          pose proof (f_equal samples_dict E) as Hsamples; by simpl in * ) end.
  by repeat split; try apply Hsame.
Qed.

Lemma load_assay_processes technology_type seq_json (xs : list json) :
  ∀ st (sequence : list oid) (g : option DiGraph) st' (sequence' : list oid)
    (g' : option DiGraph),
    for_each (load_assay_process technology_type seq_json) xs (st, sequence, g)
    = Ok (st', sequence', g') →
    length sequence' = (length sequence + length xs)%nat
    ∧ (xs = [] → st' = st ∧ sequence' = sequence ∧ g' = g)
    ∧ (xs ≠ [] → g' = Some (_build_assay_graph (processes_of st' sequence')))
    ∧ data_dict st' = data_dict st ∧ other_materials_dict st' = other_materials_dict st.
Proof.
  induction xs as [|j xs IH]; intros st sequence g st' sequence' g' H; simpl in H.
  - injection H as <- <- <-. repeat split; try done; lia.
  - apply res_bind_Ok in H as ([[st1 sequence1] g1] & E & H).
    apply (load_assay_process_round technology_type seq_json st sequence g j) in E
      as (-> & -> & D1 & M1 & _).
    apply IH in H as (Hlen & Hnil & Hcons & D2 & M2).
    rewrite length_app in Hlen. simpl in Hlen.
    split; [simpl; lia |]. split; [done |].
    split; [| split; congruence].
    intros _. destruct xs as [|j' xs]; [| by apply Hcons].
    by destruct Hnil as (-> & -> & ->).
Qed.

Lemma for_each_invariant {A St} (I : St -> Prop) (body : St -> A -> res St) (xs : list A) :
  (∀ a s s', I s → body s a = Ok s' → I s') →
  ∀ s s', I s → for_each body xs s = Ok s' → I s'.
Proof.
  intros Hbody. induction xs as [|a xs IH]; intros s s' Hs H; simpl in H.
  - by injection H as <-.
  - bind_Ok H. eapply IH; [| exact H]. by eapply Hbody.
Qed.

Lemma for_in_invariant {St} (I : St -> Prop) j (body : St -> json -> res St) s s' :
  (∀ a s s', I s → body s a = Ok s' → I s') →
  I s → for_in j body s = Ok s' → I s'.
Proof.
  intros Hbody Hs H. unfold for_in in H. bind_Ok H.
  by eapply (for_each_invariant I body).
Qed.

Lemma resolve_assay_io_kinds st msg io e :
  resolve_assay_io st msg io = Ok e →
  (∃ s k, e = ESample s ∧ samples_dict st !! k = Some s)
  ∨ (∃ m k, e = EMaterial m ∧ other_materials_dict st !! k = Some m)
  ∨ (∃ d k, e = EDataFile d ∧ data_dict st !! k = Some d).
Proof.
  unfold resolve_assay_io, lookup_or_keep. intros H.
  destruct (let* id_ := getitem io "@id" in dict_get (samples_dict st) id_)
    as [smp|e1] eqn:Hsmp;
    destruct (let* id_ := getitem io "@id" in dict_get (other_materials_dict st) id_)
      as [mat|e2] eqn:Hmat;
    destruct (let* id_ := getitem io "@id" in dict_get (data_dict st) id_)
      as [dat|e3] eqn:Hdat;
    repeat match goal with err : exn |- _ => destruct err end;
    simpl in H; try done;
    try (bind_Ok H;
         match type of H with match ?y with _ => _ end = _ => by destruct y end);
    injection H as <-;
    [ right; right; bind_Ok Hdat; apply dict_get_Ok in Hdat as (k & _ & Hk)
    | right; left; bind_Ok Hmat; apply dict_get_Ok in Hmat as (k & _ & Hk)
    | right; right; bind_Ok Hdat; apply dict_get_Ok in Hdat as (k & _ & Hk)
    | left; bind_Ok Hsmp; apply dict_get_Ok in Hsmp as (k & _ & Hk)
    | right; right; bind_Ok Hdat; apply dict_get_Ok in Hdat as (k & _ & Hk)
    | right; left; bind_Ok Hmat; apply dict_get_Ok in Hmat as (k & _ & Hk)
    | right; right; bind_Ok Hdat; apply dict_get_Ok in Hdat as (k & _ & Hk) ];
    eauto.
Qed.

Lemma resolve_all_assay_kinds st msg pj key (l : list entity) :
  resolve_all (resolve_assay_io st msg) pj key = Ok l →
  Forall (fun e => (∃ s k, e = ESample s ∧ samples_dict st !! k = Some s)
                   ∨ (∃ m k, e = EMaterial m ∧ other_materials_dict st !! k = Some m)
                   ∨ (∃ d k, e = EDataFile d ∧ data_dict st !! k = Some d)) l.
Proof.
  unfold resolve_all, collect_in. intros H. do 2 bind_Ok H.
  by eapply map_res_Forall in H as [HQ _]; [| intros a b; apply resolve_assay_io_kinds].
Qed.

Lemma load_assay_process_from_registries technology_type seq_json st (sequence : list oid)
    (g : option DiGraph) j st' (sequence' : list oid) (g' : option DiGraph) :
  load_assay_process technology_type seq_json (st, sequence, g) j = Ok (st', sequence', g') →
  sequence_from_registries st sequence → sequence_from_registries st' sequence'.
Proof.
  intros H Hseq.
  pose proof (load_assay_process_round _ _ _ _ _ _ _ _ _ H) as (-> & _ & D & M & S).
  unfold load_assay_process in H. binds_Ok H. injection H as <- <- <-.
  match goal with E : link_processes _ _ = Ok _ |- _ =>
    apply link_processes_only_links in E as [_ Hlinks] end.
  match goal with E : register_process _ _ _ = Ok _ |- _ =>
    unfold register_process in E; bind_Ok E; injection E as <- <- end.
  repeat match goal with
  | E : resolve_all _ _ _ = Ok _ |- _ => apply resolve_all_assay_kinds in E
  end.
  intros o Ho. specialize (Hlinks o). simpl in Hlinks.
  unfold sequence_from_registries. rewrite D, M, S.
  destruct (decide (o = next_oid st)) as [-> | Hne].
  - rewrite lookup_insert_eq in Hlinks.
    destruct (objects _ !! next_oid st) as [p'|]; [| done].
    destruct Hlinks as ((_ & _ & _ & _ & _ & _ & _ & _ & Hin & Hout) & _).
    exists p'. split; [done |]. rewrite Hin, Hout. simpl. by apply Forall_app.
  - rewrite lookup_insert_ne in Hlinks by done.
    apply elem_of_app in Ho as [Ho | Ho%list_elem_of_singleton]; [| done].
    destruct (Hseq o Ho) as (p & Hp & Hio). simpl in Hlinks. rewrite Hp in Hlinks.
    destruct (objects _ !! o) as [p'|]; [| done].
    destruct Hlinks as ((_ & _ & _ & _ & _ & _ & _ & _ & Hin & Hout) & _).
    exists p'. split; [done |]. by rewrite Hin, Hout.
Qed.

Lemma load_units_samples j st st' :
  for_in j load_unit st = Ok st' → samples_dict st' = samples_dict st.
Proof.
  apply (for_in_invariant (fun s' => samples_dict s' = samples_dict st)); [| done].
  intros a s0 s0' Hs0 Hbody. unfold load_unit in Hbody. binds_Ok Hbody.
  by injection Hbody as <-.
Qed.

Lemma load_data_files_registry j st st' (files : list DataFile) :
  for_in j load_data_file (st, []) = Ok (st', files) → data_dict st = ∅ →
  samples_dict st' = samples_dict st
  ∧ ∀ k d, data_dict st' !! k = Some d → d ∈ files ∧ hash_key (data_id d) = Ok k.
Proof.
  intros H Hempty. revert H.
  apply (for_in_invariant
           (fun s => samples_dict s.1 = samples_dict st
                     ∧ ∀ k d, data_dict s.1 !! k = Some d →
                         d ∈ s.2 ∧ hash_key (data_id d) = Ok k)).
  - intros a [s0 acc] [s0' acc'] [Hs0 Hacc] Hbody.
    unfold load_data_file in Hbody. binds_Ok Hbody. injection Hbody as <- <-.
    dict_set_Ok. simpl in *. split; [done |].
    intros k d Hd. apply lookup_insert_Some in Hd as [[<- <-] | [_ Hd]].
    + split; [set_solver | done].
    + destruct (Hacc k d Hd). split; [set_solver | done].
  - split; [done |]. intros k d Hd. simpl in Hd. by rewrite Hempty, lookup_empty in Hd.
Qed.

Lemma load_categories_frame j st (categories : list OntologyAnnotation) st'
    (categories' : list OntologyAnnotation) :
  for_in j
    (fun state category_json =>
       let '(st, categories) := state in
       let* (st, category) := load_characteristic_category st category_json in
       Ok (st, categories ++ [category]))
    (st, categories) = Ok (st', categories') →
  samples_dict st' = samples_dict st ∧ data_dict st' = data_dict st.
Proof.
  apply (for_in_invariant
           (fun s' => samples_dict s'.1 = samples_dict st ∧ data_dict s'.1 = data_dict st));
    [| by split].
  intros a [s0 acc] [s0' acc'] [Hs0 Hacc] Hbody.
  binds_Ok Hbody. injection Hbody as <- <-.
  match goal with E' : load_characteristic_category _ _ = Ok _ |- _ =>
    unfold load_characteristic_category in E'; binds_Ok E'; injection E' as <- <- end.
  by simpl in *.
Qed.

Lemma load_other_materials_registry j st st' (others : list Material) :
  for_in j load_other_material (st, []) = Ok (st', others) → other_materials_dict st = ∅ →
  samples_dict st' = samples_dict st ∧ data_dict st' = data_dict st
  ∧ ∀ k m, other_materials_dict st' !! k = Some m →
      m ∈ others ∧ hash_key (material_id m) = Ok k.
Proof.
  intros H Hempty. revert H.
  apply (for_in_invariant
           (fun s' => samples_dict s'.1 = samples_dict st ∧ data_dict s'.1 = data_dict st
                      ∧ ∀ k m, other_materials_dict s'.1 !! k = Some m →
                          m ∈ s'.2 ∧ hash_key (material_id m) = Ok k)).
  - intros a [s0 acc] [s0' acc'] (Hs0 & Hd0 & Hacc) Hbody.
    unfold load_other_material in Hbody. binds_Ok Hbody. injection Hbody as <- <-.
    dict_set_Ok. simpl in *. split; [done |]. split; [done |].
    intros k m Hm. apply lookup_insert_Some in Hm as [[<- <-] | [_ Hm]].
    + split; [set_solver | done].
    + destruct (Hacc k m Hm). split; [set_solver | done].
  - split; [done |]. split; [done |].
    intros k m Hm. simpl in Hm. by rewrite Hempty, lookup_empty in Hm.
Qed.

Lemma load_assay_processes_from_registries technology_type seq_json (xs : list json) st
    st' (sequence' : list oid) (g' : option DiGraph) :
  for_each (load_assay_process technology_type seq_json) xs (st, [], None)
  = Ok (st', sequence', g') →
  samples_dict st' = samples_dict st ∧ sequence_from_registries st' sequence'.
Proof.
  apply (for_each_invariant
           (fun s' => samples_dict s'.1.1 = samples_dict st
                      ∧ sequence_from_registries s'.1.1 s'.1.2)).
  - intros a [[s0 seq0] g0] [[s0' seq0'] g0'] [Hs0 Hseq0] Hbody.
    simpl in Hs0, Hseq0 |- *. split.
    + by apply load_assay_process_round in Hbody as (_ & _ & _ & _ & ->).
    + by eapply load_assay_process_from_registries.
  - split; [done |]. by intros o ?%elem_of_nil.
Qed.

(** What [load_assay] returns. *)
Lemma load_assay_result st (categories : list OntologyAnnotation) (assays : list Assay) j st'
    (categories' : list OntologyAnnotation) (assays' : list Assay) :
  load_assay (st, categories, assays) j = Ok (st', categories', assays') →
  ∃ assay seq_json xs,
    assays' = assays ++ [assay]
    ∧ getitem j "processSequence" = Ok seq_json ∧ iter seq_json = Ok xs
    ∧ length (assay_process_sequence assay) = length xs
    ∧ (xs = [] → assay_graph assay = None)
    ∧ (xs ≠ [] →
       assay_graph assay
       = Some (_build_assay_graph (processes_of st' (assay_process_sequence assay))))
    ∧ samples_dict st' = samples_dict st
    ∧ (∀ k d, data_dict st' !! k = Some d →
         d ∈ assay_data_files assay ∧ hash_key (data_id d) = Ok k)
    ∧ (∀ k m, other_materials_dict st' !! k = Some m →
         m ∈ assay_other_material assay ∧ hash_key (material_id m) = Ok k)
    ∧ sequence_from_registries st' (assay_process_sequence assay).
Proof.
  unfold load_assay. intros H. binds_Ok H. injection H as <- <- <-.
  match goal with E : for_in _ load_unit _ = Ok _ |- _ =>
    apply load_units_samples in E as Hunits end.
  match goal with E : for_in _ load_data_file _ = Ok _ |- _ =>
    apply load_data_files_registry in E as [Hfiles_samples Hfiles]; [| done] end.
  match goal with E : for_in _ load_other_material _ = Ok _ |- _ =>
    apply load_other_materials_registry in E as (Hmat_samples & Hmat_data & Hmat);
      [| done] end.
  match goal with E : for_in _ _ (_, categories) = Ok _ |- _ =>
    apply load_categories_frame in E as [Hcat_samples Hcat_data] end.
  match goal with
  | E : for_in ?seq_json (load_assay_process _ _) _ = Ok _ |- _ =>
      unfold for_in in E; bind_Ok E;
      match goal with Hiter : iter seq_json = Ok ?xs |- _ =>
        pose proof (load_assay_processes _ _ xs _ _ _ _ _ _ E)
          as (Hlen & Hnil & Hcons & Hp_data & Hp_mat);
        apply load_assay_processes_from_registries in E as [Hp_samples Hp_seq];
        eexists _, seq_json, xs
      end
  end.
  split; [reflexivity |]. split; [eassumption |]. split; [eassumption |]. simpl in *.
  split; [exact Hlen |].
  split; [by intros (_ & _ & ->)%Hnil |].
  split; [exact Hcons |].
  split; [congruence |].
  split; [intros k d; rewrite Hp_data, Hmat_data; simpl; rewrite Hcat_data; apply Hfiles |].
  split; [intros k m; rewrite Hp_mat; apply Hmat |].
  exact Hp_seq.
Qed.

(** X14.  The graph of an assay.  The assay [load] builds has one
    process per element of the JSON process sequence; without any it has
    no graph at all ([None], where a study gets the empty graph), and
    otherwise its graph is the one [_build_assay_graph] makes of the
    whole sequence, with the links as the last run of the second pass
    has left them. *)
Theorem assay_graph_of_linked_sequence st (categories : list OntologyAnnotation)
    (assays : list Assay) j st' (categories' : list OntologyAnnotation)
    (assays' : list Assay) :
  load_assay (st, categories, assays) j = Ok (st', categories', assays') →
  ∃ assay seq_json xs,
    assays' = assays ++ [assay]
    ∧ getitem j "processSequence" = Ok seq_json ∧ iter seq_json = Ok xs
    ∧ length (assay_process_sequence assay) = length xs
    ∧ (xs = [] → assay_graph assay = None)
    ∧ (xs ≠ [] →
       assay_graph assay
       = Some (_build_assay_graph (processes_of st' (assay_process_sequence assay)))).
Proof.
  intros H. apply load_assay_result in H as (assay & seq_json & xs & H).
  exists assay, seq_json, xs. tauto.
Qed.

Lemma assay_graph_of_linked_sequence_witness :
  ∃ st' assay,
    load_assay (state_with_protocol, [], []) (assay_json_with []) = Ok (st', [], [assay])
    ∧ assay_graph assay = None.
Proof.
  destruct (load_assay (state_with_protocol, [], []) (assay_json_with []))
    as [[[st' categories'] assays']|e] eqn:H; [| by vm_compute in H].
  destruct (assay_graph_of_linked_sequence _ _ _ _ _ _ _ H)
    as (assay & seq_json & xs & Hassays & Hseq & Hxs & _ & Hnone & _).
  injection Hseq as <-. injection Hxs as <-.
  exists st', assay. split; [| by apply Hnone].
  simpl in Hassays. subst assays'. f_equal. f_equal.
  vm_compute in H. by injection H as _ <- _.
Defined.

(** X15.  An assay is loaded against its own declarations.  When
    [load_assay] returns, [data_dict] and [other_materials_dict] hold
    data files and other-materials of this assay only, each under its
    own identifier, and every input and output of every process of the
    assay is a data file or an other-material of the assay, or a sample
    held by [samples_dict]: what an earlier assay has declared is out of
    reach, and a source is never an input or output of an assay
    process. *)
Theorem assay_processes_stay_within_assay st (categories : list OntologyAnnotation)
    (assays : list Assay) j st' (categories' : list OntologyAnnotation)
    (assays' : list Assay) :
  load_assay (st, categories, assays) j = Ok (st', categories', assays') →
  ∃ assay,
    assays' = assays ++ [assay]
    ∧ samples_dict st' = samples_dict st
    ∧ (∀ k d, data_dict st' !! k = Some d →
         d ∈ assay_data_files assay ∧ hash_key (data_id d) = Ok k)
    ∧ (∀ k m, other_materials_dict st' !! k = Some m →
         m ∈ assay_other_material assay ∧ hash_key (material_id m) = Ok k)
    ∧ ∀ o, o ∈ assay_process_sequence assay →
        ∃ p, objects st' !! o = Some p
             ∧ Forall (within_assay st' assay) (inputs p ++ outputs p).
Proof.
  intros H. apply load_assay_result in H
    as (assay & seq_json & xs & ? & _ & _ & _ & _ & _ & ? & Hdata & Hmat & Hseq).
  exists assay. split; [done |]. split; [done |]. split; [exact Hdata |].
  split; [exact Hmat |].
  intros o Ho. destruct (Hseq o Ho) as (p & Hp & Hio). exists p. split; [done |].
  eapply Forall_impl; [exact Hio |]. intros e He. unfold within_assay.
  destruct He as [(s & k & -> & Hs) | [(m & k & -> & Hm) | (d & k & -> & Hd)]].
  - eauto.
  - by apply Hmat in Hm as [? _].
  - by apply Hdata in Hd as [? _].
Qed.

Lemma assay_processes_stay_within_assay_witness :
  ∃ st' assay p,
    load_assay (state_with_protocol, [], []) (assay_json_with [ assay_process_json ])
    = Ok (st', [], [assay])
    ∧ assay_process_sequence assay = [1%nat]
    ∧ objects st' !! 1%nat = Some p
    ∧ Forall (within_assay st' assay) (inputs p ++ outputs p).
Proof.
  destruct (load_assay (state_with_protocol, [], [])
              (assay_json_with [ assay_process_json ]))
    as [[[st' categories'] assays']|e] eqn:H; [| by vm_compute in H].
  destruct (assay_processes_stay_within_assay _ _ _ _ _ _ _ H)
    as (assay & Hassays & _ & _ & _ & Hseq).
  simpl in Hassays. subst assays'.
  assert (categories' = [] ∧ assay_process_sequence assay = [1%nat]) as [-> Hone]
    by (vm_compute in H; by injection H as _ <- <-).
  destruct (Hseq 1%nat) as (p & Hp & Hio); [rewrite Hone; by left |].
  by exists st', assay, p.
Defined.
End second_pass.
(** ** What [load] makes of a study *)

Section studies.
Implicit Types (st : LoadState) (j : json) (k : pykey) (o : oid).

Lemma for_each_Forall2 {A St B} (R : A -> B -> Prop)
    (body : St * list B -> A -> res (St * list B)) (xs : list A) :
  (∀ a s acc s' acc', body (s, acc) a = Ok (s', acc') → ∃ b, acc' = acc ++ [b] ∧ R a b) →
  ∀ s acc s' acc', for_each body xs (s, acc) = Ok (s', acc') →
    ∃ new, acc' = acc ++ new ∧ Forall2 R xs new.
Proof.
  intros Hbody. induction xs as [|a xs IH]; intros s acc s' acc' H; simpl in H.
  - injection H as <- <-. exists []. by rewrite app_nil_r.
  - apply res_bind_Ok in H as ([s1 acc1] & E & H).
    destruct (Hbody _ _ _ _ _ E) as (b & -> & Hb).
    destruct (IH _ _ _ _ H) as (new & -> & Hnew).
    exists (b :: new). split; [by rewrite <- app_assoc | by constructor].
Qed.

Lemma for_in_Forall2 {St B} (R : json -> B -> Prop)
    (body : St * list B -> json -> res (St * list B)) j s s' (bs : list B) :
  for_in j body (s, []) = Ok (s', bs) →
  (∀ a s acc s' acc', body (s, acc) a = Ok (s', acc') → ∃ b, acc' = acc ++ [b] ∧ R a b) →
  ∃ xs, iter j = Ok xs ∧ Forall2 R xs bs.
Proof.
  intros H Hbody. unfold for_in in H. apply res_bind_Ok in H as (xs & Hxs & H).
  exists xs. split; [done |].
  by destruct (for_each_Forall2 R body xs Hbody _ _ _ _ H) as (new & -> & Hnew).
Qed.

Lemma load_source_kept st (acc : list Source) j st' (acc' : list Source) :
  load_source (st, acc) j = Ok (st', acc') →
  ∃ b, acc' = acc ++ [b] ∧ getitem j "@id" = Ok (source_id b).
Proof.
  unfold load_source. intros H. binds_Ok H. injection H as <- <-. by eexists.
Qed.

Lemma load_sample_kept st (acc : list Sample) j st' (acc' : list Sample) :
  load_sample (st, acc) j = Ok (st', acc') →
  ∃ b, acc' = acc ++ [b] ∧ getitem j "@id" = Ok (sample_id b).
Proof.
  unfold load_sample. intros H. binds_Ok H. injection H as <- <-. by eexists.
Qed.

Lemma load_data_file_kept st (acc : list DataFile) j st' (acc' : list DataFile) :
  load_data_file (st, acc) j = Ok (st', acc') →
  ∃ b, acc' = acc ++ [b] ∧ getitem j "@id" = Ok (data_id b).
Proof.
  unfold load_data_file. intros H. binds_Ok H. injection H as <- <-. by eexists.
Qed.

Lemma load_other_material_kept st (acc : list Material) j st' (acc' : list Material) :
  load_other_material (st, acc) j = Ok (st', acc') →
  ∃ b, acc' = acc ++ [b] ∧ getitem j "@id" = Ok (material_id b).
Proof.
  unfold load_other_material. intros H. binds_Ok H. injection H as <- <-. by eexists.
Qed.

Lemma load_assay_kept (s : LoadState * list OntologyAnnotation) (acc : list Assay) j
    (s' : LoadState * list OntologyAnnotation) (acc' : list Assay) :
  load_assay (s, acc) j = Ok (s', acc') →
  ∃ assay, acc' = acc ++ [assay] ∧ assay_stands_for j assay.
Proof.
  destruct s as [st categories], s' as [st' categories']. intros H.
  pose proof (load_assay_result _ _ _ _ _ _ _ H)
    as (assay0 & seq_json & xs & Hassays & Hseq & Hxs & Hlen & _).
  unfold load_assay in H. binds_Ok H. injection H as <- <- <-.
  apply app_inj_tail in Hassays as [_ <-].
  eexists. split; [reflexivity |]. unfold assay_stands_for, elements_at. simpl.
  repeat match goal with
  | E : for_in _ load_data_file _ = Ok _ |- _ =>
      eapply (for_in_Forall2 (fun j b => getitem j "@id" = Ok (data_id b))) in E
        as (files & Hfiles & Hkept_files); [| intros; eapply load_data_file_kept; eassumption]
  | E : for_in _ load_other_material _ = Ok _ |- _ =>
      eapply (for_in_Forall2 (fun j b => getitem j "@id" = Ok (material_id b))) in E
        as (others & Hothers & Hkept_others); [| intros; eapply load_other_material_kept; eassumption]
  end.
  split; [| split].
  - exists files. split; [| done].
    match goal with E : getitem j "dataFiles" = Ok _ |- _ => rewrite E end. done.
  - exists others. split; [| done].
    match goal with E : getitem j "materials" = Ok ?m, E' : getitem ?m "otherMaterials" = Ok _
      |- _ => rewrite E; simpl; rewrite E' end. done.
  - exists xs. split; [| done]. by rewrite Hseq.
Qed.

Lemma load_study_processes (xs : list json) :
  ∀ st (sequence : list oid) st' (sequence' : list oid),
    for_each load_study_process xs (st, sequence) = Ok (st', sequence') →
    of_sources_and_samples st sequence →
    of_sources_and_samples st' sequence'
    ∧ length sequence' = (length sequence + length xs)%nat.
Proof.
  induction xs as [|j xs IH]; intros st sequence st' sequence' H Hseq; simpl in H.
  - injection H as <- <-. split; [done | simpl; lia].
  - apply res_bind_Ok in H as ([st1 sequence1] & E & H).
    destruct (load_study_process_built _ _ _ _ _ E)
      as (p & -> & Hp & _ & _ & _ & Hio & _ & _ & Hrest).
    apply IH in H as [Hseq' Hlen].
    + split; [done |]. rewrite length_app in Hlen. simpl in *. lia.
    + assert (Forall (fun e => match e with
                               | ESource _ | ESample _ => True
                               | _ => False
                               end) (inputs p ++ outputs p)) as Hkinds.
      { eapply Forall_impl; [exact Hio |].
        by intros e [(s & k & -> & _) | (s & k & -> & _)]. }
      intros o [Ho | ->%list_elem_of_singleton]%elem_of_app; [| by exists p].
      destruct (decide (o = next_oid st)) as [-> | Hne]; [by exists p |].
      destruct (Hseq o Ho) as (q & Hq & Hqio). exists q. split; [| done].
      by rewrite (Hrest o Hne).
Qed.

Lemma graph_of_sources_and_samples st (sequence : list oid) n :
  of_sources_and_samples st sequence →
  n ∈ nodes (_build_assay_graph (processes_of st sequence)) →
  n.1 = CProcess ∨ n.1 = CSource ∨ n.1 = CSample.
Proof.
  intros Hseq Hn. apply build_assay_graph_nodes in Hn as (e & He & Hn).
  apply build_assay_graph_edges in He as (p & Hp & Hc).
  unfold processes_of in Hp. apply list_elem_of_omap in Hp as (o & Ho & Hp).
  destruct (Hseq o Ho) as (p' & Hp' & Hio). rewrite Hp in Hp'. injection Hp' as <-.
  rewrite Forall_app, !Forall_forall in Hio. destruct Hio as [Hin Hout].
  destruct Hc as [(x & Hx & _ & ->) | [(_ & q & _ & ->) |
                  [(x & Hx & ->) | (_ & q & _ & ->)]]]; simpl in Hn.
  - destruct Hn as [-> | ->]; [by left |]. specialize (Hout x Hx). destruct x; simpl; tauto.
  - destruct Hn as [-> | ->]; by left.
  - destruct Hn as [-> | ->]; [| by left]. specialize (Hin x Hx). destruct x; simpl; tauto.
  - destruct Hn as [-> | ->]; by left.
Qed.

Lemma load_study_result st (studies : list Study) j st' (studies' : list Study) :
  load_study (st, studies) j = Ok (st', studies') →
  ∃ study,
    studies' = studies ++ [study]
    ∧ study_stands_for j study
    ∧ ∀ n, n ∈ nodes (study_graph study) →
        n.1 = CProcess ∨ n.1 = CSource ∨ n.1 = CSample.
Proof.
  unfold load_study. intros H. binds_Ok H. injection H as <- <-.
  eexists. split; [reflexivity |]. unfold study_stands_for, elements_at. simpl.
  repeat match goal with
  | E : for_in _ load_source _ = Ok _ |- _ =>
      eapply (for_in_Forall2 (fun j b => getitem j "@id" = Ok (source_id b))) in E
        as (sources_json & Hsources & Hkept_sources);
        [| intros; eapply load_source_kept; eassumption]
  | E : for_in _ load_sample _ = Ok _ |- _ =>
      eapply (for_in_Forall2 (fun j b => getitem j "@id" = Ok (sample_id b))) in E
        as (samples_json & Hsamples & Hkept_samples);
        [| intros; eapply load_sample_kept; eassumption]
  | E : for_in _ load_assay _ = Ok _ |- _ =>
      eapply (for_in_Forall2 assay_stands_for) in E
        as (assays_json & Hassays & Hkept_assays);
        [| intros; eapply load_assay_kept; eassumption]
  | E : for_in _ load_study_process _ = Ok _ |- _ =>
      unfold for_in in E; apply res_bind_Ok in E as (processes & Hprocesses & E);
      apply load_study_processes in E as [Hkinds Hlen]; [| by intros o ?%elem_of_nil]
  end.
  repeat match goal with
  | E : getitem j ?key = Ok ?x, E' : getitem j ?key = Ok ?y |- _ =>
      assert (x = y) as -> by congruence; clear E'
  end.
  repeat match goal with
  | E : getitem _ _ = Ok _ |- _ => rewrite E; simpl
  end.
  split.
  { split; [by exists sources_json |]. split; [by exists samples_json |].
    split; [by exists processes | by exists assays_json]. }
  intros n. apply graph_of_sources_and_samples.
  match goal with E : link_processes _ _ = Ok _ |- _ =>
    apply link_processes_only_links in E as [_ Hlinks] end.
  intros o Ho. destruct (Hkinds o Ho) as (p & Hp & Hio).
  specialize (Hlinks o). rewrite Hp in Hlinks.
  destruct (objects _ !! o) as [p'|]; [| done].
  destruct Hlinks as ((_ & _ & _ & _ & _ & _ & _ & _ & Hin & Hout) & _).
  exists p'. split; [done |]. by rewrite Hin, Hout.
Qed.

(** What [load] makes of the studies of a document. *)
Lemma load_result (isajson : json) (investigation : Investigation) :
  load isajson = Ok (Some investigation) →
  ∃ js, elements_at isajson None "studies" = Ok js
    ∧ Forall2 (fun j study =>
                 study_stands_for j study
                 ∧ ∀ n, n ∈ nodes (study_graph study) →
                     n.1 = CProcess ∨ n.1 = CSource ∨ n.1 = CSample)
              js (inv_studies investigation).
Proof.
  unfold load. intros H.
  assert (∃ st, build_investigation isajson = Ok (investigation, st)) as [st Hbuild].
  { destruct isajson; try done;
      (apply res_bind_Ok in H as ([inv st] & Hbuild & H); injection H as <-; by exists st). }
  clear H. unfold build_investigation in Hbuild. binds_Ok Hbuild. injection Hbuild as <- <-.
  match goal with E : for_in _ load_study _ = Ok _ |- _ =>
    eapply (for_in_Forall2
              (fun j study =>
                 study_stands_for j study
                 ∧ ∀ n, n ∈ nodes (study_graph study) →
                     n.1 = CProcess ∨ n.1 = CSource ∨ n.1 = CSample)) in E
      as (studies_json & Hstudies & Hkept)
  end.
  - exists studies_json. split; [| exact Hkept]. unfold elements_at. simpl.
    match goal with E : getitem isajson "studies" = Ok _ |- _ => rewrite E end.
    simpl. exact Hstudies.
  - intros a s acc s' acc' Hbody.
    apply load_study_result in Hbody as (study & -> & Hstands & Hgraph). by exists study.
Qed.

(** X16.  [load] keeps the declarations of the document.  The
    investigation it returns has one study per study of the document, in
    the same order; each has the sources and the samples of its JSON
    study, as many and in the same order, each under the '@id' of its
    declaration, one process per JSON process, and one assay per JSON
    assay, with the data files and the other-materials of that assay
    kept in the same way. *)
Theorem load_keeps_declarations (isajson : json) (investigation : Investigation) :
  load isajson = Ok (Some investigation) →
  ∃ js, elements_at isajson None "studies" = Ok js
    ∧ Forall2 study_stands_for js (inv_studies investigation).
Proof.
  intros H. apply load_result in H as (js & Hjs & Hkept). exists js. split; [done |].
  eapply Forall2_impl; [exact Hkept |]. by intros j study [? _].
Qed.

Lemma load_keeps_declarations_witness :
  ∃ investigation,
    load document_with_study_process = Ok (Some investigation)
    ∧ Forall2 study_stands_for [ study_with_process_json ] (inv_studies investigation).
Proof.
  destruct (load document_with_study_process) as [[investigation|]|e] eqn:H;
    [| by vm_compute in H | by vm_compute in H].
  destruct (load_keeps_declarations _ _ H) as (js & Hjs & Hkept).
  vm_compute in Hjs. injection Hjs as <-. by exists investigation.
Defined.

(** X17.  The graph of a study holds processes, sources and samples
    only: in every study of the investigation [load] returns, the inputs
    and outputs of the processes come from [sources_dict] and
    [samples_dict], the second pass leaves them as they are, and
    [_build_assay_graph] adds no other node. *)
Theorem study_graphs_of_sources_and_samples (isajson : json)
    (investigation : Investigation) :
  load isajson = Ok (Some investigation) →
  ∀ study, study ∈ inv_studies investigation →
    ∀ n, n ∈ nodes (study_graph study) →
      n.1 = CProcess ∨ n.1 = CSource ∨ n.1 = CSample.
Proof.
  intros H study Hstudy. apply load_result in H as (js & _ & Hkept).
  apply (Forall2_Forall_r _ (fun study => ∀ n, n ∈ nodes (study_graph study) →
                               n.1 = CProcess ∨ n.1 = CSource ∨ n.1 = CSample))
    in Hkept.
  - rewrite Forall_forall in Hkept. by apply Hkept.
  - apply Forall_forall. by intros j _ study' [_ ?].
Qed.

Lemma study_graphs_of_sources_and_samples_witness :
  ∃ investigation,
    load document_with_study_process = Ok (Some investigation)
    ∧ ∀ study, study ∈ inv_studies investigation →
        ∀ n, n ∈ nodes (study_graph study) →
          n.1 = CProcess ∨ n.1 = CSource ∨ n.1 = CSample.
Proof.
  destruct (load document_with_study_process) as [[investigation|]|e] eqn:H;
    [| by vm_compute in H | by vm_compute in H].
  exists investigation. split; [reflexivity |].
  exact (study_graphs_of_sources_and_samples _ _ H).
Defined.
End studies.
(** ** The material rules of [validate2] *)

Section material_rules.
Implicit Types (study_json j : json) (k : pykey).

Lemma map_res_app {A B} (f : A -> res B) (xs ys : list A) :
  map_res f (xs ++ ys)
  = let* a := map_res f xs in let* b := map_res f ys in Ok (a ++ b).
Proof.
  induction xs as [|x xs IH]; simpl.
  - destruct (map_res f ys); done.
  - destruct (f x); simpl; [| done]. rewrite IH.
    destruct (map_res f xs); simpl; [| done]. destruct (map_res f ys); done.
Qed.

Lemma flat_map_res_app {A B} (f : A -> res (list B)) (xs ys : list A) :
  flat_map_res f (xs ++ ys)
  = let* a := flat_map_res f xs in let* b := flat_map_res f ys in Ok (a ++ b).
Proof.
  unfold flat_map_res. rewrite map_res_app.
  destruct (map_res f xs); simpl; [| done]. destruct (map_res f ys); simpl; [| done].
  by rewrite concat_app.
Qed.

Lemma assoc_assoc_set key (v : json) (d : list (string * json)) key' :
  assoc key' (assoc_set key v d) = if String.eqb key' key then Some v else assoc key' d.
Proof.
  induction d as [|[k0 v0] d IH]; simpl.
  - destruct (String.eqb key' key); done.
  - destruct (String.eqb key k0) eqn:E0; simpl.
    + apply String.eqb_eq in E0 as <-. destruct (String.eqb key' key); done.
    + destruct (String.eqb key' k0) eqn:E1; [| exact IH].
      apply String.eqb_eq in E1 as ->.
      destruct (String.eqb k0 key) eqn:E2; [| done].
      apply String.eqb_eq in E2 as ->. by rewrite String.eqb_refl in E0.
Qed.

Lemma getitem_with_process_sequence study_json (v x : json) key :
  getitem study_json "processSequence" = Ok x →
  getitem (with_process_sequence study_json v) key
  = if String.eqb key "processSequence" then Ok v else getitem study_json key.
Proof.
  destruct study_json; try done. intros _. simpl. rewrite assoc_assoc_set.
  destruct (String.eqb key "processSequence"); done.
Qed.

Lemma extend_loop (assays : list json) : ∀ (all all' : json),
  for_each extend_with_assay assays all = Ok all' →
  ∃ extra, flat_map_res assay_processes assays = Ok extra
    ∧ ((assays = [] ∧ all' = all ∧ extra = [])
       ∨ ∃ l, all = JList l ∧ all' = JList (l ++ extra))
    ∧ ∀ l', for_each extend_with_assay assays (JList l') = Ok (JList (l' ++ extra)).
Proof.
  induction assays as [|a assays IH]; intros all all' H; simpl in H.
  - injection H as <-. exists []. split; [done |]. split; [by left |].
    intros l'. by rewrite app_nil_r.
  - bind_Ok H. destruct all as [| | | |l|]; try done. simpl in E. binds_Ok E.
    injection E as <-. apply IH in H as (extra & Hextra & Hshape & Hagain).
    unfold flat_map_res in Hextra. bind_Ok Hextra. injection Hextra as <-.
    exists (x1 ++ concat x). split; [| split].
    + unfold flat_map_res. simpl. unfold assay_processes at 1.
      match goal with E : getitem a _ = Ok _ |- _ => rewrite E end. simpl.
      match goal with E : iter _ = Ok _ |- _ => rewrite E end. simpl.
      match goal with E : map_res _ _ = Ok _ |- _ => rewrite E end. done.
    + right. exists l. split; [done |].
      destruct Hshape as [(-> & -> & Hnil) | (l0 & [= <-] & ->)].
      * by rewrite Hnil, app_nil_r.
      * by rewrite app_assoc.
    + intros l'. simpl.
      match goal with E : getitem a _ = Ok _ |- _ => rewrite E end. simpl.
      match goal with E : iter _ = Ok _ |- _ => rewrite E end. simpl.
      by rewrite Hagain, app_assoc.
Qed.

(** X18.  [get_io_ids_in_process_sequence] changes the study it reads.
    When it returns, the study holds under 'processSequence' its own
    processes followed by the processes of all its assays, and is
    otherwise as before; the identifiers returned are those of the
    inputs and outputs of that longer list.  A second call on the study
    returns again, appends the processes of the assays once more and
    returns their identifiers twice. *)
Theorem io_ids_call_extends_the_study study_json (ids : list json) study_json' :
  get_io_ids_in_process_sequence study_json = Ok (ids, study_json') →
  ∃ (all all' assays : json) (before of_assays extra ids_extra : list json),
    getitem study_json "processSequence" = Ok all ∧ iter all = Ok before
    ∧ getitem study_json "assays" = Ok assays ∧ iter assays = Ok of_assays
    ∧ flat_map_res assay_processes of_assays = Ok extra
    ∧ getitem study_json' "processSequence" = Ok all' ∧ iter all' = Ok (before ++ extra)
    ∧ (∀ key, key ≠ "processSequence" → getitem study_json' key = getitem study_json key)
    ∧ flat_map_res process_io_ids (before ++ extra) = Ok ids
    ∧ flat_map_res process_io_ids extra = Ok ids_extra
    ∧ ∃ (all'' study_json'' : json),
        get_io_ids_in_process_sequence study_json' = Ok (ids ++ ids_extra, study_json'')
        ∧ getitem study_json'' "processSequence" = Ok all''
        ∧ iter all'' = Ok (before ++ extra ++ extra).
Proof.
  unfold get_io_ids_in_process_sequence at 1. intros H.
  apply res_bind_Ok in H as (all & Hall & H).
  apply res_bind_Ok in H as (assays & Hassays & H).
  apply res_bind_Ok in H as (all' & Hloop & H).
  apply res_bind_Ok in H as (processes & Hiter & H).
  apply res_bind_Ok in H as (ids0 & Hids & H).
  injection H as <- <-.
  unfold for_in in Hloop. apply res_bind_Ok in Hloop as (of_assays & Has & Hloop).
  destruct (extend_loop of_assays all all' Hloop) as (extra & Hextra & Hshape & Hagain).
  assert (∃ before all'',
            iter all = Ok before ∧ processes = before ++ extra
            ∧ for_each extend_with_assay of_assays all' = Ok all''
            ∧ iter all'' = Ok (before ++ extra ++ extra))
    as (before & all'' & Hbefore & -> & Hsecond & Hiter2).
  { destruct Hshape as [(-> & -> & ->) | (l & -> & ->)].
    - exists processes, all. rewrite !app_nil_r. by repeat split.
    - exists l, (JList ((l ++ extra) ++ extra)). simpl in Hiter. injection Hiter as <-.
      repeat split; try done. simpl. by rewrite app_assoc. }
  pose proof Hids as Hids'. rewrite flat_map_res_app in Hids'.
  apply res_bind_Ok in Hids' as (ids_before & Hids_before & Hids').
  apply res_bind_Ok in Hids' as (ids_extra & Hids_extra & Hids').
  injection Hids' as <-.
  exists all, all', assays, before, of_assays, extra, ids_extra.
  split; [done |]. split; [done |]. split; [done |]. split; [done |].
  split; [exact Hextra |].
  split; [by erewrite getitem_with_process_sequence |]. split; [done |].
  split.
  { intros key Hkey. erewrite getitem_with_process_sequence; [| done].
    destruct (String.eqb key "processSequence") eqn:E; [| done].
    by apply String.eqb_eq in E. }
  split; [done |]. split; [done |].
  exists all'', (with_process_sequence (with_process_sequence study_json all') all'').
  split; [| split].
  - unfold get_io_ids_in_process_sequence.
    erewrite !getitem_with_process_sequence by done. simpl.
    rewrite Hassays. simpl. unfold for_in. rewrite Has. simpl.
    rewrite Hsecond. simpl. rewrite Hiter2. simpl.
    rewrite (app_assoc before extra extra), flat_map_res_app.
    rewrite Hids, Hids_extra. simpl. reflexivity.
  - erewrite getitem_with_process_sequence; [reflexivity |].
    by erewrite getitem_with_process_sequence.
  - exact Hiter2.
Qed.

Lemma io_ids_call_extends_the_study_witness :
  ∃ ids study_json' ids_extra study_json'',
    get_io_ids_in_process_sequence study_with_assay_process = Ok (ids, study_json')
    ∧ get_io_ids_in_process_sequence study_json' = Ok (ids ++ ids_extra, study_json'').
Proof.
  destruct (get_io_ids_in_process_sequence study_with_assay_process)
    as [[ids study_json']|e] eqn:H; [| by vm_compute in H].
  destruct (io_ids_call_extends_the_study _ _ _ H)
    as (all & all' & assays & before & of_assays & extra & ids_extra & _ & _ & _ & _ & _
        & _ & _ & _ & _ & _ & all'' & study_json'' & Hsecond & _).
  by exists ids, study_json', ids_extra, study_json''.
Defined.

Lemma py_set_spec (xs : list json) (s : gset pykey) :
  py_set xs = Ok s →
  (∀ k, k ∈ s ↔ covers xs k) ∧ Forall (fun x => ∃ k, hash_key x = Ok k) xs.
Proof.
  unfold py_set. intros H. bind_Ok H. injection H as <-.
  match goal with E : map_res hash_key xs = Ok ?ks |- _ => rename E into Hks; revert ks Hks end.
  induction xs as [|x xs IH]; intros ks Hks; simpl in Hks.
  - injection Hks as <-. split; [| done]. intros k. split; [set_solver |].
    by intros (j & ?%elem_of_nil & _).
  - do 2 bind_Ok Hks. injection Hks as <-.
    match goal with E : map_res hash_key xs = Ok _ |- _ =>
      destruct (IH _ E) as [Hmem Hall] end.
    split; [| constructor; eauto].
    intros k. rewrite list_to_set_cons, elem_of_union, elem_of_singleton, Hmem. split.
    + intros [-> | (j & Hj & Hk)]; [exists x; split; [by left | done] |].
      exists j. split; [by right | done].
    + intros (j & [-> | Hj]%elem_of_cons & Hk); [left; congruence | right; by exists j].
Qed.

(** X19.  Rules 1002 to 1005 compare counts.
    [check_material_ids_not_declared_used] prints when the inputs and
    outputs of the processes carry more distinct identifiers than the
    study and its assays declare; the identifiers it then prints are
    those used and not declared, and there is at least one.  When the
    declarations are at least as many, it prints nothing, whether or
    not every identifier used is declared.  In both cases the study is
    left as [get_io_ids_in_process_sequence] leaves it. *)
Theorem undeclared_io_ids_reported_by_count study_json (out : list message) study_json' :
  check_material_ids_not_declared_used study_json = Ok (out, study_json') →
  ∃ (source_ids sample_ids material_ids data_file_ids io_ids : list json)
    (nodes ios : gset pykey),
    get_source_ids study_json = Ok source_ids ∧ get_sample_ids study_json = Ok sample_ids
    ∧ get_material_ids study_json = Ok material_ids
    ∧ get_data_file_ids study_json = Ok data_file_ids
    ∧ get_io_ids_in_process_sequence study_json = Ok (io_ids, study_json')
    ∧ py_set (source_ids ++ sample_ids ++ material_ids ++ data_file_ids) = Ok nodes
    ∧ py_set io_ids = Ok ios
    ∧ ((size nodes < size ios)%nat →
         out = [mkMessage io_ids_not_declared [FSet (ios ∖ nodes)]] ∧ ios ∖ nodes ≠ ∅)
    ∧ ((size ios ≤ size nodes)%nat → out = []).
Proof.
  unfold check_material_ids_not_declared_used. intros H.
  apply res_bind_Ok in H as (source_ids & Hsources & H).
  apply res_bind_Ok in H as (sample_ids & Hsamples & H).
  apply res_bind_Ok in H as (material_ids & Hmaterials & H).
  apply res_bind_Ok in H as (data_file_ids & Hdata & H).
  apply res_bind_Ok in H as ([io_ids study1] & Hio & H).
  apply res_bind_Ok in H as (ios & Hios & H).
  apply res_bind_Ok in H as (nodes & Hnodes & H).
  exists source_ids, sample_ids, material_ids, data_file_ids, io_ids, nodes, ios.
  do 4 (split; [done |]).
  destruct (0 <? Z.of_nat (size ios) - Z.of_nat (size nodes))%Z eqn:Hcount;
    injection H as <- <-; do 3 (split; [done |]).
  - apply Z.ltb_lt in Hcount. split; [| intros ?; lia]. intros _. split; [done |].
    intros Hempty. assert (ios ⊆ nodes) as Hsub by set_solver.
    apply subseteq_size in Hsub. lia.
  - apply Z.ltb_ge in Hcount. split; [intros ?; lia | done].
Qed.

(** In [study_with_undeclared_input] one identifier is declared and one
    is used: the input '#sample/x' is declared nowhere, and nothing is
    printed. *)
Lemma undeclared_io_ids_reported_by_count_witness :
  ∃ (source_ids sample_ids material_ids data_file_ids io_ids : list json)
    (nodes ios : gset pykey),
    get_source_ids study_with_undeclared_input = Ok source_ids
    ∧ get_sample_ids study_with_undeclared_input = Ok sample_ids
    ∧ get_material_ids study_with_undeclared_input = Ok material_ids
    ∧ get_data_file_ids study_with_undeclared_input = Ok data_file_ids
    ∧ get_io_ids_in_process_sequence study_with_undeclared_input
      = Ok (io_ids, study_with_undeclared_input)
    ∧ py_set (source_ids ++ sample_ids ++ material_ids ++ data_file_ids) = Ok nodes
    ∧ py_set io_ids = Ok ios
    ∧ ((size nodes < size ios)%nat →
         [] = [mkMessage io_ids_not_declared [FSet (ios ∖ nodes)]] ∧ ios ∖ nodes ≠ ∅)
    ∧ ((size ios ≤ size nodes)%nat → @nil message = []).
Proof.
  apply (undeclared_io_ids_reported_by_count study_with_undeclared_input []
           study_with_undeclared_input).
  vm_compute. reflexivity.
Defined.

(** X20.  Rules 1015 to 1018.  [check_material_ids_declared_used] runs
    the collector on the study, then
    [get_io_ids_in_process_sequence], and prints nothing exactly when
    every identifier collected is equal to the identifier of some input
    or output; otherwise it prints one line with both lists.  The study
    is left as [get_io_ids_in_process_sequence] leaves it. *)
Theorem unused_node_ids_reported study_json (id_collector_func : json -> res (list json))
    (out : list message) study_json' :
  check_material_ids_declared_used study_json id_collector_func = Ok (out, study_json') →
  ∃ node_ids io_ids : list json,
    id_collector_func study_json = Ok node_ids
    ∧ get_io_ids_in_process_sequence study_json = Ok (io_ids, study_json')
    ∧ (out = [] ↔ ∀ x, x ∈ node_ids → py_in x io_ids = true)
    ∧ (out ≠ [] → out = [mkMessage node_ids_not_used [FValues node_ids; FValues io_ids]]).
Proof.
  unfold check_material_ids_declared_used. intros H.
  apply res_bind_Ok in H as (node_ids & Hnodes & H).
  apply res_bind_Ok in H as ([io_ids study1] & Hio & H).
  apply res_bind_Ok in H as (nodes & Hnode_set & H).
  apply res_bind_Ok in H as (ios & Hio_set & H).
  exists node_ids, io_ids.
  apply py_set_spec in Hnode_set as [Hn Hn_hash], Hio_set as [Hi _].
  rewrite Forall_forall in Hn_hash.
  assert (nodes ⊆ ios ↔ ∀ x, x ∈ node_ids → py_in x io_ids = true) as Hsub.
  { split.
    - intros Hsub x Hx. destruct (Hn_hash x Hx) as [k Hk].
      apply (covers_py_in x io_ids k Hk), Hi, Hsub, Hn. by exists x.
    - intros Hall k (x & Hx & Hk)%Hn. apply Hi.
      apply (py_in_covers x io_ids k); [by apply Hall | done]. }
  destruct (bool_decide (nodes ⊆ ios)) eqn:Hdec; simpl in H; injection H as <- <-.
  - apply bool_decide_eq_true in Hdec. split; [done |]. split; [done |].
    split; [| done]. split; [intros _; by apply Hsub | done].
  - apply bool_decide_eq_false in Hdec. split; [done |]. split; [done |].
    split; [| done]. split; [done |]. intros Hall. exfalso. by apply Hdec, Hsub.
Qed.

Lemma unused_node_ids_reported_witness :
  ∃ node_ids io_ids : list json,
    get_data_file_ids study_with_assay_process = Ok node_ids
    ∧ (∃ study_json', get_io_ids_in_process_sequence study_with_assay_process
                      = Ok (io_ids, study_json'))
    ∧ ∀ x, x ∈ node_ids → py_in x io_ids = true.
Proof.
  destruct (check_material_ids_declared_used study_with_assay_process get_data_file_ids)
    as [[out study_json']|e] eqn:H; [| by vm_compute in H].
  destruct (unused_node_ids_reported _ _ _ _ H) as (node_ids & io_ids & Hn & Hio & Hout & _).
  exists node_ids, io_ids. split; [done |]. split; [by exists study_json' |].
  apply Hout. vm_compute in H. by injection H as <- _.
Defined.

Lemma flat_map_res_elem {A B} (f : A -> res (list B)) (xs : list A) (out : list B) :
  flat_map_res f xs = Ok out →
  ∀ m, m ∈ out ↔ ∃ x l, x ∈ xs ∧ f x = Ok l ∧ m ∈ l.
Proof.
  unfold flat_map_res. intros H. bind_Ok H. injection H as <-.
  match goal with E : map_res f xs = Ok ?ls |- _ => rename E into Hls; revert ls Hls end.
  induction xs as [|x xs IH]; intros ls Hls m; simpl in Hls.
  - injection Hls as <-. simpl. split; [by intros ?%elem_of_nil |].
    by intros (x & l & ?%elem_of_nil & _).
  - do 2 bind_Ok Hls. injection Hls as <-. simpl. rewrite elem_of_app.
    match goal with E : map_res f xs = Ok _ |- _ => rewrite (IH _ E) end. split.
    + intros [Hm | (y & l & Hy & Hf & Hm)].
      * eexists x, _. split; [by left | done].
      * exists y, l. split; [by right | done].
    + intros (y & l & [-> | Hy]%elem_of_cons & Hf & Hm).
      * left. congruence.
      * right. eauto.
Qed.

Lemma check_link_spec key template (process_ids : list json) (process : json)
    (out : list message) :
  check_link key template process_ids process = Ok out →
  ∀ m, m ∈ out ↔
    ∃ link id_ : json,
      ref_at process key = Ok link ∧ getitem process "@id" = Ok id_
      ∧ py_in link process_ids = false
      ∧ m = mkMessage template [FValue link; FValue id_].
Proof.
  unfold check_link, except_KeyError. intros H m.
  destruct (ref_at process key) as [link|e] eqn:Hlink; simpl in H.
  - destruct (py_in link process_ids) eqn:Hin; simpl in H.
    + injection H as <-. split; [by intros ?%elem_of_nil |].
      intros (link' & id_ & [= <-] & _ & ? & _). congruence.
    + destruct (getitem process "@id") as [id_|e] eqn:Hid; simpl in H.
      * injection H as <-. rewrite list_elem_of_singleton. split.
        -- intros ->. by exists link, id_.
        -- by intros (link' & id' & [= <-] & [= <-] & _ & ->).
      * destruct e; try done. injection H as <-. split; [by intros ?%elem_of_nil |].
        by intros (link' & id' & _ & ? & _).
  - destruct e; try done. injection H as <-. split; [by intros ?%elem_of_nil |].
    by intros (link' & id' & ? & _).
Qed.

(** X21.  Rule 1006.  When [check_process_sequence_links] returns, it
    has printed one line for each previous-process link and each
    next-process link whose identifier is equal to the identifier of no
    process of the sequence, and nothing else: a process without the
    key, or whose link carries no '@id', is passed over in silence. *)
Theorem dangling_links_reported_exactly (process_sequence_json : json) (out : list message) :
  check_process_sequence_links process_sequence_json = Ok out →
  ∃ process_ids processes : list json,
    items_at process_sequence_json "@id" = Ok process_ids
    ∧ iter process_sequence_json = Ok processes
    ∧ ∀ m, m ∈ out ↔
        ∃ process link id_ : json,
          process ∈ processes ∧ getitem process "@id" = Ok id_
          ∧ py_in link process_ids = false
          ∧ ((ref_at process "previousProcess" = Ok link
              ∧ m = mkMessage previous_process_not_in_sequence [FValue link; FValue id_])
             ∨ (ref_at process "nextProcess" = Ok link
                ∧ m = mkMessage next_process_not_in_sequence [FValue link; FValue id_])).
Proof.
  unfold check_process_sequence_links. intros H.
  apply res_bind_Ok in H as (process_ids & Hids & H).
  apply res_bind_Ok in H as (processes & Hiter & H).
  exists process_ids, processes. split; [done |]. split; [done |].
  intros m. rewrite (flat_map_res_elem _ _ _ H). split.
  - intros (process & l & Hin & Hbody & Hm).
    apply res_bind_Ok in Hbody as (previous & Hprev & Hbody).
    apply res_bind_Ok in Hbody as (next & Hnext & Hbody).
    injection Hbody as <-. apply elem_of_app in Hm as [Hm | Hm].
    + apply (check_link_spec _ _ _ _ _ Hprev) in Hm as (link & id_ & ? & ? & ? & ->).
      exists process, link, id_. eauto 10.
    + apply (check_link_spec _ _ _ _ _ Hnext) in Hm as (link & id_ & ? & ? & ? & ->).
      exists process, link, id_. eauto 10.
  - intros (process & link & id_ & Hin & Hid & Hpy & Hm).
    destruct (flat_map_res_elem _ _ _ H m) as [_ Hback].
    unfold flat_map_res in H. apply res_bind_Ok in H as (ls & Hls & _).
    assert (∃ l, (let* previous := check_link "previousProcess"
                                     previous_process_not_in_sequence process_ids process in
                  let* next := check_link "nextProcess" next_process_not_in_sequence
                                 process_ids process in
                  Ok (previous ++ next)) = Ok l) as [l Hl].
    { clear -Hls Hin. revert ls Hls. induction processes as [|p ps IH]; intros ls Hls;
        [by apply elem_of_nil in Hin |].
      simpl in Hls. apply res_bind_Ok in Hls as (l & Hl & Hls).
      apply res_bind_Ok in Hls as (ls' & Hls' & _).
      apply elem_of_cons in Hin as [-> | Hin]; [eauto | by eapply IH]. }
    exists process, l. split; [done |]. split; [done |].
    apply res_bind_Ok in Hl as (previous & Hprev & Hl).
    apply res_bind_Ok in Hl as (next & Hnext & Hl). injection Hl as <-.
    apply elem_of_app. destruct Hm as [[Hlink ->] | [Hlink ->]].
    + left. apply (check_link_spec _ _ _ _ _ Hprev). by exists link, id_.
    + right. apply (check_link_spec _ _ _ _ _ Hnext). by exists link, id_.
Qed.

Lemma dangling_links_reported_exactly_witness :
  ∃ out, check_process_sequence_links sequence_with_dangling_link = Ok out
    ∧ mkMessage previous_process_not_in_sequence
        [FValue (JStr "#process/p0"); FValue (JStr "#process/p1")] ∈ out.
Proof.
  destruct (check_process_sequence_links sequence_with_dangling_link)
    as [out|e] eqn:H; [| by vm_compute in H].
  exists out. split; [reflexivity |].
  destruct (dangling_links_reported_exactly _ _ H) as (ids & ps & Hids & Hps & Hout).
  apply Hout. vm_compute in Hids. injection Hids as <-.
  vm_compute in Hps. injection Hps as <-.
  eexists _, (JStr "#process/p0"), (JStr "#process/p1").
  split; [by left |]. split; [reflexivity |]. split; [reflexivity |]. by left.
Defined.
End material_rules.
(** ** Rule 3010: the annotations [validate2] collects *)

Section annotations.
Implicit Types (j isa_json : json) (d : list (string * json)).

Lemma assoc_in_keys key d : key ∈ keys d → ∃ v, assoc key d = Some v.
Proof.
  unfold keys. induction d as [|[k0 v0] d IH]; simpl; [set_solver |].
  rewrite elem_of_union, elem_of_singleton.
  destruct (String.eqb key k0) eqn:E; [eauto |].
  intros [-> | Hin]; [by rewrite String.eqb_refl in E | by apply IH].
Qed.

Lemma is_annotation_keys d :
  is_annotation d = true →
  ∃ accession source, assoc "termAccession" d = Some accession
                      ∧ assoc "termSource" d = Some source.
Proof.
  unfold is_annotation. intros H. apply orb_true_iff in H.
  assert ("termAccession" ∈ keys d ∧ "termSource" ∈ keys d) as [Ha Hs].
  { destruct H as [H | H]; apply bool_decide_eq_true in H; rewrite H;
      unfold annotation_keys, annotation_keys_with_id; set_solver. }
  destruct (assoc_in_keys _ _ Ha) as [a Ea], (assoc_in_keys _ _ Hs) as [s Es]. eauto.
Qed.

(** The collector holds what it held and, for every object of the
    document with the keys of an ontology annotation, that object. *)
Lemma walk_and_get_annotations_spec j : ∀ (acc : list json) (x : json),
  x ∈ walk_and_get_annotations j acc ↔
  x ∈ acc ∨ ∃ d, x = JDict d ∧ subdoc (JDict d) j ∧ is_annotation d = true.
Proof.
  induction j as [| | | |l IH|d IH] using json_nested_ind; intros acc x;
    try (simpl; split; [by left | by intros [? | (d & _ & Hsub & _)]; [| inversion Hsub]]).
  - simpl. revert acc. induction IH as [|y l Hy _ IHl]; intros acc; simpl.
    + split; [by left |]. intros [? | (d & _ & Hsub & _)]; [done |].
      apply subdoc_JList_inv in Hsub as [? | (y & ?%elem_of_nil & _)]; done.
    + rewrite IHl, Hy. split.
      * intros [[? | (d & -> & Hsub & Hd)] | (d & -> & Hsub & Hd)]; [by left | |].
        -- right. exists d. split; [done |]. split; [| done].
           eapply subdoc_list; [by left | done].
        -- right. exists d. split; [done |]. split; [| done].
           apply subdoc_JList_inv in Hsub as [? | (z & Hz & Hsub)]; [done |].
           eapply subdoc_list; [by right | done].
      * intros [? | (d & -> & Hsub & Hd)]; [by left; left |].
        apply subdoc_JList_inv in Hsub as [? | (z & [-> | Hz]%elem_of_cons & Hsub)];
          [done | |].
        -- left. right. by exists d.
        -- right. exists d. split; [done |]. split; [| done]. by eapply subdoc_list.
  - simpl.
    assert (∀ acc0, x ∈ fold_left (fun a kv => walk_and_get_annotations kv.2 a) d acc0 ↔
              x ∈ acc0 ∨ ∃ d', x = JDict d' ∧ (∃ kv, kv ∈ d ∧ subdoc (JDict d') kv.2)
                               ∧ is_annotation d' = true) as Hfold.
    { clear acc. induction IH as [|y l Hy _ IHl]; intros acc0; simpl.
      - split; [by left |]. by intros [? | (d' & _ & (kv & ?%elem_of_nil & _) & _)].
      - rewrite IHl, Hy. split.
        + intros [[? | (d' & -> & Hsub & Hd)] | (d' & -> & (kv & Hkv & Hsub) & Hd)];
            [by left | |].
          * right. exists d'. split; [done |]. split; [| done]. exists y.
            split; [by left | done].
          * right. exists d'. split; [done |]. split; [| done]. exists kv.
            split; [by right | done].
        + intros [? | (d' & -> & (kv & [-> | Hkv]%elem_of_cons & Hsub) & Hd)];
            [by left; left | |].
          * left. right. by exists d'.
          * right. exists d'. split; [done |]. split; [| done]. by exists kv. }
    rewrite Hfold. split.
    + intros [Hx | (d' & -> & Hkv & Hd)].
      * destruct (is_annotation d) eqn:Hd; [| by left].
        apply elem_of_app in Hx as [? | ->%list_elem_of_singleton]; [by left |].
        right. exists d. split; [done |]. split; [constructor | done].
      * right. exists d'. split; [done |]. split; [| done].
        apply subdoc_JDict_inv. by right.
    + intros [Hx | (d' & -> & Hsub & Hd)].
      * left. destruct (is_annotation d); [set_solver | done].
      * apply subdoc_JDict_inv in Hsub as [[= ->] | Hkv].
        -- left. rewrite Hd. set_solver.
        -- right. by exists d'.
Qed.

Lemma filter_res_spec {A} (test : A -> res bool) (xs : list A) :
  Forall (fun x => ∃ b, test x = Ok b) xs →
  ∃ l, filter_res test xs = Ok l ∧ ∀ x, x ∈ l ↔ x ∈ xs ∧ test x = Ok true.
Proof.
  induction 1 as [|x xs [b Hb] _ (l & Hl & Hmem)]; simpl.
  - exists []. split; [done |]. intros x. split; [by intros ?%elem_of_nil |].
    by intros [?%elem_of_nil _].
  - rewrite Hb, Hl. simpl. eexists. split; [reflexivity |].
    intros y. destruct b.
    + rewrite !elem_of_cons, Hmem. split.
      * intros [-> | [? ?]]; [by split; [left |] | by split; [right |]].
      * intros [[-> | ?] ?]; [by left | by right].
    + rewrite Hmem, elem_of_cons. split; [intros [? ?]; by split; [right |] |].
      intros [[-> | ?] Hy]; [congruence | done].
Qed.

(** X22.  Rule 3010 never fails and misses nothing.  On every document
    [check_term_accession_used_no_source_ref] returns; it prints one
    line, with the list of the annotations concerned, when some object
    of the document, at any depth, has the keys of an ontology
    annotation, a term accession other than the empty string and the
    empty string as term source, and it prints nothing otherwise. *)
Theorem accession_without_source_reported isa_json :
  ∃ flagged : list json,
    check_term_accession_used_no_source_ref isa_json
    = Ok (match flagged with
          | [] => []
          | _ => [mkMessage accession_without_source [FValues flagged]]
          end)
    ∧ ∀ x, x ∈ flagged ↔
        ∃ d, x = JDict d ∧ subdoc (JDict d) isa_json ∧ is_annotation d = true
             ∧ is_empty_str (dict_at d "termAccession") = false
             ∧ is_empty_str (dict_at d "termSource") = true.
Proof.
  unfold check_term_accession_used_no_source_ref.
  destruct (filter_res_spec uses_accession_without_source
              (walk_and_get_annotations isa_json [])) as (flagged & Hflagged & Hmem).
  { apply Forall_forall. intros x Hx.
    apply walk_and_get_annotations_spec in Hx as [?%elem_of_nil | (d & -> & _ & Hd)];
      [done |].
    destruct (is_annotation_keys d Hd) as (a & s & Ha & Hs).
    unfold uses_accession_without_source. simpl. rewrite Ha, Hs. simpl.
    destruct (is_empty_str a); simpl; eauto. }
  exists flagged. rewrite Hflagged. simpl. split; [by destruct flagged |].
  intros x. rewrite Hmem, walk_and_get_annotations_spec. split.
  - intros [[?%elem_of_nil | (d & -> & Hsub & Hd)] Htest]; [done |].
    exists d. split; [done |]. split; [done |]. split; [done |].
    destruct (is_annotation_keys d Hd) as (a & s & Ha & Hs).
    unfold uses_accession_without_source in Htest. simpl in Htest.
    unfold dict_at. rewrite Ha, Hs in *. simpl in *.
    destruct (is_empty_str a); simpl in *; [done |]. by injection Htest as ->.
  - intros (d & -> & Hsub & Hd & Hacc & Hsrc). split; [right; by exists d |].
    destruct (is_annotation_keys d Hd) as (a & s & Ha & Hs).
    unfold uses_accession_without_source. simpl.
    unfold dict_at in Hacc, Hsrc. rewrite Ha, Hs in *. simpl in *.
    by rewrite Hacc, Hsrc.
Qed.
End annotations.
(** ** Comments, guarded and unguarded *)

Section comments.
Implicit Types (owner : json) (cs : list Comment).

Lemma comments_until_KeyError_all (xs : list json) : ∀ acc cs,
  map_res load_comment xs = Ok cs → comments_until_KeyError xs acc = Ok (acc ++ cs).
Proof.
  induction xs as [|x xs IH]; intros acc cs H; simpl in H.
  - injection H as <-. by rewrite app_nil_r.
  - do 2 bind_Ok H. injection H as <-. simpl.
    match goal with E : load_comment x = Ok _ |- _ => rewrite E end.
    erewrite IH by eassumption. by rewrite <- app_assoc.
Qed.

Lemma comments_until_KeyError_prefix (xs : list json) : ∀ acc cs,
  comments_until_KeyError xs acc = Ok cs →
  ∃ good rest new,
    xs = good ++ rest ∧ map_res load_comment good = Ok new ∧ cs = acc ++ new
    ∧ (rest = [] ∨ ∃ x rest', rest = x :: rest' ∧ load_comment x = Raise KeyError).
Proof.
  induction xs as [|x xs IH]; intros acc cs H; simpl in H.
  - injection H as <-. exists [], [], [].
    split; [done |]. split; [done |]. split; [by rewrite app_nil_r |]. by left.
  - destruct (load_comment x) as [c|e] eqn:Hx.
    + apply IH in H as (good & rest & new & -> & Hgood & -> & Hrest).
      exists (x :: good), rest, (c :: new). simpl. rewrite Hx, Hgood. simpl.
      by rewrite <- app_assoc.
    + destruct e; try done. injection H as <-.
      exists [], (x :: xs), [].
      split; [done |]. split; [done |]. split; [by rewrite app_nil_r |]. right. eauto.
Qed.

Lemma comments_until_KeyError_no_KeyError (xs : list json) : ∀ acc,
  comments_until_KeyError xs acc ≠ Raise KeyError.
Proof.
  induction xs as [|x xs IH]; intros acc; simpl; [done |].
  destruct (load_comment x) as [c|e]; [apply IH | by destruct e].
Qed.

(** X23.  Comments read inside [try: ... except KeyError: pass] (those of
    publications, studies, processes and data files) and comments read
    without a guard (those of the investigation and its contacts).  The
    guarded loop never raises [KeyError]; it agrees with the unguarded
    loop whenever that one returns; and what it returns otherwise is the
    comments that stand before the first one without 'name' or 'value':
    that comment and all that follow are dropped without a word. *)
Theorem guarded_comments_stop_at_first_gap owner :
  try_load_comments owner ≠ Raise KeyError
  ∧ (∀ cs, load_comments owner = Ok cs → try_load_comments owner = Ok cs)
  ∧ (∀ cs, try_load_comments owner = Ok cs →
       (getitem owner "comments" = Raise KeyError ∧ cs = [])
       ∨ ∃ comments good rest,
           getitem owner "comments" = Ok comments ∧ iter comments = Ok (good ++ rest)
           ∧ map_res load_comment good = Ok cs
           ∧ (rest = [] ∨ ∃ x rest', rest = x :: rest' ∧ load_comment x = Raise KeyError)).
Proof.
  unfold try_load_comments, load_comments, collect_in. split; [| split].
  - destruct (getitem owner "comments") as [comments|e]; [| by destruct e].
    destruct (iter comments) as [xs|e] eqn:Hiter; simpl.
    + apply comments_until_KeyError_no_KeyError.
    + destruct comments; simpl in Hiter; congruence.
  - intros cs H. do 2 bind_Ok H.
    match goal with E : getitem owner _ = Ok _ |- _ => rewrite E end.
    match goal with E : iter _ = Ok _ |- _ => rewrite E end. simpl.
    by apply (comments_until_KeyError_all _ []).
  - intros cs H. destruct (getitem owner "comments") as [comments|e].
    + right. bind_Ok H.
      apply comments_until_KeyError_prefix in H as (good & rest & new & -> & Hgood & -> & Hr).
      by exists comments, good, rest.
    + destruct e; try done. injection H as <-. by left.
Qed.
End comments.
